(** * DataHealthChecker (scripts/check_data_health.py)

    A shallow embedding of the five data-health checks of
    [DataHealthChecker] and the properties of their reports.

    Modelling conventions.
    - A pandas cell is a [float]: an exact rational, an infinity or NaN.
      NaN is the null value of [isnull].  Rounding, overflow and signed
      zeros of IEEE doubles are not modelled.
    - A [Timestamp] is its int64 count of nanoseconds since the epoch, as
      pandas stores it; [pd.to_datetime] of an integer is the timestamp
      with that count.
    - A frame has one of the three kinds of index the code can meet: the
      range index of [pd.read_csv], a datetime index, or the two-level
      (instrument, datetime) index of [D.features].  The frames of one
      dataset come from one loader, so their date levels are of one kind.
    - A dict is an association list in insertion order (Python dicts keep
      it and the reports follow it); a Python set is a [gset].
    - [result_dict] is kept column by column, as the code fills it, and
      [pd.DataFrame] refuses columns of different lengths.
    - Methods run in a monad over the [world]: the checker object, the
      calendar resource on disk and the log; exceptions are values.
    - check_data runs in a [session]: the checker, the calendar resource
      and the lines written so far, those of the checks it calls and its
      own, in the order they are written.
    - The constructor reads the file system and the data provider
      through an [environment]; an exception raised there is a
      [Failure].  The attribute [problems] is never read and is left
      out of the checker. *)

From Stdlib Require Import ZArith QArith Qabs Lia Lqa Ascii String DecimalString.
From stdpp Require Import base list strings sorting gmap.

Local Open Scope string_scope.
Local Open Scope Z_scope.
Local Open Scope list_scope.

(** ** Floats *)

Inductive float : Type :=
  | NaN
  | Inf (negative : bool)
  | Fin (q : Q).

Definition Qlt_bool (a b : Q) : bool := negb (Qle_bool b a).

Definition Qis_zero (a : Q) : bool := Qeq_bool a 0.

(** [a > b]; every comparison with NaN is false. *)
Definition fgt (a b : float) : bool :=
  match a, b with
  | NaN, _ | _, NaN => false
  | Inf true, _ => false
  | Inf false, Inf false => false
  | Inf false, _ => true
  | Fin _, Inf neg => neg
  | Fin x, Fin y => Qlt_bool y x
  end.

(** [a / b] *)
Definition fdiv (a b : float) : float :=
  match a, b with
  | NaN, _ | _, NaN => NaN
  | Inf _, Inf _ => NaN
  | Inf s, Fin y => Inf (xorb s (Qlt_bool y 0))
  | Fin _, Inf _ => Fin 0
  | Fin x, Fin y =>
      if Qis_zero y then (if Qis_zero x then NaN else Inf (Qlt_bool x 0))
      else Fin (x / y)
  end.

(** [a - b] *)
Definition fsub (a b : float) : float :=
  match a, b with
  | NaN, _ | _, NaN => NaN
  | Inf s, Inf t => if Bool.eqb s t then NaN else Inf s
  | Inf s, Fin _ => Inf s
  | Fin _, Inf t => Inf (negb t)
  | Fin x, Fin y => Fin (x - y)
  end.

Definition fabs (a : float) : float :=
  match a with
  | NaN => NaN
  | Inf _ => Inf false
  | Fin x => Fin (Qabs x)
  end.

Definition isnull (a : float) : bool :=
  match a with NaN => true | _ => false end.

(** [a == b]; NaN equals nothing. *)
Definition feq (a b : float) : bool :=
  match a, b with
  | Inf s, Inf t => Bool.eqb s t
  | Fin x, Fin y => Qeq_bool x y
  | _, _ => false
  end.

(** ** Series *)

(** [Series.shift(1)]: the values move down one row, the first is NaN. *)
Definition shift (s : list float) : list float :=
  match s with
  | [] => []
  | _ => NaN :: removelast s
  end.

(** [Series.pct_change(fill_method=None)]: [data / data.shift(1) - 1]. *)
Definition pct_change (s : list float) : list float :=
  zip_with (fun x p => fsub (fdiv x p) (Fin 1)) s (shift s).

(** [Series.abs()] *)
Definition series_abs (s : list float) : list float := map fabs s.

(** [Series.max()] skips NaN; it is NaN when nothing else is left. *)
Definition nanmax2 (acc x : float) : float :=
  match acc, x with
  | NaN, _ => x
  | _, NaN => acc
  | _, _ => if fgt x acc then x else acc
  end.

Definition series_max (s : list float) : float := fold_left nanmax2 s NaN.

(** [Series.isnull().sum()] *)
Definition null_count (s : list float) : nat :=
  length (filter (fun x => isnull x = true) s).

(** [Series.isnull().all()] *)
Definition all_null (s : list float) : bool := forallb isnull s.

(** ** Timestamps *)

Definition Timestamp : Type := Z.

Definition ns_per_day : Z := 86400000000000.

(** Days since 1970-01-01 to (year, month, day) in the proleptic
    Gregorian calendar. *)
Definition civil_from_days (days : Z) : Z * Z * Z :=
  let z := days + 719468 in
  let era := z / 146097 in
  let doe := z - era * 146097 in
  let yoe := (doe - doe / 1460 + doe / 36524 - doe / 146096) / 365 in
  let doy := doe - (365 * yoe + yoe / 4 - yoe / 100) in
  let mp := (5 * doy + 2) / 153 in
  let d := doy - (153 * mp + 2) / 5 + 1 in
  let m := if mp <? 10 then mp + 3 else mp - 9 in
  let y := yoe + era * 400 in
  ((if m <=? 2 then y + 1 else y), m, d).

Definition digits (n : Z) : string :=
  NilEmpty.string_of_uint (N.to_uint (Z.to_N n)).

Fixpoint zeros (n : nat) : string :=
  match n with
  | O => ""
  | S k => String "0" (zeros k)
  end.

(** Decimal digits of [n], left-padded with zeros to [width]. *)
Definition zero_pad (width : nat) (n : Z) : string :=
  let s := match n with 0 => "0" | _ => digits n end in
  zeros (width - String.length s) +:+ s.

(** [Timestamp.strftime("%Y-%m-%d")] *)
Definition strftime_Ymd (t : Timestamp) : string :=
  let '(y, m, d) := civil_from_days (t / ns_per_day) in
  zero_pad 4 y +:+ "-" +:+ zero_pad 2 m +:+ "-" +:+ zero_pad 2 d.

(** Midnight of a civil date, for writing examples. *)
Definition days_from_civil (y m d : Z) : Z :=
  let y' := if m <=? 2 then y - 1 else y in
  let era := y' / 400 in
  let yoe := y' - era * 400 in
  let mp := if m >? 2 then m - 3 else m + 9 in
  let doy := (153 * mp + 2) / 5 + d - 1 in
  let doe := yoe * 365 + yoe / 4 - yoe / 100 + doy in
  era * 146097 + doe - 719468.

Definition date (y m d : Z) : Timestamp := days_from_civil y m d * ns_per_day.

(** The int64 range of the nanosecond count. *)
Definition int64 (t : Z) : Prop :=
  - 9223372036854775808 ≤ t ≤ 9223372036854775807.

Definition is_digit (c : ascii) : bool :=
  ((48 <=? nat_of_ascii c) && (nat_of_ascii c <=? 57))%nat.

Definition is_dash (c : ascii) : bool := Ascii.eqb c "-".

Arguments is_digit : simpl never.

(** The shape YYYY-MM-DD. *)
Definition iso_date (s : string) : bool :=
  match s with
  | String y1 (String y2 (String y3 (String y4 (String s1
      (String m1 (String m2 (String s2
         (String d1 (String d2 EmptyString))))))))) =>
      forallb is_digit [y1; y2; y3; y4; m1; m2; d1; d2]
      && is_dash s1 && is_dash s2
  | _ => false
  end.

(** [n] digits and nothing else. *)
Fixpoint all_digits (n : nat) (s : string) : bool :=
  match n, s with
  | O, EmptyString => true
  | S k, String c rest => is_digit c && all_digits k rest
  | _, _ => false
  end.

(** The civil dates an int64 of nanoseconds can reach. *)
Definition civil_in_range (days : Z) : bool :=
  let '(y, m, d) := civil_from_days days in
  (1677 <=? y) && (y <=? 2262) && (1 <=? m) && (m <=? 12)
  && (1 <=? d) && (d <=? 31).

(** [f] holds on the [n] integers from [lo]. *)
Fixpoint all_from (f : Z → bool) (lo : Z) (n : nat) : bool :=
  match n with
  | O => true
  | S k => f lo && all_from f (lo + 1) k
  end.

(** ** Strings *)

(** Python's [needle in hay] on two strings. *)
Fixpoint str_contains (needle hay : string) : bool :=
  String.prefix needle hay ||
  match hay with
  | EmptyString => false
  | String _ rest => str_contains needle rest
  end.

(** ** Exceptions *)

Inductive exn : Type :=
  | KeyError (key : string)
  | ValueError (msg : string)
  | TypeError (msg : string)
  | IndexError (msg : string)
  | ZeroDivisionError.

Inductive outcome (A : Type) : Type :=
  | Return (a : A)
  | Raise (e : exn).
Arguments Return {A} a.
Arguments Raise {A} e.

#[export] Instance outcome_ret : MRet outcome := λ A a, Return a.
#[export] Instance outcome_bind : MBind outcome := λ A B f m,
  match m with
  | Return a => f a
  | Raise e => Raise e
  end.

(** A [for] loop over [l] that updates the local [acc]; an exception in
    the body leaves the loop. *)
Fixpoint for_each {A S : Type} (body : S → A → outcome S) (l : list A)
    (acc : S) : outcome S :=
  match l with
  | [] => Return acc
  | x :: l' =>
      match body acc x with
      | Return acc' => for_each body l' acc'
      | Raise e => Raise e
      end
  end.

(** ** Data frames *)

Inductive Index : Type :=
  | RangeIndex (n : nat)
  | DatetimeIndex (ts : list Timestamp)
  | MultiIndex (entries : list (string * Timestamp)).

Inductive label : Type :=
  | IntLabel (i : Z)
  | TimeLabel (t : Timestamp)
  | TupleLabel (inst : string) (t : Timestamp).

(** [index.to_list()] *)
Definition index_to_list (ix : Index) : list label :=
  match ix with
  | RangeIndex n => map (λ i, IntLabel (Z.of_nat i)) (seq 0 n)
  | DatetimeIndex ts => map TimeLabel ts
  | MultiIndex entries => map (λ e, TupleLabel e.1 e.2) entries
  end.

(** [pd.to_datetime(index.get_level_values(1) if index.nlevels > 1 else
    index.get_level_values(0))]: the date level of the index, level 1 of
    a two-level index and level 0 otherwise.  The labels of a range index
    are integers, which [pd.to_datetime] reads as nanoseconds since the
    epoch. *)
Definition date_level (ix : Index) : list Timestamp :=
  match ix with
  | RangeIndex n => map Z.of_nat (seq 0 n)
  | DatetimeIndex ts => ts
  | MultiIndex entries => map snd entries
  end.

Record DataFrame : Type := {
  df_index : Index;
  df_columns : list (string * list float);
}.

(** [df.columns] *)
Definition columns (df : DataFrame) : list string := map fst (df_columns df).

(** [obj[key]] on a frame or a series with string keys. *)
Fixpoint getitem {V : Type} (kvs : list (string * V)) (key : string)
    : outcome V :=
  match kvs with
  | [] => Raise (KeyError key)
  | (k, v) :: rest => if decide (k = key) then Return v else getitem rest key
  end.

(** [df.isnull().sum()]: the null count of every column, by column. *)
Definition isnull_sum (df : DataFrame) : list (string * nat) :=
  map (λ c, (c.1, null_count c.2)) (df_columns df).

(** Every column is as long as the index. *)
Definition wf_frame (df : DataFrame) : Prop :=
  Forall (λ c, length c.2 = length (index_to_list (df_index df)))
         (df_columns df).

(** [pd.DataFrame(result_dict)] refuses columns of different lengths. *)
Definition check_lengths (lens : list nat) : outcome unit :=
  match lens with
  | [] => Return tt
  | n :: rest =>
      if forallb (Nat.eqb n) rest then Return tt
      else Raise (ValueError "All arrays must be of the same length")
  end.

(** A report: the frame built from [result_dict], indexed by its
    [instruments] column. *)
Definition report (R : Type) : Type := list (string * R).

(** [result_df.empty] *)
Definition empty {R : Type} (r : report R) : bool :=
  match r with [] => true | _ => false end.

(** ** The checker and its world *)

Definition Dataset : Type := list (string * DataFrame).

Record DataHealthChecker : Type := {
  data : Dataset;
  freq : string;
  large_step_threshold_price : float;
  large_step_threshold_volume : float;
  missing_data_num : Z;
}.

(** What reading [<provider_uri>/calendars/<freq>.txt] gives: its lines
    as timestamps, no such file, or an exception on the way (no provider
    configured, an unreadable file, a line that is not a date). *)
Inductive calendar_resource : Type :=
  | CalendarFile (days : list Timestamp)
  | CalendarNotFound
  | CalendarError (e : string).

Inductive log_level : Type := INFO | WARNING.

Inductive log_event : Type :=
  | NoMissingData
  | NoLargeStepChanges
  | ColumnsComplete
  | FactorPresent
  | NoDataToCheck
  | LoadedTradingDays (n : nat)
  | CalendarFileNotFound
  | CalendarLoadFailed (e : string)
  | NoDateInformation
  | CompleteCoverage.

Definition level (e : log_event) : log_level :=
  match e with
  | CalendarFileNotFound | CalendarLoadFailed _ => WARNING
  | _ => INFO
  end.

Record world : Type := {
  self : DataHealthChecker;
  calendar : calendar_resource;
  logged : list log_event;
}.

Definition M (A : Type) : Type := world → outcome A * world.

#[export] Instance M_ret : MRet M := λ A a w, (Return a, w).
#[export] Instance M_bind : MBind M := λ A B f m w,
  match m w with
  | (Return a, w') => f a w'
  | (Raise e, w') => (Raise e, w')
  end.

Definition get_self : M DataHealthChecker := λ w, (Return (self w), w).

Definition read_calendar : M calendar_resource :=
  λ w, (Return (calendar w), w).

Definition logger (e : log_event) : M unit :=
  λ w, (Return tt,
        {| self := self w; calendar := calendar w;
           logged := logged w ++ [e] |}).

(** A computation on local values only; its exception propagates. *)
Definition lift {A : Type} (o : outcome A) : M A := λ w, (o, w).

(** ** Selecting the instruments to check *)

(** The [instruments] argument: a sequence of keys, or one string (then
    [k in instruments] is a substring test). *)
Inductive instruments_arg : Type :=
  | KeyList (keys : list string)
  | KeyString (s : string).

(** [k in instruments] *)
Definition py_in (k : string) (instruments : instruments_arg) : bool :=
  match instruments with
  | KeyList keys => bool_decide (k ∈ keys)
  | KeyString s => str_contains k s
  end.

(** [data_to_check] *)
Definition data_to_check (d : Dataset) (instruments : option instruments_arg)
    : Dataset :=
  match instruments with
  | None => d
  | Some c => filter (λ kv, py_in kv.1 c = true) d
  end.

(** ** check_missing_data *)

Record missing_data_dict : Type := {
  md_instruments : list string;
  md_open : list nat;
  md_high : list nat;
  md_low : list nat;
  md_close : list nat;
  md_volume : list nat;
}.

Record missing_data_row : Type := {
  mr_open : nat;
  mr_high : nat;
  mr_low : nat;
  mr_close : nat;
  mr_volume : nat;
}.

Definition ap_zip {A B : Type} (fs : list (A → B)) (xs : list A) : list B :=
  zip_with (λ f x, f x) fs xs.

Definition missing_data_frame (rd : missing_data_dict)
    : outcome (report missing_data_row) :=
  _ ← check_lengths [length (md_instruments rd); length (md_open rd);
                     length (md_high rd); length (md_low rd);
                     length (md_close rd); length (md_volume rd)];
  mret (zip (md_instruments rd)
         (ap_zip (ap_zip (ap_zip (ap_zip
            (map Build_missing_data_row (md_open rd))
            (md_high rd)) (md_low rd)) (md_close rd)) (md_volume rd))).

Definition missing_data_body (num : Z) (rd : missing_data_dict)
    (item : string * DataFrame) : outcome missing_data_dict :=
  let '(filename, df) := item in
  let missing_data_columns :=
    map fst (filter (λ c, num < Z.of_nat c.2) (isnull_sum df)) in
  if (0 <? length missing_data_columns)%nat then
    o ← getitem (isnull_sum df) "open";
    h ← getitem (isnull_sum df) "high";
    l ← getitem (isnull_sum df) "low";
    c ← getitem (isnull_sum df) "close";
    v ← getitem (isnull_sum df) "volume";
    mret {| md_instruments := md_instruments rd ++ [filename];
            md_open := md_open rd ++ [o];
            md_high := md_high rd ++ [h];
            md_low := md_low rd ++ [l];
            md_close := md_close rd ++ [c];
            md_volume := md_volume rd ++ [v] |}
  else mret rd.

Definition check_missing_data (instruments : option instruments_arg)
    : M (option (report missing_data_row)) :=
  s ← get_self;
  let result_dict :=
    {| md_instruments := []; md_open := []; md_high := []; md_low := [];
       md_close := []; md_volume := [] |} in
  let data_to_check := data_to_check (data s) instruments in
  result_df ← lift (rd ← for_each (missing_data_body (missing_data_num s))
                           data_to_check result_dict;
                    missing_data_frame rd);
  if negb (empty result_df) then mret (Some result_df)
  else _ ← logger NoMissingData; mret None.

(** ** check_large_step_changes *)

Record step_dict : Type := {
  sd_instruments : list string;
  sd_col_name : list string;
  sd_date : list string;
  sd_pct_change : list float;
}.

Record step_row : Type := {
  sr_col_name : string;
  sr_date : string;
  sr_pct_change : float;
}.

Definition step_frame (rd : step_dict) : outcome (report step_row) :=
  _ ← check_lengths [length (sd_instruments rd); length (sd_col_name rd);
                     length (sd_date rd); length (sd_pct_change rd)];
  mret (zip (sd_instruments rd)
         (ap_zip (ap_zip (map Build_step_row (sd_col_name rd))
            (sd_date rd)) (sd_pct_change rd))).

Definition ohlcv : list string := ["open"; "high"; "low"; "close"; "volume"].

(** [lst[0]] *)
Definition first_item {A : Type} (l : list A) : outcome A :=
  match l with
  | [] => Raise (IndexError "list index out of range")
  | x :: _ => Return x
  end.

(** [lbl[1]] on an index label: only a tuple can be subscripted. *)
Definition label_item1 (lbl : label) : outcome Timestamp :=
  match lbl with
  | TupleLabel _ t => Return t
  | IntLabel _ => Raise (TypeError "'int' object is not subscriptable")
  | TimeLabel _ => Raise (TypeError "'Timestamp' object is not subscriptable")
  end.

(** The threshold of a column. *)
Definition threshold_of (s : DataHealthChecker) (col : string) : float :=
  if decide (col = "volume") then large_step_threshold_volume s
  else large_step_threshold_price s.

(** [pct_change[pct_change > threshold]]: the rows above the threshold,
    each with its index label. *)
Definition large_steps (df : DataFrame) (pct_change : list float)
    (threshold : float) : list (label * float) :=
  filter (λ p, fgt p.2 threshold = true)
         (zip (index_to_list (df_index df)) pct_change).

Definition step_col_body (s : DataHealthChecker) (filename : string)
    (df : DataFrame) (rd : step_dict) (col : string) : outcome step_dict :=
  if bool_decide (col ∈ columns df) then
    series ← getitem (df_columns df) col;
    let pct_change := series_abs (pct_change series) in
    let threshold := threshold_of s col in
    if fgt (series_max pct_change) threshold then
      let large_steps := large_steps df pct_change threshold in
      lbl ← first_item (map fst large_steps);
      t ← label_item1 lbl;
      mret {| sd_instruments := sd_instruments rd ++ [filename];
              sd_col_name := sd_col_name rd ++ [col];
              sd_date := sd_date rd ++ [strftime_Ymd t];
              sd_pct_change := sd_pct_change rd ++ [series_max pct_change] |}
    else mret rd
  else mret rd.

Definition step_body (s : DataHealthChecker) (rd : step_dict)
    (item : string * DataFrame) : outcome step_dict :=
  let '(filename, df) := item in
  for_each (step_col_body s filename df) ohlcv rd.

Definition check_large_step_changes (instruments : option instruments_arg)
    : M (option (report step_row)) :=
  s ← get_self;
  let result_dict :=
    {| sd_instruments := []; sd_col_name := []; sd_date := [];
       sd_pct_change := [] |} in
  let data_to_check := data_to_check (data s) instruments in
  result_df ← lift (rd ← for_each (step_body s) data_to_check result_dict;
                    step_frame rd);
  if negb (empty result_df) then mret (Some result_df)
  else _ ← logger NoLargeStepChanges; mret None.

(** ** check_required_columns *)

Record columns_dict : Type := {
  cd_instruments : list string;
  cd_missing_col : list string;
}.

Definition columns_frame (rd : columns_dict) : outcome (report string) :=
  _ ← check_lengths [length (cd_instruments rd); length (cd_missing_col rd)];
  mret (zip (cd_instruments rd) (cd_missing_col rd)).

Definition required_columns : list string :=
  ["open"; "high"; "low"; "close"; "volume"].

Definition columns_body (rd : columns_dict) (item : string * DataFrame)
    : outcome columns_dict :=
  let '(filename, df) := item in
  if negb (forallb (λ column, bool_decide (column ∈ columns df))
             required_columns) then
    let missing_required_columns :=
      filter (λ column, column ∉ columns df) required_columns in
    mret {| cd_instruments := cd_instruments rd ++ [filename];
            cd_missing_col := cd_missing_col rd ++ missing_required_columns |}
  else mret rd.

Definition check_required_columns (instruments : option instruments_arg)
    : M (option (report string)) :=
  s ← get_self;
  let result_dict := {| cd_instruments := []; cd_missing_col := [] |} in
  let data_to_check := data_to_check (data s) instruments in
  result_df ← lift (rd ← for_each columns_body data_to_check result_dict;
                    columns_frame rd);
  if negb (empty result_df) then mret (Some result_df)
  else _ ← logger ColumnsComplete; mret None.

(** ** check_missing_factor *)

Record factor_dict : Type := {
  fd_instruments : list string;
  fd_missing_factor_col : list bool;
  fd_missing_factor_data : list bool;
}.

Record factor_row : Type := {
  fr_missing_factor_col : bool;
  fr_missing_factor_data : bool;
}.

Definition factor_frame (rd : factor_dict) : outcome (report factor_row) :=
  _ ← check_lengths [length (fd_instruments rd);
                     length (fd_missing_factor_col rd);
                     length (fd_missing_factor_data rd)];
  mret (zip (fd_instruments rd)
         (ap_zip (map Build_factor_row (fd_missing_factor_col rd))
            (fd_missing_factor_data rd))).

(** The index codes that carry no factor. *)
Definition excluded_factor_keys : list string :=
  ["000300"; "000903"; "000905"].

(** ["000300" in filename or "000903" in filename or "000905" in filename] *)
Definition excluded (filename : string) : bool :=
  existsb (λ code, str_contains code filename) excluded_factor_keys.

Definition factor_body (rd : factor_dict) (item : string * DataFrame)
    : outcome factor_dict :=
  let '(filename, df) := item in
  if excluded filename then mret rd
  else
    let rd1 :=
      if bool_decide ("factor" ∉ columns df) then
        {| fd_instruments := fd_instruments rd ++ [filename];
           fd_missing_factor_col := fd_missing_factor_col rd ++ [true];
           fd_missing_factor_data := fd_missing_factor_data rd |}
      else rd in
    factor ← getitem (df_columns df) "factor";
    if all_null factor then
      if bool_decide (filename ∈ fd_instruments rd1) then
        mret {| fd_instruments := fd_instruments rd1;
                fd_missing_factor_col := fd_missing_factor_col rd1;
                fd_missing_factor_data :=
                  fd_missing_factor_data rd1 ++ [true] |}
      else
        mret {| fd_instruments := fd_instruments rd1 ++ [filename];
                fd_missing_factor_col := fd_missing_factor_col rd1 ++ [false];
                fd_missing_factor_data :=
                  fd_missing_factor_data rd1 ++ [true] |}
    else mret rd1.

Definition check_missing_factor (instruments : option instruments_arg)
    : M (option (report factor_row)) :=
  s ← get_self;
  let result_dict :=
    {| fd_instruments := []; fd_missing_factor_col := [];
       fd_missing_factor_data := [] |} in
  let data_to_check := data_to_check (data s) instruments in
  result_df ← lift (rd ← for_each factor_body data_to_check result_dict;
                    factor_frame rd);
  if negb (empty result_df) then mret (Some result_df)
  else _ ← logger FactorPresent; mret None.

(** ** check_missing_trading_days *)

Record days_dict : Type := {
  dd_instruments : list string;
  dd_missing_trading_days : list (list string);
  dd_total_missing_days : list nat;
  dd_coverage_ratio : list string;
}.

Record days_row : Type := {
  dr_missing_trading_days : list string;
  dr_total_missing_days : nat;
  dr_coverage_ratio : string;
}.

Definition days_frame (rd : days_dict) : outcome (report days_row) :=
  _ ← check_lengths [length (dd_instruments rd);
                     length (dd_missing_trading_days rd);
                     length (dd_total_missing_days rd);
                     length (dd_coverage_ratio rd)];
  mret (zip (dd_instruments rd)
         (ap_zip (ap_zip (map Build_days_row (dd_missing_trading_days rd))
            (dd_total_missing_days rd)) (dd_coverage_ratio rd))).

(** [sorted(list(a_set))] *)
Definition sorted (s : gset Timestamp) : list Timestamp :=
  merge_sort Z.le (elements s).

(** The fallback: the union of the dates of every table to check. *)
Definition all_dates (data_to_check : Dataset) : gset Timestamp :=
  fold_left (λ acc kv, acc ∪ list_to_set (date_level (df_index kv.2)))
            data_to_check ∅.

(** [(len(trading_days) - len(missing_dates)) / len(trading_days) * 100] *)
Definition coverage_ratio (n_trading_days n_missing : nat) : outcome Q :=
  if decide (n_trading_days = 0%nat) then Raise ZeroDivisionError
  else Return (((Z.of_nat n_trading_days - Z.of_nat n_missing) # 1)
               / (Z.of_nat n_trading_days # 1) * 100)%Q.

(** [q] in hundredths, rounded to the nearest, ties to even. *)
Definition round_hundredths (q : Q) : Z :=
  let n := Qnum q * 100 in
  let d := Z.pos (Qden q) in
  let fl := n / d in
  let r := n mod d in
  match 2 * r ?= d with
  | Lt => fl
  | Gt => fl + 1
  | Eq => if Z.even fl then fl else fl + 1
  end.

(** [f"{q:.2f}%"] *)
Definition format_pct (q : Q) : string :=
  let c := round_hundredths q in
  (if c <? 0 then "-" else "") +:+
  zero_pad 1 (Z.abs c / 100) +:+ "." +:+ zero_pad 2 (Z.abs c mod 100) +:+ "%".

Definition days_body (trading_days : list Timestamp) (rd : days_dict)
    (item : string * DataFrame) : outcome days_dict :=
  let '(filename, df) := item in
  let stock_dates : gset Timestamp := list_to_set (date_level (df_index df)) in
  let trading_days_set : gset Timestamp := list_to_set trading_days in
  let missing_dates := trading_days_set ∖ stock_dates in
  if negb (bool_decide (missing_dates = ∅)) then
    let missing_dates_list := sorted missing_dates in
    ratio ← coverage_ratio (length trading_days) (size missing_dates);
    mret {| dd_instruments := dd_instruments rd ++ [filename];
            dd_missing_trading_days :=
              dd_missing_trading_days rd
              ++ [map strftime_Ymd (take 5 missing_dates_list)];
            dd_total_missing_days :=
              dd_total_missing_days rd ++ [size missing_dates];
            dd_coverage_ratio := dd_coverage_ratio rd ++ [format_pct ratio] |}
  else mret rd.

(** The fallback of both branches: [None] stands for its early
    [return None]. *)
Definition union_method (data_to_check : Dataset)
    : M (option (list Timestamp)) :=
  let all_dates := all_dates data_to_check in
  if bool_decide (all_dates = ∅) then
    _ ← logger NoDateInformation; mret None
  else mret (Some (sorted all_dates)).

(** The [try] block that finds [trading_days]. *)
Definition resolve_trading_days (data_to_check : Dataset)
    : M (option (list Timestamp)) :=
  cal ← read_calendar;
  match cal with
  | CalendarFile days =>
      _ ← logger (LoadedTradingDays (length days)); mret (Some days)
  | CalendarNotFound =>
      _ ← logger CalendarFileNotFound; union_method data_to_check
  | CalendarError e =>
      _ ← logger (CalendarLoadFailed e); union_method data_to_check
  end.

Definition check_missing_trading_days (instruments : option instruments_arg)
    : M (option (report days_row)) :=
  s ← get_self;
  let result_dict :=
    {| dd_instruments := []; dd_missing_trading_days := [];
       dd_total_missing_days := []; dd_coverage_ratio := [] |} in
  let data_to_check := data_to_check (data s) instruments in
  match data_to_check with
  | [] => _ ← logger NoDataToCheck; mret None
  | _ =>
      resolved ← resolve_trading_days data_to_check;
      match resolved with
      | None => mret None
      | Some trading_days =>
          result_df ← lift (rd ← for_each (days_body trading_days)
                                   data_to_check result_dict;
                            days_frame rd);
          if negb (empty result_df) then mret (Some result_df)
          else _ ← logger CompleteCoverage; mret None
      end
  end.

(** ** The five checks under one name *)

Inductive check : Type :=
  | CheckMissingData
  | CheckLargeStepChanges
  | CheckRequiredColumns
  | CheckMissingFactor
  | CheckMissingTradingDays.

Definition row_of (c : check) : Type :=
  match c with
  | CheckMissingData => missing_data_row
  | CheckLargeStepChanges => step_row
  | CheckRequiredColumns => string
  | CheckMissingFactor => factor_row
  | CheckMissingTradingDays => days_row
  end.

Definition run_check (c : check) (instruments : option instruments_arg)
    : M (option (report (row_of c))) :=
  match c with
  | CheckMissingData => check_missing_data instruments
  | CheckLargeStepChanges => check_large_step_changes instruments
  | CheckRequiredColumns => check_required_columns instruments
  | CheckMissingFactor => check_missing_factor instruments
  | CheckMissingTradingDays => check_missing_trading_days instruments
  end.

(** ** Reading the reports *)

(** [df.isnull().sum()[col]] *)
Definition column_nulls (df : DataFrame) (col : string) : outcome nat :=
  getitem (isnull_sum df) col.

(** The rows [pd.DataFrame(result_dict).set_index("instruments")] has
    when the columns of [result_dict] are equally long. *)
Definition md_rows (rd : missing_data_dict) : report missing_data_row :=
  zip (md_instruments rd)
    (ap_zip (ap_zip (ap_zip (ap_zip
       (map Build_missing_data_row (md_open rd))
       (md_high rd)) (md_low rd)) (md_close rd)) (md_volume rd)).

Definition md_wf (rd : missing_data_dict) : Prop :=
  length (md_open rd) = length (md_instruments rd) ∧
  length (md_high rd) = length (md_instruments rd) ∧
  length (md_low rd) = length (md_instruments rd) ∧
  length (md_close rd) = length (md_instruments rd) ∧
  length (md_volume rd) = length (md_instruments rd).

Definition md_init : missing_data_dict :=
  {| md_instruments := []; md_open := []; md_high := []; md_low := [];
     md_close := []; md_volume := [] |}.

(** [df[col].pct_change(fill_method=None).abs().max()] *)
Definition max_abs_change (series : list float) : float :=
  series_max (series_abs (pct_change series)).

(** The test of check_large_step_changes on a column of a frame. *)
Definition flagged (s : DataHealthChecker) (df : DataFrame) (col : string)
    : bool :=
  match getitem (df_columns df) col with
  | Return series => fgt (max_abs_change series) (threshold_of s col)
  | Raise _ => false
  end.

Definition sd_rows (rd : step_dict) : report step_row :=
  zip (sd_instruments rd)
    (ap_zip (ap_zip (map Build_step_row (sd_col_name rd))
       (sd_date rd)) (sd_pct_change rd)).

Definition sd_wf (rd : step_dict) : Prop :=
  length (sd_col_name rd) = length (sd_instruments rd) ∧
  length (sd_date rd) = length (sd_instruments rd) ∧
  length (sd_pct_change rd) = length (sd_instruments rd).

Definition sd_init : step_dict :=
  {| sd_instruments := []; sd_col_name := []; sd_date := [];
     sd_pct_change := [] |}.

(** Row [i] of the frame is the first whose change is above the
    threshold. *)
Definition first_above (changes : list float) (threshold : float) (i : nat)
    : Prop :=
  (∃ c, changes !! i = Some c ∧ fgt c threshold = true) ∧
  ∀ j c, (j < i)%nat → changes !! j = Some c → fgt c threshold = false.

(** [row] is the report row of column [col] of [df]: the column is one
    of the five and flagged, the row carries the maximum change of the
    column and the date of the first row above the threshold. *)
Definition step_row_of (s : DataHealthChecker) (df : DataFrame)
    (col : string) (row : step_row) : Prop :=
  sr_col_name row = col ∧
  ∃ series, getitem (df_columns df) col = Return series ∧
    fgt (max_abs_change series) (threshold_of s col) = true ∧
    sr_pct_change row = max_abs_change series ∧
    ∃ i inst t,
      first_above (series_abs (pct_change series)) (threshold_of s col) i ∧
      index_to_list (df_index df) !! i = Some (TupleLabel inst t) ∧
      sr_date row = strftime_Ymd t.

(** What one column adds to the rows. *)
Definition col_contributes (s : DataHealthChecker) (k : string)
    (df : DataFrame) (col : string) (new : report step_row) : Prop :=
  (flagged s df col = false ∧ new = []) ∨
  (flagged s df col = true ∧ ∃ row, new = [(k, row)] ∧ step_row_of s df col row).

(** The rows of an optional report. *)
Definition rows_of {R : Type} (o : option (report R)) : report R :=
  match o with Some r => r | None => [] end.

(** The frames [D.features] returns: a two-level index. *)
Definition multi_indexed (df : DataFrame) : Prop :=
  ∃ entries, df_index df = MultiIndex entries.

(** [set(pd.to_datetime(trading_days)) - stock_dates] for a frame. *)
Definition missing_dates (trading_days : list Timestamp) (df : DataFrame)
    : gset Timestamp :=
  list_to_set trading_days ∖ list_to_set (date_level (df_index df)).

Definition dd_rows (rd : days_dict) : report days_row :=
  zip (dd_instruments rd)
    (ap_zip (ap_zip (map Build_days_row (dd_missing_trading_days rd))
       (dd_total_missing_days rd)) (dd_coverage_ratio rd)).

Definition dd_wf (rd : days_dict) : Prop :=
  length (dd_missing_trading_days rd) = length (dd_instruments rd) ∧
  length (dd_total_missing_days rd) = length (dd_instruments rd) ∧
  length (dd_coverage_ratio rd) = length (dd_instruments rd).

Definition dd_init : days_dict :=
  {| dd_instruments := []; dd_missing_trading_days := [];
     dd_total_missing_days := []; dd_coverage_ratio := [] |}.

(** [row] reports the dates of [trading_days] that [df] lacks. *)
Definition days_row_of (trading_days : list Timestamp) (df : DataFrame)
    (row : days_row) : Prop :=
  let missing := missing_dates trading_days df in
  dr_missing_trading_days row = map strftime_Ymd (take 5 (sorted missing)) ∧
  dr_total_missing_days row = size missing ∧
  ∃ q, coverage_ratio (length trading_days) (size missing) = Return q ∧
       dr_coverage_ratio row = format_pct q.

(** What one frame adds to the rows of check_missing_trading_days. *)
Definition days_contributes (trading_days : list Timestamp)
    (item : string * DataFrame) (new : report days_row) : Prop :=
  (missing_dates trading_days item.2 = ∅ ∧ new = []) ∨
  (missing_dates trading_days item.2 ≠ ∅ ∧
   ∃ row, new = [(item.1, row)] ∧ days_row_of trading_days item.2 row).

(** The calendar the check works with: the lines of the calendar file
    when it can be read, the sorted union of the dates in scope
    otherwise. *)
Definition resolved_calendar (c : calendar_resource) (scope : Dataset)
    : list Timestamp :=
  match c with
  | CalendarFile days => days
  | _ => sorted (all_dates scope)
  end.

(** The world after logging [events]. *)
Definition with_log (w : world) (events : list log_event) : world :=
  {| self := self w; calendar := calendar w;
     logged := logged w ++ events |}.

(** What the [try] block logs first. *)
Definition calendar_event (c : calendar_resource) : log_event :=
  match c with
  | CalendarFile days => LoadedTradingDays (length days)
  | CalendarNotFound => CalendarFileNotFound
  | CalendarError e => CalendarLoadFailed e
  end.

(** The calendar resource could be loaded. *)
Definition calendar_loaded (c : calendar_resource) : bool :=
  match c with CalendarFile _ => true | _ => false end.

(** [None] for an empty frame, as the end of every check does. *)
Definition some_rows {R : Type} (r : report R) : option (report R) :=
  if empty r then None else Some r.

(** ** Example data *)

Definition new_checker (d : Dataset) : DataHealthChecker :=
  {| data := d; freq := "day"; large_step_threshold_price := Fin 0.5;
     large_step_threshold_volume := Fin 3; missing_data_num := 0 |}.

Definition new_world (d : Dataset) (c : calendar_resource) : world :=
  {| self := new_checker d; calendar := c; logged := [] |}.

(** The first [n] days of January 2020. *)
Definition january (n : nat) : list Timestamp :=
  map (λ i, date 2020 1 (Z.of_nat i)) (seq 1 n).

(** The index of the frame [D.features] returns for instrument [k]. *)
Definition january_index (k : string) (n : nat) : Index :=
  MultiIndex (map (λ t, (k, t)) (january n)).

(** Scenario B: closes 100, 100, 160. *)
Definition frame_Y : DataFrame :=
  {| df_index := january_index "Y" 3;
     df_columns := [("close", [Fin 100; Fin 100; Fin 160])] |}.

(** Scenario A with a twist: the five columns are complete, the factor
    has a null. *)
Definition frame_X_factor_null : DataFrame :=
  {| df_index := january_index "X" 2;
     df_columns :=
       [("open", [Fin 1; Fin 1]); ("high", [Fin 1; Fin 1]);
        ("low", [Fin 1; Fin 1]); ("close", [Fin 1; Fin 1]);
        ("volume", [Fin 1; Fin 1]); ("factor", [NaN; Fin 1])] |}.

(** Scenario A: ten rows, volume null on two of them. *)
Definition frame_X : DataFrame :=
  {| df_index := january_index "X" 10;
     df_columns :=
       [("open", replicate 10 (Fin 1)); ("high", replicate 10 (Fin 1));
        ("low", replicate 10 (Fin 1)); ("close", replicate 10 (Fin 1));
        ("volume", [NaN; Fin 1; Fin 1; NaN] ++ replicate 6 (Fin 1));
        ("factor", replicate 10 (Fin 1))] |}.

(** A frame with the five columns and no null at all. *)
Definition frame_full : DataFrame :=
  {| df_index := january_index "F" 2;
     df_columns :=
       [("open", [Fin 1; Fin 1]); ("high", [Fin 1; Fin 1]);
        ("low", [Fin 1; Fin 1]); ("close", [Fin 1; Fin 1]);
        ("volume", [Fin 1; Fin 1]); ("factor", [Fin 1; Fin 1])] |}.

(** "A" lacks close and volume. *)
Definition frame_A : DataFrame :=
  {| df_index := january_index "A" 2;
     df_columns :=
       [("open", [Fin 1; Fin 1]); ("high", [Fin 1; Fin 1]);
        ("low", [Fin 1; Fin 1])] |}.

(** "B" lacks volume only. *)
Definition frame_B : DataFrame :=
  {| df_index := january_index "B" 2;
     df_columns :=
       [("open", [Fin 1; Fin 1]); ("high", [Fin 1; Fin 1]);
        ("low", [Fin 1; Fin 1]); ("close", [Fin 1; Fin 1])] |}.

(** Scenario C: "Z" has no factor column. *)
Definition frame_Z : DataFrame :=
  {| df_index := january_index "Z" 2;
     df_columns := [("close", [Fin 1; Fin 1])] |}.

(** A factor column that is present and null on every row. *)
Definition frame_null_factor : DataFrame :=
  {| df_index := january_index "N" 2;
     df_columns := [("close", [Fin 1; Fin 1]); ("factor", [NaN; NaN])] |}.

(** An excluded index without any factor column next to "N". *)
Definition data_index_and_N : Dataset :=
  [("000300", frame_Z); ("N", frame_null_factor)].

(** What one frame adds to the rows. *)
Definition frame_contributes (s : DataHealthChecker)
    (item : string * DataFrame) (new : report step_row) : Prop :=
  ∃ news, new = concat news ∧
          Forall2 (col_contributes s item.1 item.2) ohlcv news.

(** Closes 100, 160, 400: the first change above 0.5 is on the second
    row, the largest on the third. *)
Definition frame_Y2 : DataFrame :=
  {| df_index := january_index "Y" 3;
     df_columns := [("close", [Fin 100; Fin 160; Fin 400])] |}.

(** Closes 100, 150: a change of exactly 0.5. *)
Definition frame_edge : DataFrame :=
  {| df_index := january_index "E" 2;
     df_columns := [("close", [Fin 100; Fin 150])] |}.

(** The frame [pd.read_csv] gives in directory mode: a range index. *)
Definition frame_csv : DataFrame :=
  {| df_index := RangeIndex 3;
     df_columns := [("close", [Fin 100; Fin 100; Fin 160])] |}.

(** Scenario D: "W" has the first eight of ten days, "V" all ten. *)
Definition frame_W : DataFrame :=
  {| df_index := january_index "W" 8; df_columns := [] |}.

Definition frame_V : DataFrame :=
  {| df_index := january_index "V" 10; df_columns := [] |}.

(** A frame without rows. *)
Definition frame_empty : DataFrame :=
  {| df_index := MultiIndex []; df_columns := [("close", [])] |}.

(** ** What the checks report, as functions of the scope *)

(** [df.isnull().sum()[col]], 0 standing for a column that is not
    there. *)
Definition nulls (df : DataFrame) (col : string) : nat :=
  match column_nulls df col with
  | Return n => n
  | Raise _ => 0%nat
  end.

(** Some column of [df] has more than [num] nulls. *)
Definition md_flagged (num : Z) (df : DataFrame) : bool :=
  existsb (λ c, num <? Z.of_nat c.2) (isnull_sum df).

(** The row of check_missing_data for [df]. *)
Definition md_row (df : DataFrame) : missing_data_row :=
  {| mr_open := nulls df "open"; mr_high := nulls df "high";
     mr_low := nulls df "low"; mr_close := nulls df "close";
     mr_volume := nulls df "volume" |}.

Definition md_report_rows (num : Z) (scope : list (string * DataFrame))
    : report missing_data_row :=
  map (λ kv, (kv.1, md_row kv.2))
      (filter (λ kv, md_flagged num kv.2 = true) scope).

(** The required columns [df] lacks, in the order of the required
    list. *)
Definition missing_required (df : DataFrame) : list string :=
  filter (λ column, column ∉ columns df) required_columns.

(** One row per missing column of every table. *)
Definition columns_report_rows (scope : list (string * DataFrame))
    : report string :=
  concat (map (λ kv, map (pair kv.1) (missing_required kv.2)) scope).

(** The factor column of [df] is there and null on every row. *)
Definition factor_all_null (df : DataFrame) : bool :=
  match getitem (df_columns df) "factor" with
  | Return factor => all_null factor
  | Raise _ => false
  end.

Definition fd_rows (rd : factor_dict) : report factor_row :=
  zip (fd_instruments rd)
    (ap_zip (map Build_factor_row (fd_missing_factor_col rd))
       (fd_missing_factor_data rd)).

Definition fd_wf (rd : factor_dict) : Prop :=
  length (fd_missing_factor_col rd) = length (fd_instruments rd) ∧
  length (fd_missing_factor_data rd) = length (fd_instruments rd).

(** One row for every table that is not excluded and whose factor is
    all null. *)
Definition factor_report_rows (scope : list (string * DataFrame))
    : report factor_row :=
  map (λ kv, (kv.1, {| fr_missing_factor_col := false;
                       fr_missing_factor_data := true |}))
      (filter (λ kv, negb (excluded kv.1) && factor_all_null kv.2 = true)
              scope).

(** Some table of the scope has a flagged column among the five. *)
Definition any_flagged (s : DataHealthChecker)
    (scope : list (string * DataFrame)) : bool :=
  existsb (λ kv, existsb (flagged s kv.2) ohlcv) scope.

(** The exceptions of taking the date out of a label that has none. *)
Definition no_date_error (e : exn) : Prop :=
  (∃ msg, e = TypeError msg) ∨ (∃ msg, e = IndexError msg).

(** The tables of the scope that lack a date of the calendar. *)
Definition lacking (trading_days : list Timestamp)
    (scope : list (string * DataFrame)) : list (string * DataFrame) :=
  filter (λ kv, missing_dates trading_days kv.2 ≠ ∅) scope.

(** A row of check_missing_trading_days for a table. *)
Definition days_row_for (trading_days : list Timestamp)
    (item : string * DataFrame) (entry : string * days_row) : Prop :=
  entry.1 = item.1 ∧ days_row_of trading_days item.2 entry.2.

(** ** check_data *)

(** The lines check_data leaves behind, in the order they are written:
    the lines the five checks log, its own warnings, and the summary it
    prints. *)
Inductive line : Type :=
  | Logged (e : log_event)
  | InstrumentsNotFound (missing_instruments : list string)
  | SummaryHeader (files_checked : nat)
  | SummaryRule
  | ProblemFound (c : check)
  | Printed (c : check) (result : report (row_of c)).

Record session : Type := {
  checker : DataHealthChecker;
  resource : calendar_resource;
  output : list line;
}.

Definition T (A : Type) : Type := session → outcome A * session.

#[export] Instance T_ret : MRet T := λ A a s, (Return a, s).
#[export] Instance T_bind : MBind T := λ A B f m s,
  match m s with
  | (Return a, s') => f a s'
  | (Raise e, s') => (Raise e, s')
  end.

(** A method of the checker run inside the session: what it logs goes
    to the output. *)
Definition call {A : Type} (m : M A) : T A := λ s,
  let '(o, w) :=
    m {| self := checker s; calendar := resource s; logged := [] |} in
  (o, {| checker := self w; resource := calendar w;
         output := output s ++ map Logged (logged w) |}).

Definition write (l : line) : T unit := λ s,
  (Return tt, {| checker := checker s; resource := resource s;
                 output := output s ++ [l] |}).

(** [for inst in instruments]: the elements of a sequence, the
    characters of a string. *)
Definition py_iter (instruments : instruments_arg) : list string :=
  match instruments with
  | KeyList keys => keys
  | KeyString s => map (λ a, String a EmptyString) (list_ascii_of_string s)
  end.

(** [if isinstance(result, pd.DataFrame): logger.warning(...);
    print(result)] *)
Definition section (c : check) (result : option (report (row_of c)))
    : T unit :=
  match result with
  | Some r => _ ← write (ProblemFound c); write (Printed c r)
  | None => mret tt
  end.

Definition check_data (instruments : option instruments_arg) : T unit :=
  s ← call get_self;
  let data_to_check := data_to_check (data s) instruments in
  _ ← match instruments with
      | Some given =>
          let missing_instruments :=
            filter (λ inst, inst ∉ map fst (data s)) (py_iter given) in
          if bool_decide (missing_instruments ≠ [])
          then write (InstrumentsNotFound missing_instruments)
          else mret tt
      | None => mret tt
      end;
  check_missing_data_result ← call (check_missing_data instruments);
  check_large_step_changes_result ←
    call (check_large_step_changes instruments);
  check_required_columns_result ← call (check_required_columns instruments);
  check_missing_factor_result ← call (check_missing_factor instruments);
  check_missing_trading_days_result ←
    call (check_missing_trading_days instruments);
  if bool_decide (check_missing_data_result ≠ None)
     || bool_decide (check_large_step_changes_result ≠ None)
     || bool_decide (check_required_columns_result ≠ None)
     || bool_decide (check_missing_factor_result ≠ None)
     || bool_decide (check_missing_trading_days_result ≠ None)
  then
    _ ← write (SummaryHeader (length data_to_check));
    _ ← write SummaryRule;
    _ ← section CheckMissingData check_missing_data_result;
    _ ← section CheckLargeStepChanges check_large_step_changes_result;
    _ ← section CheckRequiredColumns check_required_columns_result;
    _ ← section CheckMissingFactor check_missing_factor_result;
    section CheckMissingTradingDays check_missing_trading_days_result
  else mret tt.

(** The world a method called in the session starts from. *)
Definition world_in (s : session) : world :=
  {| self := checker s; calendar := resource s; logged := [] |}.

(** What a check logs when called in the session. *)
Definition events (c : check) (instruments : option instruments_arg)
    (s : session) : list log_event :=
  logged (run_check c instruments (world_in s)).2.

(** The session with further lines written. *)
Definition with_output (s : session) (lines : list line) : session :=
  {| checker := checker s; resource := resource s;
     output := output s ++ lines |}.

(** The order check_data calls the checks in. *)
Definition check_order : list check :=
  [CheckMissingData; CheckLargeStepChanges; CheckRequiredColumns;
   CheckMissingFactor; CheckMissingTradingDays].

Definition position (c : check) : nat :=
  match c with
  | CheckMissingData => 0
  | CheckLargeStepChanges => 1
  | CheckRequiredColumns => 2
  | CheckMissingFactor => 3
  | CheckMissingTradingDays => 4
  end.

(** The warning about the members of [instruments] that are no table. *)
Definition not_found_warning (d : Dataset)
    (instruments : option instruments_arg) : list line :=
  match instruments with
  | Some given =>
      match filter (λ inst, inst ∉ map fst d) (py_iter given) with
      | [] => []
      | missing_instruments => [InstrumentsNotFound missing_instruments]
      end
  | None => []
  end.

Definition section_lines (c : check) (result : option (report (row_of c)))
    : list line :=
  match result with
  | Some r => [ProblemFound c; Printed c r]
  | None => []
  end.

(** The lines of the summary, for the results of the five checks. *)
Definition summary (files_checked : nat)
    (results : ∀ c, option (report (row_of c))) : list line :=
  match concat (map (λ c, section_lines c (results c)) check_order) with
  | [] => []
  | sections => SummaryHeader files_checked :: SummaryRule :: sections
  end.

(** A line that is no part of the summary. *)
Definition before_summary (l : line) : Prop :=
  match l with
  | Logged _ | InstrumentsNotFound _ => True
  | _ => False
  end.

(** The lines the checks [cs] log, one check after the other. *)
Definition logs (instruments : option instruments_arg) (s : session)
    (cs : list check) : list line :=
  map Logged (concat (map (λ c, events c instruments s) cs)).

(** The results of the five checks as one family. *)
Definition results
    (r1 : option (report missing_data_row)) (r2 : option (report step_row))
    (r3 : option (report string)) (r4 : option (report factor_row))
    (r5 : option (report days_row)) (c : check)
    : option (report (row_of c)) :=
  match c with
  | CheckMissingData => r1
  | CheckLargeStepChanges => r2
  | CheckRequiredColumns => r3
  | CheckMissingFactor => r4
  | CheckMissingTradingDays => r5
  end.

(** ** Building the checker *)

(** What the constructor raises: a failed [assert], the unbound local of
    load_qlib_data, or the exception of a call outside the program (the
    file system, the CSV parser, the data provider). *)
Inductive init_exn : Type :=
  | AssertionError (msg : string)
  | UnboundLocalError (name : string)
  | Failure (e : string).

Inductive attempt (A : Type) : Type :=
  | Done (a : A)
  | Failed (e : init_exn).
Arguments Done {A} a.
Arguments Failed {A} e.

#[export] Instance attempt_ret : MRet attempt := λ A a, Done a.
#[export] Instance attempt_bind : MBind attempt := λ A B f m,
  match m with Done a => f a | Failed e => Failed e end.

(** [assert cond, msg] *)
Definition py_assert (cond : bool) (msg : string) : attempt unit :=
  if cond then Done tt else Failed (AssertionError msg).

(** The loop [for x in l: acc = body(acc, x)], stopping at the first
    exception. *)
Fixpoint try_each {A S : Type} (body : S → A → attempt S) (l : list A)
    (acc : S) : attempt S :=
  match l with
  | [] => Done acc
  | x :: rest =>
      match body acc x with
      | Done acc' => try_each body rest acc'
      | Failed e => Failed e
      end
  end.

(** What a call outside the program gives: a value, or the exception it
    raised. *)
Inductive reply (A : Type) : Type :=
  | Ok (a : A)
  | Error (e : string).
Arguments Ok {A} a.
Arguments Error {A} e.

Definition outside {A : Type} (r : reply A) : attempt A :=
  match r with
  | Ok a => Done a
  | Error e => Failed (Failure e)
  end.

(** What the constructor reads from outside: the file system
    ([os.path.isdir], [os.listdir], [pd.read_csv]) and the data provider
    that [qlib.init(provider_uri=...)] selects ([D.list_instruments] on
    the market "all", [D.features] for one instrument). *)
Record environment : Type := {
  isdir : string → bool;
  listdir : string → reply (list string);
  read_csv : string → reply DataFrame;
  qlib_init : string → reply unit;
  list_instruments : string → string → reply (list string);
  features : string → string → string → list string → reply DataFrame;
}.

(** The truth value of an argument that is None or a string. *)
Definition truthy (arg : option string) : bool :=
  match arg with
  | Some s => negb (String.eqb s "")
  | None => false
  end.

(** [s.endswith(suffix)] *)
Definition endswith (s suffix : string) : bool :=
  (String.length suffix <=? String.length s)%nat
  && String.eqb
       (substring (String.length s - String.length suffix)
                  (String.length suffix) s)
       suffix.

(** [os.path.join(a, b)] on POSIX paths. *)
Definition path_join (a b : string) : string :=
  if String.prefix "/" b then b
  else if String.eqb a "" || endswith a "/" then a +:+ b
  else a +:+ "/" +:+ b.

(** [d[k] = v] on a dict: a new key goes last, a known key keeps its
    place. *)
Fixpoint dict_set {V : Type} (d : list (string * V)) (k : string) (v : V)
    : list (string * V) :=
  match d with
  | [] => [(k, v)]
  | (k', v') :: rest =>
      if decide (k' = k) then (k, v) :: rest
      else (k', v') :: dict_set rest k v
  end.

Definition required_fields : list string :=
  ["$open"; "$close"; "$low"; "$high"; "$volume"; "$factor"].

(** The [columns=] mapping of [df.rename]. *)
Definition renamed : list (string * string) :=
  [("$open", "open"); ("$close", "close"); ("$low", "low");
   ("$high", "high"); ("$volume", "volume"); ("$factor", "factor")].

Definition rename_label (name : string) : string :=
  match getitem renamed name with
  | Return new => new
  | Raise _ => name
  end.

(** [df.rename(columns={...}, inplace=True)] *)
Definition rename (df : DataFrame) : DataFrame :=
  {| df_index := df_index df;
     df_columns := map (λ c, (rename_label c.1, c.2)) (df_columns df) |}.

Definition with_data (s : DataHealthChecker) (d : Dataset)
    : DataHealthChecker :=
  {| data := d; freq := freq s;
     large_step_threshold_price := large_step_threshold_price s;
     large_step_threshold_volume := large_step_threshold_volume s;
     missing_data_num := missing_data_num s |}.

(** The body of the loop of load_qlib_data; the second component is the
    local [df], unbound before the first round. *)
Definition load_body (env : environment) (provider_uri : string)
    (freq : string) (acc : Dataset * option DataFrame) (instrument : string)
    : attempt (Dataset * option DataFrame) :=
  df ← outside (features env provider_uri freq instrument required_fields);
  let df := rename df in
  mret (dict_set acc.1 instrument df, Some df).

(** load_qlib_data: the checker with the tables loaded, and the frame
    it prints. *)
Definition load_qlib_data (env : environment) (provider_uri : string)
    (s : DataHealthChecker) : attempt (DataHealthChecker * DataFrame) :=
  instrument_list ← outside (list_instruments env provider_uri (freq s));
  loaded ← try_each (load_body env provider_uri (freq s)) instrument_list
             (data s, None);
  match loaded.2 with
  | Some df => mret (with_data s loaded.1, df)
  | None => Failed (UnboundLocalError "df")
  end.

Definition csv_body (env : environment) (csv_path : string) (acc : Dataset)
    (filename : string) : attempt Dataset :=
  df ← outside (read_csv env (path_join csv_path filename));
  mret (dict_set acc filename df).

(** [DataHealthChecker(csv_path, qlib_dir, freq, ...)]: the checker and
    what the constructor prints. *)
Definition init (env : environment) (csv_path qlib_dir : option string)
    (freq : string) (large_step_threshold_price : float)
    (large_step_threshold_volume : float) (missing_data_num : Z)
    : attempt (DataHealthChecker * list DataFrame) :=
  _ ← py_assert (truthy csv_path || truthy qlib_dir)
        "One of csv_path or qlib_dir should be provided.";
  _ ← py_assert (negb (truthy csv_path && truthy qlib_dir))
        "Only one of csv_path or qlib_dir should be provided.";
  let s := {| data := []; freq := freq;
              large_step_threshold_price := large_step_threshold_price;
              large_step_threshold_volume := large_step_threshold_volume;
              missing_data_num := missing_data_num |} in
  if truthy csv_path then
    let csv_path := default "" csv_path in
    _ ← py_assert (isdir env csv_path)
          (csv_path +:+ " should be a directory.");
    names ← outside (listdir env csv_path);
    let files := filter (λ f, endswith f ".csv" = true) names in
    d ← try_each (csv_body env csv_path) files (data s);
    mret (with_data s d, [])
  else if truthy qlib_dir then
    let qlib_dir := default "" qlib_dir in
    _ ← outside (qlib_init env qlib_dir);
    loaded ← load_qlib_data env qlib_dir s;
    mret (loaded.1, [loaded.2])
  else mret (s, []).

(** ** Further example data *)

(** Closes 1, missing, 100: no two consecutive rows hold a value. *)
Definition frame_gap : DataFrame :=
  {| df_index := january_index "G" 3;
     df_columns := [("close", [Fin 1; NaN; Fin 100])] |}.

(** Closes 0, 5: a value after a zero. *)
Definition frame_zero : DataFrame :=
  {| df_index := january_index "O" 2;
     df_columns := [("close", [Fin 0; Fin 5])] |}.

Definition new_session (d : Dataset) (c : calendar_resource) : session :=
  {| checker := new_checker d; resource := c; output := [] |}.

(** The frame a provider returns for instrument [k]: two days, the
    requested fields. *)
Definition provider_frame (k : string) (fields : list string) : DataFrame :=
  {| df_index := january_index k 2;
     df_columns := map (λ field, (field, [Fin 1; Fin 1])) fields |}.

(** A directory "data" with two CSV files and a text file, and a
    provider "cn_data" with two instruments. *)
Definition example_env : environment :=
  {| isdir := λ path, String.eqb path "data";
     listdir := λ path,
       if String.eqb path "data"
       then Ok ["SH600000.csv"; "notes.txt"; "SZ000001.csv"]
       else Error "FileNotFoundError";
     read_csv := λ path,
       if String.eqb path "data/SH600000.csv" then Ok frame_csv
       else if String.eqb path "data/SZ000001.csv" then Ok frame_csv
       else Error "FileNotFoundError";
     qlib_init := λ _, Ok tt;
     list_instruments := λ uri _,
       if String.eqb uri "cn_data" then Ok ["SH600000"; "SZ000001"]
       else Ok [];
     features := λ _ _ k fields, Ok (provider_frame k fields) |}.

Definition example_csv_checker : DataHealthChecker :=
  new_checker [("SH600000.csv", frame_csv); ("SZ000001.csv", frame_csv)].

Definition example_qlib_checker : DataHealthChecker :=
  new_checker
    [("SH600000", rename (provider_frame "SH600000" required_fields));
     ("SZ000001", rename (provider_frame "SZ000001" required_fields))].

(** * Properties *)

(** ** Dates *)

Lemma all_from_spec f lo n d :
  all_from f lo n = true → lo ≤ d < lo + Z.of_nat n → f d = true.
Proof.
  revert lo. induction n as [|n IH]; intros lo; [lia|].
  cbn [all_from]. intros [Hlo Hrest]%andb_true_iff Hd.
  destruct (decide (d = lo)) as [->|]; [done|].
  apply (IH (lo + 1)); [done | lia].
Qed.

Lemma all_from_range f lo hi d :
  all_from f lo (Z.to_nat (hi - lo + 1)) = true → lo ≤ d ≤ hi → f d = true.
Proof. intros H Hd. apply (all_from_spec f lo _ d H). lia. Qed.

(** Checked on every day of the range. *)
Lemma civil_in_range_int64 days :
  -106752 ≤ days ≤ 106751 → civil_in_range days = true.
Proof.
  apply (all_from_range civil_in_range (-106752) 106751).
  vm_cast_no_check (eq_refl true).
Qed.

Lemma zero_pad_year y : 1677 ≤ y ≤ 2262 → all_digits 4 (zero_pad 4 y) = true.
Proof.
  apply (all_from_range (λ y, all_digits 4 (zero_pad 4 y)) 1677 2262).
  vm_cast_no_check (eq_refl true).
Qed.

Lemma zero_pad_two n : 1 ≤ n ≤ 31 → all_digits 2 (zero_pad 2 n) = true.
Proof.
  apply (all_from_range (λ n, all_digits 2 (zero_pad 2 n)) 1 31).
  vm_cast_no_check (eq_refl true).
Qed.

Lemma iso_date_join y m d :
  all_digits 4 y = true → all_digits 2 m = true → all_digits 2 d = true →
  iso_date (y +:+ "-" +:+ m +:+ "-" +:+ d) = true.
Proof.
  destruct y as [|y1 [|y2 [|y3 [|y4 [|? ?]]]]]; simpl; try done;
    rewrite ?andb_false_r; try done.
  destruct m as [|m1 [|m2 [|? ?]]]; simpl; rewrite ?andb_false_r; try done.
  destruct d as [|d1 [|d2 [|? ?]]]; simpl; rewrite ?andb_false_r; try done.
  rewrite !andb_true_r. intros Hy Hm Hd.
  repeat match goal with
    | H : _ && _ = true |- _ => apply andb_true_iff in H as [? ?]
    end.
  repeat match goal with
    | H : is_digit _ = true |- _ => rewrite H; clear H
    end.
  done.
Qed.

(** A timestamp of pandas is formatted as YYYY-MM-DD. *)
Lemma strftime_Ymd_iso (t : Timestamp) :
  int64 t → iso_date (strftime_Ymd t) = true.
Proof.
  unfold int64. intros Ht.
  assert (-106752 ≤ t / ns_per_day ≤ 106751) as Hd.
  { unfold ns_per_day. split.
    - apply Z.div_le_lower_bound; lia.
    - apply Z.lt_succ_r. apply Z.div_lt_upper_bound; lia. }
  apply civil_in_range_int64 in Hd. unfold civil_in_range in Hd.
  unfold strftime_Ymd. destruct (civil_from_days _) as [[y m] d].
  repeat match goal with
    | H : _ && _ = true |- _ => apply andb_true_iff in H as [? ?]
    end.
  apply iso_date_join;
    [apply zero_pad_year | apply zero_pad_two | apply zero_pad_two]; lia.
Qed.

(** ** Loops *)

Section for_each.
Context {A S : Type} (body : S → A → outcome S).

(** An invariant of the body holds after the loop. *)
Lemma for_each_inv (P : S → Prop) l acc r :
  P acc →
  (∀ acc x acc', x ∈ l → P acc → body acc x = Return acc' → P acc') →
  for_each body l acc = Return r → P r.
Proof.
  revert acc. induction l as [|x l IH]; intros acc Hacc Hstep; simpl.
  - by intros [= <-].
  - destruct (body acc x) as [acc'|e] eqn:Hb; [|done].
    apply IH.
    + eapply Hstep; [left | done | done].
    + intros a y a' Hy. apply Hstep. by right.
Qed.

(** A body that changes nothing on [l] leaves the accumulator. *)
Lemma for_each_skip l acc :
  (∀ x, x ∈ l → body acc x = Return acc) →
  for_each body l acc = Return acc.
Proof.
  induction l as [|x l IH]; intros H; simpl; [done|].
  rewrite H; [|left]. apply IH. intros y Hy. apply H. by right.
Qed.

(** A body that never raises makes a loop that never raises. *)
Lemma for_each_total (P : S → Prop) l acc :
  P acc →
  (∀ acc x, x ∈ l → P acc → ∃ acc', body acc x = Return acc' ∧ P acc') →
  ∃ r, for_each body l acc = Return r ∧ P r.
Proof.
  revert acc. induction l as [|x l IH]; intros acc Hacc Hstep; simpl.
  - eauto.
  - destruct (Hstep acc x) as (acc' & -> & Hacc'); [left | done |].
    apply IH; [done|]. intros a y Hy. apply Hstep. by right.
Qed.

(** A loop whose body only appends rows: the rows after the loop are
    the rows before it followed by what each item contributed. *)
Lemma for_each_rows {R : Type} (rows : S → list R) (wf : S → Prop)
    (contributes : A → list R → Prop) l acc r :
  (∀ acc x acc', x ∈ l → wf acc → body acc x = Return acc' →
     wf acc' ∧ ∃ new, rows acc' = rows acc ++ new ∧ contributes x new) →
  wf acc → for_each body l acc = Return r →
  wf r ∧ ∃ news, rows r = rows acc ++ concat news
                 ∧ Forall2 contributes l news.
Proof.
  revert acc. induction l as [|x l IH]; intros acc Hbody Hwf; simpl.
  - intros [= <-]. split; [done|]. exists []. simpl.
    by rewrite app_nil_r.
  - destruct (body acc x) as [acc'|e] eqn:Hb; [|done]. intros Hr.
    destruct (Hbody acc x acc') as (Hwf' & new & Hnew & Hc);
      [left | done | done |].
    destruct (IH acc') as (Hwfr & news & Hrows & Hall); [|done|done|].
    { intros a y a' Hy. apply Hbody. by right. }
    split; [done|]. exists (new :: news). simpl.
    rewrite Hrows, Hnew, <- app_assoc. split; [done|]. by constructor.
Qed.
(** An item on which the body always raises makes the loop raise. *)
Lemma for_each_raise l acc e :
  (∀ acc x e', body acc x = Raise e' → e' = e) →
  (∃ x, x ∈ l ∧ ∀ acc, ∃ e', body acc x = Raise e') →
  for_each body l acc = Raise e.
Proof.
  intros Hexn (x & Hx & Hraise). revert acc.
  induction l as [|y l IH]; intros acc; [by apply elem_of_nil in Hx|].
  simpl. destruct (body acc y) as [acc'|e'] eqn:Hb.
  - apply IH. apply elem_of_cons in Hx as [->|Hx]; [|done].
    destruct (Hraise acc) as [e' He']. congruence.
  - f_equal. by eapply Hexn.
Qed.
End for_each.

(** ** Read-only computations *)

(** [m] leaves the checker and the calendar resource as they are, and
    what it returns does not depend on what was logged before. *)
Definition read_only {A : Type} (m : M A) : Prop :=
  ∀ w,
    self (m w).2 = self w ∧ calendar (m w).2 = calendar w ∧
    ∀ w', self w' = self w → calendar w' = calendar w → (m w').1 = (m w).1.

Lemma read_only_ret {A} (a : A) : read_only (mret a).
Proof. by intros w. Qed.

Lemma read_only_lift {A} (o : outcome A) : read_only (lift o).
Proof. by intros w. Qed.

Lemma read_only_get_self : read_only get_self.
Proof. intros w. unfold get_self; simpl. by repeat split; intros; f_equal. Qed.

Lemma read_only_read_calendar : read_only read_calendar.
Proof.
  intros w. unfold read_calendar; simpl. by repeat split; intros; f_equal.
Qed.

Lemma read_only_logger e : read_only (logger e).
Proof. by intros w. Qed.

Lemma read_only_bind {A B} (m : M A) (f : A → M B) :
  read_only m → (∀ a, read_only (f a)) → read_only (m ≫= f).
Proof.
  intros Hm Hf w. unfold mbind, M_bind.
  destruct (Hm w) as (Hs & Hc & Hr).
  destruct (m w) as [[a|e] w1] eqn:Hmw; simpl in *.
  - destruct (Hf a w1) as (Hs1 & Hc1 & Hr1).
    split; [congruence|]. split; [congruence|].
    intros w' Hs' Hc'. specialize (Hr w' Hs' Hc').
    destruct (Hm w') as (Hs2 & Hc2 & _).
    destruct (m w') as [o2 w2]; simpl in *; subst o2.
    apply Hr1; congruence.
  - repeat split; [done..|].
    intros w' Hs' Hc'. specialize (Hr w' Hs' Hc').
    destruct (m w') as [o2 w2]; simpl in *; by subst o2.
Qed.

Create HintDb read_only.
#[export] Hint Resolve read_only_ret read_only_lift read_only_get_self
  read_only_read_calendar read_only_logger : read_only.

Ltac read_only_tac :=
  repeat first
    [ apply read_only_bind; [|intros ?]
    | progress eauto with read_only
    | match goal with
      | |- read_only (if ?b then _ else _) => destruct b
      | |- read_only (match ?x with _ => _ end) => destruct x
      end ].

Lemma read_only_run_check c instruments : read_only (run_check c instruments).
Proof.
  destruct c; simpl;
    [ unfold check_missing_data | unfold check_large_step_changes
    | unfold check_required_columns | unfold check_missing_factor
    | unfold check_missing_trading_days, resolve_trading_days, union_method ];
    read_only_tac.
Qed.

(** ** No empty report, no mutation *)

Ltac run_check_cases :=
  unfold check_missing_data, check_large_step_changes,
    check_required_columns, check_missing_factor,
    check_missing_trading_days, resolve_trading_days, union_method,
    mbind, M_bind, mret, M_ret, get_self, read_calendar, lift, logger;
  simpl;
  repeat match goal with
    | |- context [match ?x with _ => _ end] => destruct x eqn:?; simpl
    end.

(** C9. Each of the five checks returns either no report or a report
    with at least one row. *)
Theorem report_never_empty (c : check) (instruments : option instruments_arg)
    (w : world) (r : report (row_of c)) :
  (run_check c instruments w).1 = Return (Some r) → r ≠ [].
Proof.
  destruct c; simpl; run_check_cases; intros [= <-]; try done;
    intros ->; done.
Qed.

Lemma report_never_empty_witness :
  ∃ r, (run_check CheckLargeStepChanges None
          (new_world [("Y", frame_Y)] CalendarNotFound)).1 = Return (Some r)
       ∧ r ≠ [].
Proof.
  eexists. split.
  - vm_compute. reflexivity.
  - apply (report_never_empty CheckLargeStepChanges None
             (new_world [("Y", frame_Y)] CalendarNotFound)).
    vm_compute. reflexivity.
Defined.

(** C10. A check leaves the checker and its dataset as they were, and
    running it again right after gives the same report. *)
Theorem check_does_not_mutate (c : check)
    (instruments : option instruments_arg) (w : world) :
  let w1 := (run_check c instruments w).2 in
  self w1 = self w ∧ data (self w1) = data (self w) ∧
  (run_check c instruments w1).1 = (run_check c instruments w).1.
Proof.
  destruct (read_only_run_check c instruments w) as (Hs & Hc & Hr).
  simpl. split; [done|]. split; [by rewrite Hs|]. by apply Hr.
Qed.

(** ** Building the report frame *)

Lemma check_lengths_same n lens :
  Forall (λ m, m = n) lens → check_lengths (n :: lens) = Return tt.
Proof.
  intros H. simpl.
  assert (forallb (Nat.eqb n) lens = true) as ->; [|done].
  apply forallb_forall. intros m Hm.
  rewrite Forall_forall in H. rewrite (H m) by (by apply list_elem_of_In).
  apply Nat.eqb_refl.
Qed.

Lemma ap_zip_snoc {A B} (fs : list (A → B)) xs f x :
  length fs = length xs →
  ap_zip (fs ++ [f]) (xs ++ [x]) = ap_zip fs xs ++ [f x].
Proof. intros H. unfold ap_zip. by rewrite zip_with_app. Qed.

Lemma length_ap_zip {A B} (fs : list (A → B)) xs :
  length fs = length xs → length (ap_zip fs xs) = length xs.
Proof. intros H. unfold ap_zip. rewrite length_zip_with. lia. Qed.

Lemma zip_snoc {A B} (l : list A) (k : list B) x y :
  length l = length k → zip (l ++ [x]) (k ++ [y]) = zip l k ++ [(x, y)].
Proof. intros H. by rewrite zip_with_app. Qed.

(** ** check_missing_data *)

Lemma missing_data_frame_wf rd :
  md_wf rd → missing_data_frame rd = Return (md_rows rd).
Proof.
  intros (Ho & Hh & Hl & Hc & Hv). unfold missing_data_frame.
  rewrite check_lengths_same; [done|].
  repeat constructor; done.
Qed.

Lemma md_rows_snoc rd k o h l c v :
  md_wf rd →
  md_rows {| md_instruments := md_instruments rd ++ [k];
             md_open := md_open rd ++ [o]; md_high := md_high rd ++ [h];
             md_low := md_low rd ++ [l]; md_close := md_close rd ++ [c];
             md_volume := md_volume rd ++ [v] |}
  = md_rows rd ++ [(k, Build_missing_data_row o h l c v)].
Proof.
  intros (Ho & Hh & Hl & Hc & Hv). unfold md_rows; simpl.
  rewrite map_app; simpl.
  assert (length (ap_zip (map Build_missing_data_row (md_open rd))
            (md_high rd)) = length (md_high rd)) as H1
    by (apply length_ap_zip; rewrite length_map; congruence).
  assert (length (ap_zip (ap_zip (map Build_missing_data_row (md_open rd))
            (md_high rd)) (md_low rd)) = length (md_low rd)) as H2
    by (apply length_ap_zip; congruence).
  assert (length (ap_zip (ap_zip (ap_zip
            (map Build_missing_data_row (md_open rd))
            (md_high rd)) (md_low rd)) (md_close rd))
          = length (md_close rd)) as H3
    by (apply length_ap_zip; congruence).
  rewrite (ap_zip_snoc _ (md_high rd)) by (rewrite length_map; congruence).
  rewrite (ap_zip_snoc _ (md_low rd)) by congruence.
  rewrite (ap_zip_snoc _ (md_close rd)) by congruence.
  rewrite (ap_zip_snoc _ (md_volume rd)) by congruence.
  rewrite zip_snoc; [done|].
  rewrite length_ap_zip; congruence.
Qed.

Lemma md_wf_snoc rd k o h l c v :
  md_wf rd →
  md_wf {| md_instruments := md_instruments rd ++ [k];
           md_open := md_open rd ++ [o]; md_high := md_high rd ++ [h];
           md_low := md_low rd ++ [l]; md_close := md_close rd ++ [c];
           md_volume := md_volume rd ++ [v] |}.
Proof.
  intros (Ho & Hh & Hl & Hc & Hv). unfold md_wf; simpl.
  rewrite !length_app; simpl. lia.
Qed.

(** What the loop body does to the rows: nothing, or one dense row. *)
Lemma missing_data_body_rows num rd k df rd' :
  md_wf rd → missing_data_body num rd (k, df) = Return rd' →
  md_wf rd' ∧
  (md_rows rd' = md_rows rd ∨
   ∃ row, md_rows rd' = md_rows rd ++ [(k, row)] ∧
     (∃ c, c ∈ isnull_sum df ∧ num < Z.of_nat c.2) ∧
     column_nulls df "open" = Return (mr_open row) ∧
     column_nulls df "high" = Return (mr_high row) ∧
     column_nulls df "low" = Return (mr_low row) ∧
     column_nulls df "close" = Return (mr_close row) ∧
     column_nulls df "volume" = Return (mr_volume row)).
Proof.
  intros Hwf. unfold missing_data_body, column_nulls.
  destruct (0 <? _)%nat eqn:Hflag.
  - destruct (getitem _ "open") as [o|] eqn:Ho; [|done].
    destruct (getitem _ "high") as [h|] eqn:Hh; [|done].
    destruct (getitem _ "low") as [l|] eqn:Hl; [|done].
    destruct (getitem _ "close") as [c|] eqn:Hc; [|done].
    destruct (getitem _ "volume") as [v|] eqn:Hv; [|done].
    simpl. intros [= <-]. split; [by apply md_wf_snoc|]. right.
    exists (Build_missing_data_row o h l c v).
    split; [by apply md_rows_snoc|]. split; [|done].
    apply Nat.ltb_lt in Hflag. rewrite length_map in Hflag.
    destruct (filter _ _) as [|c0 ?] eqn:Hf; [simpl in Hflag; lia|].
    assert (c0 ∈ filter (λ c, num < Z.of_nat c.2) (isnull_sum df)) as Hin
      by (rewrite Hf; left).
    apply list_elem_of_filter in Hin. exists c0. tauto.
  - intros [= <-]. auto.
Qed.

(** The outcome of the method, read off its loop. *)
Lemma check_missing_data_outcome instruments w :
  (check_missing_data instruments w).1 =
  match for_each (missing_data_body (missing_data_num (self w)))
          (data_to_check (data (self w)) instruments) md_init with
  | Return rd =>
      match missing_data_frame rd with
      | Return r => if empty r then Return None else Return (Some r)
      | Raise e => Raise e
      end
  | Raise e => Raise e
  end.
Proof.
  unfold check_missing_data, mbind, M_bind, outcome_bind, get_self, lift;
    simpl.
  fold md_init.
  destruct (for_each _ _ _) as [rd|e]; [|done].
  destruct (missing_data_frame rd) as [r|e]; [|done].
  by destruct r.
Qed.

(** A frame that is flagged by no column leaves the loop as it is. *)
Lemma missing_data_body_clean num rd k df :
  (∀ c, c ∈ df_columns df → Z.of_nat (null_count c.2) ≤ num) →
  missing_data_body num rd (k, df) = Return rd.
Proof.
  intros Hclean. unfold missing_data_body.
  assert (filter (λ c : string * nat, num < Z.of_nat c.2) (isnull_sum df) = [])
    as ->; [|done].
  apply elem_of_nil_inv. intros c [Hlt Hc]%list_elem_of_filter.
  unfold isnull_sum in Hc.
  apply list_elem_of_In, in_map_iff in Hc as (c' & <- & Hc'%list_elem_of_In).
  simpl in Hlt. specialize (Hclean c' Hc'). lia.
Qed.

(** C1 (amended). With tolerance 0, a dataset whose tables have the five
    required columns and no null cell in any column gives no report; and
    every row of a report carries the null counts of all five required
    columns of a flagged table. *)
Theorem check_missing_data_report (instruments : option instruments_arg)
    (w : world) :
  (missing_data_num (self w) = 0 →
   (∀ k df, (k, df) ∈ data_to_check (data (self w)) instruments →
      (∀ col, col ∈ required_columns → col ∈ columns df) ∧
      (∀ c, c ∈ df_columns df → null_count c.2 = 0%nat)) →
   (check_missing_data instruments w).1 = Return None) ∧
  (∀ r, (check_missing_data instruments w).1 = Return (Some r) →
     ∀ k row, (k, row) ∈ r →
       ∃ df, (k, df) ∈ data_to_check (data (self w)) instruments ∧
         (∃ c, c ∈ isnull_sum df ∧ missing_data_num (self w) < Z.of_nat c.2) ∧
         column_nulls df "open" = Return (mr_open row) ∧
         column_nulls df "high" = Return (mr_high row) ∧
         column_nulls df "low" = Return (mr_low row) ∧
         column_nulls df "close" = Return (mr_close row) ∧
         column_nulls df "volume" = Return (mr_volume row)).
Proof.
  rewrite check_missing_data_outcome. split.
  - intros Hnum Hclean. rewrite for_each_skip; [done|].
    intros [k df] Hin. apply missing_data_body_clean.
    intros c Hc. destruct (Hclean k df Hin) as [_ H0].
    rewrite (H0 c Hc), Hnum. done.
  - intros r Hr k row Hrow.
    destruct (for_each _ _ _) as [rd|e] eqn:Hloop; [|done].
    pose (P := λ rd : missing_data_dict,
      md_wf rd ∧ ∀ k row, (k, row) ∈ md_rows rd →
        ∃ df, (k, df) ∈ data_to_check (data (self w)) instruments ∧
          (∃ c, c ∈ isnull_sum df ∧ missing_data_num (self w) < Z.of_nat c.2) ∧
          column_nulls df "open" = Return (mr_open row) ∧
          column_nulls df "high" = Return (mr_high row) ∧
          column_nulls df "low" = Return (mr_low row) ∧
          column_nulls df "close" = Return (mr_close row) ∧
          column_nulls df "volume" = Return (mr_volume row)).
    assert (P rd) as [Hwf Hrows].
    { eapply (for_each_inv _ P); [| |exact Hloop].
      - split; [by repeat split|]. intros ? ? H. by apply elem_of_nil in H.
      - intros acc [k' df'] acc' Hin [Hwf Hacc] Hbody.
        destruct (missing_data_body_rows _ _ _ _ _ Hwf Hbody)
          as [Hwf' [Heq | (row' & Heq & Hrow')]].
        + split; [done|]. by rewrite Heq.
        + split; [done|]. rewrite Heq. intros k0 row0 H0.
          apply elem_of_app in H0 as [H0|H0]; [by apply Hacc|].
          apply list_elem_of_singleton in H0 as [= -> ->]. eauto. }
    rewrite missing_data_frame_wf in Hr by done.
    destruct (md_rows rd) eqn:Hrd; [done|]. simpl in Hr.
    injection Hr as <-. by apply Hrows.
Qed.

Ltac elem_of_concrete := apply (bool_decide_unpack _); vm_compute; exact I.

Ltac in_singleton H :=
  apply list_elem_of_singleton in H; injection H as -> ->.

Lemma check_missing_data_report_witness :
  (check_missing_data None
     (new_world [("F", frame_full)] CalendarNotFound)).1 = Return None ∧
  ∃ df, ("X", df) ∈ data_to_check [("X", frame_X)] None ∧
        column_nulls df "open" = Return 0%nat ∧
        column_nulls df "volume" = Return 2%nat.
Proof.
  split.
  - apply (proj1 (check_missing_data_report None
                    (new_world [("F", frame_full)] CalendarNotFound)));
      [reflexivity|].
    intros k df Hin. in_singleton Hin. split.
    + intros col Hcol. unfold required_columns in Hcol.
      repeat (apply elem_of_cons in Hcol as [->|Hcol]; [elem_of_concrete|]).
      by apply elem_of_nil in Hcol.
    + intros c Hc.
      repeat (apply elem_of_cons in Hc as [->|Hc]; [reflexivity|]).
      by apply elem_of_nil in Hc.
  - destruct (proj2 (check_missing_data_report None
                       (new_world [("X", frame_X)] CalendarNotFound))
                _ eq_refl "X" (Build_missing_data_row 0 0 0 0 2))
      as (df & Hin & _ & Ho & _ & _ & _ & Hv); [left|].
    exists df. auto.
Defined.

(** C1 as stated fails: the five columns of "X" are complete and free
    of nulls, the factor column has one null, and "X" is reported with
    five zero counts. *)
Lemma check_missing_data_counterexample :
  let w := new_world [("X", frame_X_factor_null)] CalendarNotFound in
  missing_data_num (self w) = 0 ∧
  (∀ k df, (k, df) ∈ data (self w) →
     ∀ col, col ∈ required_columns →
       col ∈ columns df ∧ column_nulls df col = Return 0%nat) ∧
  (check_missing_data None w).1
  = Return (Some [("X", Build_missing_data_row 0 0 0 0 0)]).
Proof.
  split; [reflexivity|]. split; [|reflexivity].
  intros k df Hin. in_singleton Hin. intros col Hcol.
  unfold required_columns in Hcol.
  repeat (apply elem_of_cons in Hcol as [->|Hcol];
          [split; [elem_of_concrete | reflexivity]|]).
  by apply elem_of_nil in Hcol.
Qed.

(** ** check_required_columns *)

(** C2, at the failing input.  "A" lacks two required columns: the loop
    appends one instrument and two column names, and building the frame
    raises instead of giving one row that lists both. *)
Theorem check_required_columns_two_missing :
  (check_required_columns None
     (new_world [("A", frame_A)] CalendarNotFound)).1
  = Raise (ValueError "All arrays must be of the same length").
Proof. reflexivity. Qed.

(** With one missing column the report has the row. *)
Example check_required_columns_one_missing :
  (check_required_columns None
     (new_world [("B", frame_B); ("F", frame_full)] CalendarNotFound)).1
  = Return (Some [("B", "volume")]).
Proof. reflexivity. Qed.

(** The loop never raises; it adds one instrument and all the missing
    columns of every frame that lacks one. *)
Lemma columns_body_lengths rd k df :
  ∃ rd', columns_body rd (k, df) = Return rd' ∧
    let missing := filter (λ column, column ∉ columns df) required_columns in
    (missing = [] ∧ rd' = rd) ∨
    (missing ≠ [] ∧
     length (cd_instruments rd') = S (length (cd_instruments rd)) ∧
     length (cd_missing_col rd')
     = (length (cd_missing_col rd) + length missing)%nat).
Proof.
  unfold columns_body.
  destruct (forallb _ required_columns) eqn:Hall; simpl.
  - exists rd. split; [done|]. left. split; [|done].
    apply elem_of_nil_inv. intros c [Hc Hin]%list_elem_of_filter.
    rewrite forallb_forall in Hall.
    apply list_elem_of_In, Hall, bool_decide_eq_true in Hin. done.
  - eexists. split; [done|]. right. simpl. rewrite !length_app. simpl.
    split; [|lia].
    intros Hnil. apply not_true_iff_false in Hall. apply Hall.
    apply forallb_forall. intros c Hc%list_elem_of_In.
    apply bool_decide_eq_true. destruct (decide (c ∈ columns df)); [done|].
    assert (c ∈ filter (λ column, column ∉ columns df) required_columns)
      as Hin by (by apply list_elem_of_filter).
    rewrite Hnil in Hin. by apply elem_of_nil in Hin.
Qed.

Lemma columns_loop_lengths l rd :
  (length (cd_instruments rd) ≤ length (cd_missing_col rd))%nat →
  ∃ rd', for_each columns_body l rd = Return rd' ∧
    (length (cd_missing_col rd) - length (cd_instruments rd)
     ≤ length (cd_missing_col rd') - length (cd_instruments rd'))%nat ∧
    (length (cd_instruments rd') ≤ length (cd_missing_col rd'))%nat ∧
    ((∃ k df, (k, df) ∈ l ∧
        (2 ≤ length (filter (λ column, column ∉ columns df)
                            required_columns))%nat) →
     (length (cd_instruments rd') < length (cd_missing_col rd'))%nat).
Proof.
  revert rd. induction l as [|[k df] l IH]; intros rd Hrd.
  - exists rd. repeat split; try done.
    intros (? & ? & []%elem_of_nil & _).
  - destruct (columns_body_lengths rd k df) as (rd1 & Hbody & Hstep).
    cbv zeta in Hstep.
    assert (length (cd_instruments rd1) ≤ length (cd_missing_col rd1)
            ∧ length (cd_missing_col rd) - length (cd_instruments rd)
              ≤ length (cd_missing_col rd1) - length (cd_instruments rd1))%nat
      as [Hrd1 Hmono].
    { destruct Hstep as [[_ ->]|(Hne & Hi & Hm)]; [lia|].
      destruct (filter _ required_columns); [done|]. simpl in Hm. lia. }
    destruct (IH rd1 Hrd1) as (rd' & Hloop & Hmono' & Hle & Hstrict).
    exists rd'. split; [cbn [for_each]; by rewrite Hbody|].
    split; [lia|]. split; [done|].
    intros (k' & df' & Hin & Htwo).
    apply elem_of_cons in Hin as [[= -> ->]|Hin]; [|by eauto].
    destruct Hstep as [[Hnil _]|(_ & Hi & Hm)].
    + rewrite Hnil in Htwo. simpl in Htwo. lia.
    + lia.
Qed.

(** X5. An instrument that lacks two or more required columns makes
    check_required_columns raise ValueError, whatever else is in scope:
    no report is returned, also not for the other instruments. *)
Lemma check_required_columns_raises instruments w :
  (∃ k df, (k, df) ∈ data_to_check (data (self w)) instruments ∧
     (2 ≤ length (filter (λ column, column ∉ columns df)
                         required_columns))%nat) →
  (check_required_columns instruments w).1
  = Raise (ValueError "All arrays must be of the same length").
Proof.
  intros Htwo.
  unfold check_required_columns, mbind, M_bind, outcome_bind, get_self, lift.
  simpl.
  destruct (columns_loop_lengths
              (data_to_check (data (self w)) instruments)
              {| cd_instruments := []; cd_missing_col := [] |})
    as (rd & -> & _ & _ & Hstrict); [simpl; lia|].
  specialize (Hstrict Htwo). unfold columns_frame, check_lengths. simpl.
  destruct (Nat.eqb_spec (length (cd_instruments rd))
              (length (cd_missing_col rd))); [lia|done].
Qed.

(** ** check_missing_factor *)

(** C3, at the failing input.  "Z" has no factor column and is not
    excluded: after flagging the column the body reads [df["factor"]]
    and the check raises instead of returning the row. *)
Theorem check_missing_factor_no_column :
  excluded "Z" = false ∧
  (check_missing_factor None
     (new_world [("Z", frame_Z)] CalendarNotFound)).1
  = Raise (KeyError "factor").
Proof. split; reflexivity. Qed.

(** A factor column that is present and all null is reported. *)
Example check_missing_factor_all_null :
  (check_missing_factor None
     (new_world [("N", frame_null_factor)] CalendarNotFound)).1
  = Return (Some [("N", {| fr_missing_factor_col := false;
                           fr_missing_factor_data := true |})]).
Proof. reflexivity. Qed.

Lemma getitem_raise {V} (kvs : list (string * V)) key e :
  getitem kvs key = Raise e → e = KeyError key.
Proof.
  induction kvs as [|[k v'] kvs IH]; simpl; [by intros [= <-]|].
  by destruct (decide (k = key)).
Qed.

Lemma getitem_absent {V} (kvs : list (string * V)) key :
  key ∉ map fst kvs → getitem kvs key = Raise (KeyError key).
Proof.
  induction kvs as [|[k v] kvs IH]; simpl; [done|].
  intros Hnot. destruct (decide (k = key)) as [->|].
  - exfalso. apply Hnot. left.
  - apply IH. intros Hin. apply Hnot. by right.
Qed.

(** X25. An instrument that is not excluded and has no factor column
    makes check_missing_factor raise KeyError, whatever else is in
    scope: no report is returned, also not for the other instruments. *)
Lemma check_missing_factor_raises instruments w :
  (∃ k df, (k, df) ∈ data_to_check (data (self w)) instruments ∧
     excluded k = false ∧ "factor" ∉ columns df) →
  (check_missing_factor instruments w).1 = Raise (KeyError "factor").
Proof.
  intros (k & df & Hin & Hex & Hcol).
  unfold check_missing_factor, mbind, M_bind, outcome_bind, get_self, lift.
  simpl.
  rewrite (for_each_raise factor_body _ _ (KeyError "factor")); [done| |].
  - intros acc [k' df'] e'. unfold factor_body.
    destruct (excluded k'); [done|].
    destruct (getitem _ _) eqn:Hg; simpl.
    + by repeat case_match.
    + intros [= <-]. by apply getitem_raise in Hg.
  - exists (k, df). split; [done|]. intros acc. unfold factor_body.
    rewrite Hex, (getitem_absent (df_columns df) "factor" Hcol). by eexists.
Qed.

Lemma prefix_refl s : String.prefix s s = true.
Proof.
  induction s as [|a s IH]; simpl; [done|].
  by destruct (ascii_dec a a).
Qed.

Lemma str_contains_refl s : str_contains s s = true.
Proof. destruct s; [done|]. cbn [str_contains]. by rewrite prefix_refl. Qed.

Lemma excluded_factor_keys_excluded k :
  k ∈ excluded_factor_keys → excluded k = true.
Proof.
  intros Hk. unfold excluded. apply existsb_exists.
  exists k. split; [by apply list_elem_of_In | apply str_contains_refl].
Qed.

(** An excluded instrument is skipped, whatever its frame holds. *)
Lemma factor_body_excluded rd k df :
  excluded k = true → factor_body rd (k, df) = Return rd.
Proof. intros H. unfold factor_body. by rewrite H. Qed.

(** The instruments of the loop's dictionary are not excluded. *)
Lemma factor_body_instruments rd k df rd' :
  factor_body rd (k, df) = Return rd' →
  ∀ k', k' ∈ fd_instruments rd' →
    k' ∈ fd_instruments rd ∨ (k' = k ∧ excluded k = false).
Proof.
  unfold factor_body. destruct (excluded k) eqn:Hex.
  { intros [= <-]. auto. }
  destruct (getitem _ _) as [factor|]; [|done]. simpl.
  destruct (bool_decide ("factor" ∉ columns df));
    destruct (all_null factor); simpl;
    repeat case_bool_decide; intros [= <-] k'; simpl;
    rewrite ?elem_of_app, ?list_elem_of_singleton; naive_solver.
Qed.

Lemma check_missing_factor_outcome instruments w :
  (check_missing_factor instruments w).1 =
  match for_each factor_body (data_to_check (data (self w)) instruments)
          {| fd_instruments := []; fd_missing_factor_col := [];
             fd_missing_factor_data := [] |} with
  | Return rd =>
      match factor_frame rd with
      | Return r => if empty r then Return None else Return (Some r)
      | Raise e => Raise e
      end
  | Raise e => Raise e
  end.
Proof.
  unfold check_missing_factor, mbind, M_bind, outcome_bind, get_self, lift;
    simpl.
  destruct (for_each _ _ _) as [rd|e]; [|done].
  destruct (factor_frame rd) as [r|e]; [|done].
  by destruct r.
Qed.

(** C6. An instrument whose key is one of the excluded codes (or
    contains one) has no row in the report of check_missing_factor,
    whatever its factor column is. *)
Theorem check_missing_factor_excluded (instruments : option instruments_arg)
    (w : world) (k : string) (r : report factor_row) :
  k ∈ excluded_factor_keys ∨ excluded k = true →
  (check_missing_factor instruments w).1 = Return (Some r) →
  ∀ row, (k, row) ∉ r.
Proof.
  intros Hk Hr row Hrow.
  assert (excluded k = true) as Hex.
  { destruct Hk; [by apply excluded_factor_keys_excluded | done]. }
  rewrite check_missing_factor_outcome in Hr.
  destruct (for_each _ _ _) as [rd|e] eqn:Hloop; [|done].
  assert (∀ k', k' ∈ fd_instruments rd → excluded k' = false) as Hinv.
  { eapply (for_each_inv _
      (λ rd, ∀ k', k' ∈ fd_instruments rd → excluded k' = false));
      [| |exact Hloop].
    - intros k' H. by apply elem_of_nil in H.
    - intros acc [k0 df0] acc' _ Hacc Hbody k' Hk'.
      destruct (factor_body_instruments _ _ _ _ Hbody k' Hk')
        as [?|[-> ?]]; auto. }
  unfold factor_frame in Hr.
  destruct (check_lengths _); [|done]. simpl in Hr.
  destruct (zip _ _) as [|p r'] eqn:Hzip; [done|]. simpl in Hr.
  injection Hr as <-. rewrite <- Hzip in Hrow.
  apply elem_of_zip_l in Hrow. apply Hinv in Hrow. congruence.
Qed.

Lemma check_missing_factor_excluded_witness :
  "000300" ∈ excluded_factor_keys ∧
  (check_missing_factor None
     (new_world data_index_and_N CalendarNotFound)).1
  = Return (Some [("N", {| fr_missing_factor_col := false;
                           fr_missing_factor_data := true |})]) ∧
  ("000300", {| fr_missing_factor_col := true;
                fr_missing_factor_data := false |})
  ∉ [("N", {| fr_missing_factor_col := false;
              fr_missing_factor_data := true |})].
Proof.
  split; [elem_of_concrete|]. split; [reflexivity|].
  apply (check_missing_factor_excluded None
           (new_world data_index_and_N CalendarNotFound) "000300").
  - left. elem_of_concrete.
  - reflexivity.
Defined.

(** ** Order on floats *)

Lemma Qlt_bool_iff a b : Qlt_bool a b = true ↔ (a < b)%Q.
Proof.
  unfold Qlt_bool. rewrite negb_true_iff.
  destruct (Qle_bool b a) eqn:H.
  - apply Qle_bool_iff in H. split; [done|]. intros. lra.
  - split; [|done]. intros _.
    destruct (Qlt_le_dec a b) as [|Hle]; [done|].
    apply Qle_bool_iff in Hle. congruence.
Qed.

Lemma Qlt_bool_false a b : Qlt_bool a b = false ↔ (b <= a)%Q.
Proof.
  unfold Qlt_bool. rewrite negb_false_iff. apply Qle_bool_iff.
Qed.

Lemma Qlt_bool_irrefl q : Qlt_bool q q = false.
Proof. apply Qlt_bool_false. lra. Qed.

Ltac float_cases :=
  repeat match goal with
    | x : float |- _ => destruct x as [|[]|?]
    end;
  simpl in *; try done;
  repeat match goal with
    | H : Qlt_bool _ _ = true |- _ => apply Qlt_bool_iff in H
    | H : Qlt_bool _ _ = false |- _ => apply Qlt_bool_false in H
    | |- Qlt_bool _ _ = true => apply Qlt_bool_iff
    | |- Qlt_bool _ _ = false => apply Qlt_bool_false
    end;
  try lra.

(** Strictness: nothing is above itself. *)
Lemma fgt_irrefl x : fgt x x = false.
Proof. float_cases. Qed.

Lemma fgt_not_null a b : fgt a b = true → isnull a = false.
Proof. intros. float_cases. Qed.

(** [m >= c > t] gives [m > t]. *)
Lemma fgt_ge_trans m c t :
  isnull m = false → fgt c m = false → fgt c t = true → fgt m t = true.
Proof. intros. float_cases. Qed.

(** [m >= c >= a] gives [m >= a]. *)
Lemma fge_trans m c a :
  isnull c = false → fgt c m = false → fgt a c = false → fgt a m = false.
Proof. intros. float_cases. Qed.

Lemma nanmax2_cases acc x :
  (nanmax2 acc x = acc ∨ nanmax2 acc x = x) ∧
  (isnull acc = false → isnull (nanmax2 acc x) = false
                        ∧ fgt acc (nanmax2 acc x) = false) ∧
  (isnull x = false → isnull (nanmax2 acc x) = false
                      ∧ fgt x (nanmax2 acc x) = false).
Proof.
  unfold nanmax2.
  destruct acc as [|[]|qa], x as [|[]|qx]; simpl;
    rewrite ?Qlt_bool_irrefl; try (solve [intuition]).
  destruct (Qlt_bool qa qx) eqn:H; simpl; rewrite ?Qlt_bool_irrefl;
    (split; [auto|]); split; intros _; (split; [done|]); try done.
  apply Qlt_bool_false. apply Qlt_bool_iff in H. lra.
Qed.

Lemma fold_nanmax acc l :
  (fold_left nanmax2 l acc = acc ∨ fold_left nanmax2 l acc ∈ l) ∧
  (isnull acc = false → isnull (fold_left nanmax2 l acc) = false
                        ∧ fgt acc (fold_left nanmax2 l acc) = false) ∧
  (∀ c, c ∈ l → isnull c = false →
     isnull (fold_left nanmax2 l acc) = false
     ∧ fgt c (fold_left nanmax2 l acc) = false).
Proof.
  revert acc. induction l as [|x l IH]; intros acc; simpl.
  - split; [by left|]. split.
    + intros H. split; [done | apply fgt_irrefl].
    + intros c Hc. by apply elem_of_nil in Hc.
  - destruct (IH (nanmax2 acc x)) as (Hin & Hacc & Hall).
    destruct (nanmax2_cases acc x) as (Hcase & Hn1 & Hn2).
    split; [|split].
    + destruct Hin as [->|Hin]; [|right; by right].
      destruct Hcase as [->| ->]; [by left | right; left].
    + intros Hnull. destruct (Hn1 Hnull) as [Hn Hle].
      destruct (Hacc Hn) as [Hm Hle']. split; [done|].
      by apply (fge_trans _ (nanmax2 acc x)).
    + intros c Hc Hnull. apply elem_of_cons in Hc as [->|Hc]; [|by apply Hall].
      destruct (Hn2 Hnull) as [Hn Hle].
      destruct (Hacc Hn) as [Hm Hle']. split; [done|].
      by apply (fge_trans _ (nanmax2 acc x)).
Qed.

(** The maximum is above the threshold exactly when some value is. *)
Lemma series_max_above l t :
  fgt (series_max l) t = true ↔ ∃ c, c ∈ l ∧ fgt c t = true.
Proof.
  unfold series_max. destruct (fold_nanmax NaN l) as (Hin & _ & Hall).
  split.
  - intros H. destruct Hin as [Heq|Hin]; [by rewrite Heq in H|]. eauto.
  - intros (c & Hc & Hgt).
    destruct (Hall c Hc (fgt_not_null _ _ Hgt)) as [Hn Hle].
    by eapply fgt_ge_trans.
Qed.

(** ** Frames and columns *)

Lemma getitem_elem {V} (kvs : list (string * V)) key v :
  getitem kvs key = Return v → (key, v) ∈ kvs.
Proof.
  induction kvs as [|[k v'] kvs IH]; simpl; [done|].
  destruct (decide (k = key)) as [->|].
  - intros [= ->]. left.
  - intros H. right. by apply IH.
Qed.

Lemma getitem_columns df col :
  col ∈ columns df ↔ ∃ series, getitem (df_columns df) col = Return series.
Proof.
  unfold columns. induction (df_columns df) as [|[k v] kvs IH]; simpl.
  - split; [by intros ?%elem_of_nil | by intros [? ?]].
  - rewrite elem_of_cons, IH. destruct (decide (k = col)) as [->|Hne].
    + split; eauto.
    + split; [intros [?|?]; [congruence | done] | by right].
Qed.

Lemma removelast_length_pred {A} (l : list A) :
  length (removelast l) = (length l - 1)%nat.
Proof.
  induction l as [|x l IH]; [done|].
  destruct l as [|y l]; [done|].
  change (removelast (x :: y :: l)) with (x :: removelast (y :: l)).
  cbn [length] in *. lia.
Qed.

Lemma length_shift s : length (shift s) = length s.
Proof.
  destruct s as [|x s]; [done|]. unfold shift.
  cbn [length]. rewrite removelast_length_pred. cbn [length]. lia.
Qed.

Lemma length_abs_pct_change s : length (series_abs (pct_change s)) = length s.
Proof.
  unfold series_abs, pct_change.
  rewrite length_map, length_zip_with, length_shift. lia.
Qed.

(** ** check_large_step_changes *)

(** The first label of the rows that pass a filter is the label of the
    first row that passes it. *)
Lemma first_item_filter_zip (P : float → bool) (labels : list label)
    (values : list float) lbl :
  first_item (map fst (filter (λ p, P p.2 = true) (zip labels values)))
  = Return lbl →
  ∃ i, ((∃ c, values !! i = Some c ∧ P c = true) ∧
        ∀ j c, (j < i)%nat → values !! j = Some c → P c = false) ∧
       labels !! i = Some lbl.
Proof.
  revert values. induction labels as [|l labels IH]; intros [|v values];
    simpl; try done.
  rewrite filter_cons. simpl. destruct (decide (P v = true)) as [Hv|Hv].
  - simpl. intros [= <-]. exists 0%nat. split; [|done]. split; [eauto|].
    intros j c Hj. lia.
  - intros H. destruct (IH values H) as (i & [Hi Hbefore] & Hl).
    exists (S i). split; [|done]. split; [done|].
    intros [|j] c Hj; simpl.
    + intros [= <-]. by destruct (P v).
    + apply Hbefore. lia.
Qed.

Lemma step_frame_wf rd : sd_wf rd → step_frame rd = Return (sd_rows rd).
Proof.
  intros (Hc & Hd & Hp). unfold step_frame.
  rewrite check_lengths_same; [done|]. repeat constructor; done.
Qed.

Lemma sd_rows_snoc rd k col d p :
  sd_wf rd →
  sd_rows {| sd_instruments := sd_instruments rd ++ [k];
             sd_col_name := sd_col_name rd ++ [col];
             sd_date := sd_date rd ++ [d];
             sd_pct_change := sd_pct_change rd ++ [p] |}
  = sd_rows rd ++ [(k, Build_step_row col d p)].
Proof.
  intros (Hc & Hd & Hp). unfold sd_rows; simpl.
  rewrite map_app; simpl.
  assert (length (ap_zip (map Build_step_row (sd_col_name rd)) (sd_date rd))
          = length (sd_date rd)) as H1
    by (apply length_ap_zip; rewrite length_map; congruence).
  rewrite (ap_zip_snoc _ (sd_date rd)) by (rewrite length_map; congruence).
  rewrite (ap_zip_snoc _ (sd_pct_change rd)) by congruence.
  rewrite zip_snoc; [done|].
  rewrite length_ap_zip; congruence.
Qed.

Lemma sd_wf_snoc rd k col d p :
  sd_wf rd →
  sd_wf {| sd_instruments := sd_instruments rd ++ [k];
           sd_col_name := sd_col_name rd ++ [col];
           sd_date := sd_date rd ++ [d];
           sd_pct_change := sd_pct_change rd ++ [p] |}.
Proof.
  intros (Hc & Hd & Hp). unfold sd_wf; simpl.
  rewrite !length_app; simpl. lia.
Qed.

(** One column: nothing when it is absent or not flagged, one row when
    it is flagged. *)
Lemma step_col_body_rows s k df rd col rd' :
  sd_wf rd → step_col_body s k df rd col = Return rd' →
  sd_wf rd' ∧
  ∃ new, sd_rows rd' = sd_rows rd ++ new ∧ col_contributes s k df col new.
Proof.
  intros Hwf. unfold step_col_body, col_contributes, flagged.
  case_bool_decide as Hcol.
  - apply getitem_columns in Hcol as [series Hseries]. rewrite Hseries.
    simpl. fold (max_abs_change series).
    destruct (fgt (max_abs_change series) _) eqn:Hflag.
    + unfold large_steps.
      destruct (first_item _) as [lbl|] eqn:Hfirst; [|done]. simpl.
      destruct lbl as [i|t|inst t]; try done. simpl. intros [= <-].
      split; [by apply sd_wf_snoc|].
      eexists. split; [by apply sd_rows_snoc|]. right. split; [done|].
      eexists. split; [done|]. split; [done|].
      exists series. repeat split; try done.
      apply (first_item_filter_zip (λ c, fgt c (threshold_of s col)))
        in Hfirst as (i & Hi & Hl).
      exists i, inst, t. done.
    + intros [= <-]. split; [done|]. exists []. rewrite app_nil_r. auto.
  - intros [= <-]. split; [done|]. exists []. rewrite app_nil_r.
    split; [done|]. left. split; [|done].
    destruct (getitem _ _) eqn:Hg; [|done].
    exfalso. apply Hcol. apply getitem_columns. eauto.
Qed.

Lemma Forall2_elem_l {A B} (R : A → B → Prop) l k x :
  Forall2 R l k → x ∈ l → ∃ y, y ∈ k ∧ R x y.
Proof.
  induction 1 as [|a b l k Hab _ IH]; [by intros ?%elem_of_nil|].
  intros [->|Hx]%elem_of_cons.
  - exists b. split; [left | done].
  - destruct (IH Hx) as (y & Hy & HR). exists y. split; [by right | done].
Qed.

Lemma Forall2_elem_r {A B} (R : A → B → Prop) l k y :
  Forall2 R l k → y ∈ k → ∃ x, x ∈ l ∧ R x y.
Proof.
  induction 1 as [|a b l k Hab _ IH]; [by intros ?%elem_of_nil|].
  intros [->|Hy]%elem_of_cons.
  - exists a. split; [left | done].
  - destruct (IH Hy) as (x & Hx & HR). exists x. split; [by right | done].
Qed.

Lemma elem_of_concat {A} (x : A) (ls : list (list A)) :
  x ∈ concat ls ↔ ∃ l, l ∈ ls ∧ x ∈ l.
Proof.
  rewrite list_elem_of_In, in_concat. split.
  - intros (l & Hl & Hx). exists l. by rewrite !list_elem_of_In.
  - intros (l & Hl & Hx). exists l. by rewrite <- !list_elem_of_In.
Qed.

(** One frame: its rows are those of its flagged columns. *)
Lemma step_body_rows s rd item rd' :
  sd_wf rd → step_body s rd item = Return rd' →
  sd_wf rd' ∧
  ∃ new, sd_rows rd' = sd_rows rd ++ new ∧ frame_contributes s item new.
Proof.
  intros Hwf. destruct item as [k df]. unfold step_body. intros Hloop.
  destruct (for_each_rows (step_col_body s k df) sd_rows sd_wf
              (col_contributes s k df) ohlcv rd rd')
    as (Hwf' & news & Hrows & Hall); [|done|done|].
  { intros acc col acc' _ Hacc. by apply step_col_body_rows. }
  split; [done|]. exists (concat news). split; [done|]. by exists news.
Qed.

Lemma step_loop_rows s l rd :
  for_each (step_body s) l sd_init = Return rd →
  sd_wf rd ∧
  ∃ news, sd_rows rd = concat news ∧ Forall2 (frame_contributes s) l news.
Proof.
  intros Hloop.
  destruct (for_each_rows (step_body s) sd_rows sd_wf
              (frame_contributes s) l sd_init rd)
    as (Hwf & news & Hrows & Hall); [|done|done|].
  { intros acc item acc' _ Hacc. by apply step_body_rows. }
  split; [done|]. by exists news.
Qed.

(** Every row comes from a flagged column of a frame in the loop. *)
Lemma step_rows_sound s l news k row :
  Forall2 (frame_contributes s) l news → (k, row) ∈ concat news →
  ∃ df col, (k, df) ∈ l ∧ col ∈ ohlcv ∧ flagged s df col = true
            ∧ step_row_of s df col row.
Proof.
  intros Hall (new & Hnew & Hrow)%elem_of_concat.
  destruct (Forall2_elem_r _ _ _ _ Hall Hnew)
    as ([k' df] & Hin & news' & -> & Hcols).
  apply elem_of_concat in Hrow as (new' & Hnew' & Hrow).
  destruct (Forall2_elem_r _ _ _ _ Hcols Hnew')
    as (col & Hcol & [[_ ->]|(Hflag & row' & -> & Hrow')]).
  { by apply elem_of_nil in Hrow. }
  apply list_elem_of_singleton in Hrow as [= -> ->].
  exists df, col. done.
Qed.

(** Every flagged column of a frame in the loop has its row. *)
Lemma step_rows_complete s l news k df col :
  Forall2 (frame_contributes s) l news →
  (k, df) ∈ l → col ∈ ohlcv → flagged s df col = true →
  ∃ row, (k, row) ∈ concat news ∧ step_row_of s df col row.
Proof.
  intros Hall Hin Hcol Hflag.
  destruct (Forall2_elem_l _ _ _ _ Hall Hin)
    as (new & Hnew & news' & -> & Hcols).
  simpl in Hcols.
  destruct (Forall2_elem_l _ _ _ _ Hcols Hcol)
    as (new' & Hnew' & [[Hno _]|(_ & row & -> & Hrow)]); [congruence|].
  exists row. split; [|done].
  apply elem_of_concat. eexists. split; [done|].
  apply elem_of_concat. eexists. split; [done|]. left.
Qed.

Lemma check_large_step_changes_outcome instruments w :
  (check_large_step_changes instruments w).1 =
  match for_each (step_body (self w))
          (data_to_check (data (self w)) instruments) sd_init with
  | Return rd =>
      match step_frame rd with
      | Return r => if empty r then Return None else Return (Some r)
      | Raise e => Raise e
      end
  | Raise e => Raise e
  end.
Proof.
  unfold check_large_step_changes, mbind, M_bind, outcome_bind, get_self,
    lift; simpl.
  fold sd_init.
  destruct (for_each _ _ _) as [rd|e]; [|done].
  destruct (step_frame rd) as [r|e]; [|done].
  by destruct r.
Qed.

(** The rows of the result are the rows the loop collected. *)
Lemma check_large_step_changes_rows instruments w res :
  (check_large_step_changes instruments w).1 = Return res →
  ∃ news, rows_of res = concat news ∧
          Forall2 (frame_contributes (self w))
            (data_to_check (data (self w)) instruments) news.
Proof.
  rewrite check_large_step_changes_outcome.
  destruct (for_each _ _ _) as [rd|e] eqn:Hloop; [|done].
  apply step_loop_rows in Hloop as (Hwf & news & Hrows & Hall).
  rewrite step_frame_wf by done. rewrite Hrows.
  destruct (concat news) as [|p r] eqn:Hc; simpl; intros [= <-];
    exists news; simpl; by rewrite ?Hc.
Qed.

(** On well-formed frames with a two-level index no column raises. *)
Lemma step_col_body_total s k df rd col :
  wf_frame df → multi_indexed df →
  ∃ rd', step_col_body s k df rd col = Return rd'.
Proof.
  intros Hwf [entries Hix]. unfold step_col_body.
  case_bool_decide as Hcol; [|by eexists].
  apply getitem_columns in Hcol as [series Hseries]. rewrite Hseries. simpl.
  destruct (fgt _ _) eqn:Hflag; [|by eexists].
  apply series_max_above in Hflag as (c & [i Hi]%list_elem_of_lookup & Hc).
  assert (length series = length (index_to_list (df_index df))) as Hlen.
  { unfold wf_frame in Hwf. rewrite Forall_forall in Hwf.
    apply getitem_elem in Hseries. apply (Hwf _ Hseries). }
  assert (i < length (index_to_list (df_index df)))%nat as Hlt.
  { rewrite <- Hlen, <- length_abs_pct_change. by eapply lookup_lt_Some. }
  apply lookup_lt_is_Some_2 in Hlt as [lbl Hlbl].
  assert ((lbl, c) ∈ large_steps df (series_abs (pct_change series))
                       (threshold_of s col)) as Hin.
  { unfold large_steps. apply list_elem_of_filter. split; [done|].
    apply elem_of_lookup_zip_with. by exists i, lbl, c. }
  destruct (large_steps _ _ _) as [|[lbl0 c0] rest] eqn:Hls;
    [by apply elem_of_nil in Hin|].
  simpl.
  assert (lbl0 ∈ index_to_list (df_index df)) as Hl0.
  { assert ((lbl0, c0) ∈ large_steps df (series_abs (pct_change series))
                            (threshold_of s col)) as H0
      by (rewrite Hls; left).
    unfold large_steps in H0.
    apply list_elem_of_filter in H0 as [_ H0]. by apply elem_of_zip_l in H0. }
  rewrite Hix in Hl0. simpl in Hl0.
  apply list_elem_of_In, in_map_iff in Hl0 as (e & <- & _). simpl.
  by eexists.
Qed.

Lemma check_large_step_changes_total instruments w :
  (∀ k df, (k, df) ∈ data_to_check (data (self w)) instruments →
     wf_frame df ∧ multi_indexed df) →
  ∃ res, (check_large_step_changes instruments w).1 = Return res.
Proof.
  intros Hdata. rewrite check_large_step_changes_outcome.
  destruct (for_each_total (step_body (self w)) sd_wf
              (data_to_check (data (self w)) instruments) sd_init)
    as (rd & -> & Hwf).
  - by repeat split.
  - intros acc [k df] Hin Hacc. destruct (Hdata k df Hin) as [Hwf Hmi].
    unfold step_body.
    destruct (for_each_total (step_col_body (self w) k df) sd_wf ohlcv acc)
      as (rd & Hrd & Hwf'); [done| |by exists rd].
    intros acc' col _ Hacc'.
    destruct (step_col_body_total (self w) k df acc' col Hwf Hmi)
      as [rd' Hrd'].
    exists rd'. split; [done|].
    by destruct (step_col_body_rows _ _ _ _ _ _ Hacc' Hrd').
  - rewrite step_frame_wf by done. destruct (sd_rows rd); simpl; eauto.
Qed.

Lemma feq_not_fgt a b : feq a b = true → fgt a b = false.
Proof.
  destruct a as [|[]|x], b as [|[]|y]; simpl; try done.
  intros H%Qeq_bool_iff. apply Qlt_bool_false. lra.
Qed.

(** C4. A present column among the five is flagged exactly when its
    largest absolute change is strictly above its threshold (the volume
    threshold for volume, the price threshold otherwise): a largest
    change equal to the threshold is not flagged, any change above it
    is; and the report has a row for an instrument and column exactly
    when that column is flagged. *)
Theorem large_step_flagged_iff (instruments : option instruments_arg)
    (w : world) :
  (∀ df col series, getitem (df_columns df) col = Return series →
     let threshold := threshold_of (self w) col in
     (flagged (self w) df col = true
      ↔ fgt (max_abs_change series) threshold = true) ∧
     (feq (max_abs_change series) threshold = true →
      flagged (self w) df col = false) ∧
     (∀ c, c ∈ series_abs (pct_change series) → fgt c threshold = true →
        flagged (self w) df col = true)) ∧
  threshold_of (self w) "volume" = large_step_threshold_volume (self w) ∧
  (∀ col, col ≠ "volume" →
     threshold_of (self w) col = large_step_threshold_price (self w)) ∧
  (∀ res, (check_large_step_changes instruments w).1 = Return res →
     ∀ k col,
       (∃ row, (k, row) ∈ rows_of res ∧ sr_col_name row = col) ↔
       (∃ df, (k, df) ∈ data_to_check (data (self w)) instruments ∧
              col ∈ ohlcv ∧ col ∈ columns df ∧
              flagged (self w) df col = true)) ∧
  ((∀ k df, (k, df) ∈ data_to_check (data (self w)) instruments →
      wf_frame df ∧ multi_indexed df) →
   ∃ res, (check_large_step_changes instruments w).1 = Return res).
Proof.
  split; [|split; [|split; [|split]]].
  - intros df col series Hseries threshold. unfold flagged.
    rewrite Hseries. split; [done|]. split.
    + apply feq_not_fgt.
    + intros c Hc Hgt. apply series_max_above. eauto.
  - done.
  - intros col Hcol. unfold threshold_of. by destruct (decide _).
  - intros res Hres k col.
    apply check_large_step_changes_rows in Hres as (news & -> & Hall).
    split.
    + intros (row & Hrow & Hname).
      destruct (step_rows_sound _ _ _ _ _ Hall Hrow)
        as (df & col' & Hin & Hcol' & Hflag & Hname' & Hrest).
      assert (col' = col) as -> by congruence.
      exists df. repeat split; try done.
      apply getitem_columns. unfold flagged in Hflag.
      destruct (getitem _ _); [eauto | done].
    + intros (df & Hin & Hcol & _ & Hflag).
      destruct (step_rows_complete _ _ _ _ _ _ Hall Hin Hcol Hflag)
        as (row & Hrow & Hname & _).
      eauto.
  - apply check_large_step_changes_total.
Qed.

Lemma large_step_flagged_iff_witness :
  flagged (new_checker [("Y", frame_Y)]) frame_edge "close" = false ∧
  flagged (new_checker [("Y", frame_Y)]) frame_Y "close" = true ∧
  ∃ row, ("Y", row) ∈ [("Y", Build_step_row "close" "2020-01-03"
                               (Fin (60 # 100)))]
         ∧ sr_col_name row = "close".
Proof.
  pose proof (large_step_flagged_iff None
                (new_world [("Y", frame_Y)] CalendarNotFound))
    as (Htest & _ & _ & Hrows & _).
  destruct (Htest frame_edge "close" [Fin 100; Fin 150] eq_refl)
    as (_ & Hedge & _).
  destruct (Htest frame_Y "close" [Fin 100; Fin 100; Fin 160] eq_refl)
    as (_ & _ & Habove).
  split; [|split].
  - apply Hedge. reflexivity.
  - apply (Habove (Fin (60 # 100))); [|reflexivity].
    apply list_elem_of_lookup. exists 2%nat. reflexivity.
  - apply (Hrows (Some [("Y", Build_step_row "close" "2020-01-03"
                                (Fin (60 # 100)))]));
      [reflexivity|].
    exists frame_Y. split; [left|]. split; [elem_of_concrete|].
    split; [elem_of_concrete | reflexivity].
Defined.

(** With the two-level index of provider mode the rows are as intended.
    Every row of the report of check_large_step_changes names a flagged
    column, and carries the largest absolute change of that column and
    the date of the first row whose change is above the threshold.  For
    closes 100, 100, 160 and threshold 0.5 the report is one row with
    change 0.6 dated at the third row; for closes 100, 160, 400 the row
    is dated at the second row and carries the change of the third. *)
Lemma large_step_row_contents (instruments : option instruments_arg)
    (w : world) :
  (∀ res, (check_large_step_changes instruments w).1 = Return res →
     ∀ k row, (k, row) ∈ rows_of res →
       ∃ df, (k, df) ∈ data_to_check (data (self w)) instruments ∧
             sr_col_name row ∈ ohlcv ∧
             step_row_of (self w) df (sr_col_name row) row) ∧
  ((check_large_step_changes None
      (new_world [("Y", frame_Y)] CalendarNotFound)).1
   = Return (Some [("Y", {| sr_col_name := "close";
                            sr_date := "2020-01-03";
                            sr_pct_change := Fin (60 # 100) |})]) ∧
   (60 # 100 == 0.6)%Q ∧
   index_to_list (df_index frame_Y) !! 2%nat
   = Some (TupleLabel "Y" (date 2020 1 3)) ∧
   strftime_Ymd (date 2020 1 3) = "2020-01-03") ∧
  ((check_large_step_changes None
      (new_world [("Y", frame_Y2)] CalendarNotFound)).1
   = Return (Some [("Y", {| sr_col_name := "close";
                            sr_date := "2020-01-02";
                            sr_pct_change := Fin (240 # 160) |})]) ∧
   series_abs (pct_change [Fin 100; Fin 160; Fin 400])
   = [NaN; Fin (60 # 100); Fin (240 # 160)] ∧
   index_to_list (df_index frame_Y2) !! 1%nat
   = Some (TupleLabel "Y" (date 2020 1 2)) ∧
   strftime_Ymd (date 2020 1 2) = "2020-01-02").
Proof.
  split; [|split].
  - intros res Hres k row Hrow.
    apply check_large_step_changes_rows in Hres as (news & Hrows & Hall).
    rewrite Hrows in Hrow.
    destruct (step_rows_sound _ _ _ _ _ Hall Hrow)
      as (df & col & Hin & Hcol & Hflag & Hname & Hrest).
    exists df. rewrite Hname. repeat split; done.
  - repeat split.
  - repeat split.
Qed.

Example large_step_row_contents_frame_Y :
  ∃ df, ("Y", df) ∈ [("Y", frame_Y)] ∧
        step_row_of (new_checker [("Y", frame_Y)]) df "close"
          {| sr_col_name := "close"; sr_date := "2020-01-03";
             sr_pct_change := Fin (60 # 100) |}.
Proof.
  destruct (proj1 (large_step_row_contents None
                     (new_world [("Y", frame_Y)] CalendarNotFound))
              _ eq_refl "Y" (Build_step_row "close" "2020-01-03"
                               (Fin (60 # 100))))
    as (df & Hin & _ & Hrow); [left|].
  exists df. split; [exact Hin | exact Hrow].
Qed.

(** C5, at the failing input.  A table read from a CSV file has integer
    row labels.  Closes 100, 100, 160 are flagged at threshold 0.5, and
    taking item 1 of the first label raises instead of giving the row
    dated at the third row. *)
Theorem check_large_step_changes_csv :
  flagged (new_checker [("Y", frame_csv)]) frame_csv "close" = true ∧
  first_item (map fst (large_steps frame_csv
     (series_abs (pct_change [Fin 100; Fin 100; Fin 160])) (Fin 0.5)))
  = Return (IntLabel 2) ∧
  (check_large_step_changes None
     (new_world [("Y", frame_csv)] CalendarNotFound)).1
  = Raise (TypeError "'int' object is not subscriptable").
Proof. repeat split. Qed.


(** ** check_missing_trading_days *)

Lemma elem_of_sorted (s : gset Timestamp) t : t ∈ sorted s ↔ t ∈ s.
Proof.
  unfold sorted. rewrite merge_sort_Permutation. apply elem_of_elements.
Qed.

Lemma length_sorted (s : gset Timestamp) : length (sorted s) = size s.
Proof. unfold sorted. by rewrite merge_sort_Permutation. Qed.

Lemma NoDup_sorted (s : gset Timestamp) : NoDup (sorted s).
Proof. unfold sorted. rewrite merge_sort_Permutation. apply NoDup_elements. Qed.

Lemma Sorted_le_NoDup_lt (l : list Z) :
  Sorted Z.le l → NoDup l → Sorted Z.lt l.
Proof.
  induction l as [|x l IH]; [constructor|].
  intros Hs Hn. apply Sorted_inv in Hs as [Hs Hhd].
  apply NoDup_cons in Hn as [Hx Hn].
  constructor; [by apply IH|].
  destruct Hhd as [|y l Hxy]; constructor.
  assert (x ≠ y) by (intros ->; apply Hx; left). lia.
Qed.

(** [sorted] is strictly ascending. *)
Lemma sorted_ascending (s : gset Timestamp) : Sorted Z.lt (sorted s).
Proof.
  apply Sorted_le_NoDup_lt; [|apply NoDup_sorted].
  unfold sorted. apply (Sorted_merge_sort Z.le).
Qed.

Lemma size_list_to_set_le (l : list Timestamp) :
  (size (list_to_set l : gset Timestamp) ≤ length l)%nat.
Proof.
  induction l as [|x l IH].
  - rewrite list_to_set_nil, size_empty. simpl. lia.
  - rewrite list_to_set_cons, size_union_alt, size_singleton. simpl.
    assert (size (list_to_set l ∖ {[x]} : gset Timestamp)
            ≤ size (list_to_set l : gset Timestamp))%nat
      by (apply subseteq_size; set_solver).
    lia.
Qed.

Lemma size_missing_dates_le trading_days df :
  (size (missing_dates trading_days df) ≤ length trading_days)%nat.
Proof.
  unfold missing_dates.
  etrans; [|apply size_list_to_set_le].
  apply subseteq_size. set_solver.
Qed.

(** The union behind the fallback calendar. *)
Lemma elem_of_all_dates scope t :
  t ∈ all_dates scope ↔
  ∃ k df, (k, df) ∈ scope ∧ t ∈ date_level (df_index df).
Proof.
  unfold all_dates.
  assert (∀ acc : gset Timestamp,
    t ∈ fold_left (λ acc kv, acc ∪ list_to_set (date_level (df_index kv.2)))
          scope acc
    ↔ t ∈ acc ∨ ∃ k df, (k, df) ∈ scope ∧ t ∈ date_level (df_index df))
    as H.
  { induction scope as [|[k df] scope IH]; intros acc; simpl.
    - split; [auto|]. intros [?|(? & ? & []%elem_of_nil & _)]. done.
    - rewrite IH, elem_of_union, elem_of_list_to_set. split.
      + intros [[?|?]|(k' & df' & Hin & Ht)]; [by left|..].
        * right. exists k, df. split; [left | done].
        * right. exists k', df'. split; [by right | done].
      + intros [?|(k' & df' & Hin & Ht)]; [by left; left|].
        apply elem_of_cons in Hin as [[= -> ->]|Hin]; [by left; right|].
        right. eauto. }
  rewrite H. set_solver.
Qed.

Lemma days_frame_wf rd : dd_wf rd → days_frame rd = Return (dd_rows rd).
Proof.
  intros (Hc & Hd & Hp). unfold days_frame.
  rewrite check_lengths_same; [done|]. repeat constructor; done.
Qed.

Lemma dd_rows_snoc rd k m t c :
  dd_wf rd →
  dd_rows {| dd_instruments := dd_instruments rd ++ [k];
             dd_missing_trading_days := dd_missing_trading_days rd ++ [m];
             dd_total_missing_days := dd_total_missing_days rd ++ [t];
             dd_coverage_ratio := dd_coverage_ratio rd ++ [c] |}
  = dd_rows rd ++ [(k, Build_days_row m t c)].
Proof.
  intros (Hc & Hd & Hp). unfold dd_rows; simpl.
  rewrite map_app; simpl.
  assert (length (ap_zip (map Build_days_row (dd_missing_trading_days rd))
                    (dd_total_missing_days rd))
          = length (dd_total_missing_days rd)) as H1
    by (apply length_ap_zip; rewrite length_map; congruence).
  rewrite (ap_zip_snoc _ (dd_total_missing_days rd))
    by (rewrite length_map; congruence).
  rewrite (ap_zip_snoc _ (dd_coverage_ratio rd)) by congruence.
  rewrite zip_snoc; [done|].
  rewrite length_ap_zip; congruence.
Qed.

Lemma dd_wf_snoc rd k m t c :
  dd_wf rd →
  dd_wf {| dd_instruments := dd_instruments rd ++ [k];
           dd_missing_trading_days := dd_missing_trading_days rd ++ [m];
           dd_total_missing_days := dd_total_missing_days rd ++ [t];
           dd_coverage_ratio := dd_coverage_ratio rd ++ [c] |}.
Proof.
  intros (Hc & Hd & Hp). unfold dd_wf; simpl.
  rewrite !length_app; simpl. lia.
Qed.

(** The loop body never raises: the division is guarded by the missing
    dates being non-empty. *)
Lemma days_body_rows trading_days rd item :
  dd_wf rd →
  ∃ rd', days_body trading_days rd item = Return rd' ∧ dd_wf rd' ∧
    ∃ new, dd_rows rd' = dd_rows rd ++ new
           ∧ days_contributes trading_days item new.
Proof.
  intros Hwf. destruct item as [k df].
  unfold days_body, days_contributes, days_row_of. simpl.
  fold (missing_dates trading_days df).
  case_bool_decide as Hmiss; simpl.
  - exists rd. split; [done|]. split; [done|]. exists [].
    rewrite app_nil_r. auto.
  - unfold coverage_ratio at 1.
    destruct (decide (length trading_days = 0%nat)) as [Hz|Hnz].
    { exfalso. apply Hmiss. apply length_zero_iff_nil in Hz.
      unfold missing_dates. rewrite Hz. set_solver. }
    simpl. eexists. split; [done|]. split; [by apply dd_wf_snoc|].
    eexists. split; [by apply dd_rows_snoc|]. right. split; [done|].
    eexists. split; [done|]. simpl. split; [done|]. split; [done|].
    eexists. split; [|done].
    unfold coverage_ratio. by destruct (decide _).
Qed.

Lemma days_loop_rows trading_days scope :
  ∃ rd, for_each (days_body trading_days) scope dd_init = Return rd ∧
    dd_wf rd ∧
    ∃ news, dd_rows rd = concat news
            ∧ Forall2 (days_contributes trading_days) scope news.
Proof.
  destruct (for_each_total (days_body trading_days) dd_wf scope dd_init)
    as (rd & Hrd & Hwf).
  - by repeat split.
  - intros acc item _ Hacc.
    destruct (days_body_rows trading_days acc item Hacc)
      as (rd' & ? & ? & _). eauto.
  - exists rd. split; [done|].
    destruct (for_each_rows (days_body trading_days) dd_rows dd_wf
                (days_contributes trading_days) scope dd_init rd)
      as (_ & news & Hrows & Hall); [|by repeat split|done|].
    { intros acc item acc' _ Hacc Hbody.
      destruct (days_body_rows trading_days acc item Hacc)
        as (rd' & Hrd' & ? & ?).
      assert (rd' = acc') as <- by congruence. done. }
    split; [done|]. by exists news.
Qed.

Lemma rows_of_some_rows {R} (r : report R) : rows_of (some_rows r) = r.
Proof. by destruct r. Qed.

Lemma with_log_app w e1 e2 :
  with_log (with_log w e1) e2 = with_log w (e1 ++ e2).
Proof. unfold with_log; simpl. by rewrite app_assoc. Qed.

(** The loop and the frame for a given calendar. *)
Lemma days_report trading_days scope :
  ∃ news,
    (for_each (days_body trading_days) scope dd_init ≫= days_frame)
    = Return (concat news)
    ∧ Forall2 (days_contributes trading_days) scope news.
Proof.
  destruct (days_loop_rows trading_days scope)
    as (rd & Hrd & Hwf & news & Hrows & Hall).
  exists news. split; [|done].
  rewrite Hrd. unfold mbind, outcome_bind.
  by rewrite days_frame_wf, Hrows.
Qed.

(** An empty scope: nothing is resolved, nothing but the note logged. *)
Lemma check_missing_trading_days_empty instruments w :
  data_to_check (data (self w)) instruments = [] →
  check_missing_trading_days instruments w
  = (Return None, with_log w [NoDataToCheck]).
Proof.
  intros Hscope. unfold check_missing_trading_days, mbind, M_bind, get_self.
  simpl. by rewrite Hscope.
Qed.

(** The [try] block: the calendar file when it loads, the fallback and
    its warning otherwise. *)
Lemma resolve_trading_days_run scope w :
  resolve_trading_days scope w =
  match calendar w with
  | CalendarFile days =>
      (Return (Some days), with_log w [calendar_event (calendar w)])
  | _ =>
      if bool_decide (all_dates scope = ∅) then
        (Return None,
         with_log w [calendar_event (calendar w); NoDateInformation])
      else
        (Return (Some (sorted (all_dates scope))),
         with_log w [calendar_event (calendar w)])
  end.
Proof.
  unfold resolve_trading_days, union_method, read_calendar, logger,
    mbind, M_bind, mret, M_ret, with_log.
  destruct (calendar w) as [days| |e] eqn:Hcal; simpl; rewrite ?Hcal.
  - done.
  - case_bool_decide; simpl; rewrite ?Hcal; [|done]. by rewrite <- app_assoc.
  - case_bool_decide; simpl; rewrite ?Hcal; [|done]. by rewrite <- app_assoc.
Qed.

Lemma check_missing_trading_days_run instruments w :
  let scope := data_to_check (data (self w)) instruments in
  scope ≠ [] →
  check_missing_trading_days instruments w =
  match resolve_trading_days scope w with
  | (Return (Some trading_days), w') =>
      match for_each (days_body trading_days) scope dd_init ≫= days_frame with
      | Return r =>
          if empty r then (Return None, with_log w' [CompleteCoverage])
          else (Return (Some r), w')
      | Raise e => (Raise e, w')
      end
  | (Return None, w') => (Return None, w')
  | (Raise e, w') => (Raise e, w')
  end.
Proof.
  intros scope Hscope.
  unfold check_missing_trading_days, mbind at 1, M_bind at 1, get_self.
  cbn beta iota. cbn [fst snd]. fold scope. fold dd_init.
  destruct scope as [|item scope'] eqn:Hs; [done|]. rewrite <- Hs.
  unfold mbind at 1, M_bind at 1.
  destruct (resolve_trading_days scope w) as [[[td|]|e] w']; try done.
  unfold lift, mbind at 1, M_bind at 1.
  change (λ rd : days_dict, days_frame rd) with days_frame.
  destruct (for_each (days_body td) scope dd_init ≫= days_frame) as [r|e];
    [|done].
  by destruct r.
Qed.

(** A scope with tables: the check never raises; it logs the event of
    the calendar resource first, and reports against the resolved
    calendar, unless the fallback finds no date. *)
Lemma check_missing_trading_days_nonempty instruments w :
  let scope := data_to_check (data (self w)) instruments in
  scope ≠ [] →
  ∃ events,
    (check_missing_trading_days instruments w).2
    = with_log w (calendar_event (calendar w) :: events) ∧
    ((calendar_loaded (calendar w) = false ∧ all_dates scope = ∅ ∧
      (check_missing_trading_days instruments w).1 = Return None) ∨
     ((calendar_loaded (calendar w) = true ∨ all_dates scope ≠ ∅) ∧
      ∃ news,
        (check_missing_trading_days instruments w).1
        = Return (some_rows (concat news)) ∧
        Forall2 (days_contributes (resolved_calendar (calendar w) scope))
          scope news)).
Proof.
  intros scope Hscope.
  rewrite (check_missing_trading_days_run instruments w Hscope).
  fold scope. rewrite resolve_trading_days_run.
  assert (∀ td w',
    ∃ news,
      match for_each (days_body td) scope dd_init ≫= days_frame with
      | Return r =>
          if empty r then (Return None, with_log w' [CompleteCoverage])
          else (Return (Some r), w')
      | Raise e => (Raise e, w')
      end
      = (Return (some_rows (concat news)),
         if empty (concat news) then with_log w' [CompleteCoverage] else w')
      ∧ Forall2 (days_contributes td) scope news) as Hloop.
  { intros td w'. destruct (days_report td scope) as (news & Hrun & Hall).
    exists news. split; [|done]. unfold report in *. rewrite Hrun.
    unfold some_rows.
    by destruct (concat news). }
  destruct (calendar w) as [days| |e] eqn:Hcal; simpl.
  - destruct (Hloop days (with_log w [LoadedTradingDays (length days)]))
      as (news & -> & Hall).
    exists (if empty (concat news) then [CompleteCoverage] else []).
    split.
    + simpl. destruct (empty (concat news)); [|done].
      by rewrite with_log_app.
    + right. split; [by left|]. by exists news.
  - case_bool_decide as Hdates.
    + exists [NoDateInformation]. split; [done|]. by left.
    + destruct (Hloop (sorted (all_dates scope))
                  (with_log w [CalendarFileNotFound])) as (news & -> & Hall).
      exists (if empty (concat news) then [CompleteCoverage] else []).
      split.
      * simpl. destruct (empty (concat news)); [|done].
        by rewrite with_log_app.
      * right. split; [by right|]. by exists news.
  - case_bool_decide as Hdates.
    + exists [NoDateInformation]. split; [done|]. by left.
    + destruct (Hloop (sorted (all_dates scope))
                  (with_log w [CalendarLoadFailed e])) as (news & -> & Hall).
      exists (if empty (concat news) then [CompleteCoverage] else []).
      split.
      * simpl. destruct (empty (concat news)); [|done].
        by rewrite with_log_app.
      * right. split; [by right|]. by exists news.
Qed.

(** ** The coverage ratio *)

Lemma coverage_ratio_bounds (n m : nat) :
  n ≠ 0%nat → (m ≤ n)%nat →
  ∃ q, coverage_ratio n m = Return q ∧
    (q == inject_Z (Z.of_nat n - Z.of_nat m) / inject_Z (Z.of_nat n) * 100)%Q ∧
    (0 <= q)%Q ∧ (q <= 100)%Q.
Proof.
  intros Hn Hm. unfold coverage_ratio.
  destruct (decide (n = 0%nat)); [done|].
  eexists. split; [done|]. split; [reflexivity|].
  change ((Z.of_nat n - Z.of_nat m) # 1) with
    (inject_Z (Z.of_nat n - Z.of_nat m)).
  change (Z.of_nat n # 1) with (inject_Z (Z.of_nat n)).
  assert (0 < inject_Z (Z.of_nat n))%Q as Hpos.
  { change 0%Q with (inject_Z 0). rewrite <- Zlt_Qlt. lia. }
  assert (0 <= inject_Z (Z.of_nat n - Z.of_nat m))%Q as Hnum.
  { change 0%Q with (inject_Z 0). rewrite <- Zle_Qle. lia. }
  assert (inject_Z (Z.of_nat n - Z.of_nat m) <= inject_Z (Z.of_nat n))%Q
    as Hle by (rewrite <- Zle_Qle; lia).
  assert (0 <= inject_Z (Z.of_nat n - Z.of_nat m) / inject_Z (Z.of_nat n))%Q
    as H0 by (apply Qle_shift_div_l; [done | lra]).
  assert (inject_Z (Z.of_nat n - Z.of_nat m) / inject_Z (Z.of_nat n) <= 1)%Q
    as H1 by (apply Qle_shift_div_r; [done | lra]).
  split; lra.
Qed.

Lemma coverage_ratio_full (n : nat) :
  n ≠ 0%nat → ∃ q, coverage_ratio n 0 = Return q ∧ (q == 100)%Q.
Proof.
  intros Hn. unfold coverage_ratio.
  destruct (decide (n = 0%nat)); [done|].
  eexists. split; [done|].
  change ((Z.of_nat n - Z.of_nat 0) # 1) with
    (inject_Z (Z.of_nat n - 0)).
  change (Z.of_nat n # 1) with (inject_Z (Z.of_nat n)).
  rewrite Z.sub_0_r.
  assert (¬ inject_Z (Z.of_nat n) == 0)%Q as Hnz.
  { change 0%Q with (inject_Z 0). rewrite inject_Z_injective. lia. }
  field. done.
Qed.

(** Rounding to hundredths keeps a ratio between 0 and 100 there. *)
Lemma round_hundredths_bounds q :
  (0 <= q)%Q → (q <= 100)%Q → 0 ≤ round_hundredths q ≤ 10000.
Proof.
  intros H0 H100. unfold round_hundredths.
  destruct q as [num den]. unfold Qle in *. simpl in *.
  assert (0 ≤ num) by lia. assert (num ≤ 100 * Z.pos den) by lia.
  pose proof (Z.div_mod (num * 100) (Z.pos den) ltac:(lia)) as Hdm.
  pose proof (Z.mod_pos_bound (num * 100) (Z.pos den) ltac:(lia)) as Hmod.
  set (fl := (num * 100) `div` Z.pos den) in *.
  set (r := (num * 100) `mod` Z.pos den) in *.
  assert (0 ≤ fl) by (subst fl; apply Z.div_pos; lia).
  assert (fl ≤ 10000) by nia.
  destruct (2 * r ?= Z.pos den) eqn:Hc.
  - destruct (Z.even fl); [lia|].
    apply Z.compare_eq in Hc. assert (fl ≠ 10000) by nia. lia.
  - lia.
  - apply Z.compare_gt_iff in Hc. assert (fl ≠ 10000) by nia. lia.
Qed.

Lemma round_hundredths_100 q : (q == 100)%Q → round_hundredths q = 10000.
Proof.
  unfold round_hundredths. destruct q as [num den].
  unfold Qeq. simpl. intros Hq.
  assert (num * 100 = 10000 * Z.pos den) as -> by lia.
  rewrite Z.div_mul, Z.mod_mul by lia. simpl. done.
Qed.

Lemma format_pct_100 q : (q == 100)%Q → format_pct q = "100.00%".
Proof.
  intros Hq. unfold format_pct. by rewrite (round_hundredths_100 q Hq).
Qed.

(** An instrument that has every calendar date misses nothing, and the
    ratio of the source's expression is then 100. *)
Lemma superset_full_coverage trading_days df :
  trading_days ≠ [] →
  (∀ t, t ∈ trading_days → t ∈ date_level (df_index df)) →
  missing_dates trading_days df = ∅ ∧
  ∃ q, coverage_ratio (length trading_days)
         (size (missing_dates trading_days df)) = Return q ∧
       (q == 100)%Q ∧ format_pct q = "100.00%".
Proof.
  intros Hne Hsup.
  assert (missing_dates trading_days df = ∅) as Hempty.
  { unfold missing_dates. apply set_eq. intros t. set_solver. }
  split; [done|]. rewrite Hempty, size_empty.
  destruct (coverage_ratio_full (length trading_days)) as (q & Hq & H100).
  { by destruct trading_days. }
  exists q. split; [done|]. split; [done|]. by apply format_pct_100.
Qed.

(** Every row comes from a frame in scope that misses calendar dates. *)
Lemma days_rows_sound trading_days scope news k row :
  Forall2 (days_contributes trading_days) scope news →
  (k, row) ∈ concat news →
  ∃ df, (k, df) ∈ scope ∧ missing_dates trading_days df ≠ ∅
        ∧ days_row_of trading_days df row.
Proof.
  intros Hall (new & Hnew & Hrow)%elem_of_concat.
  destruct (Forall2_elem_r _ _ _ _ Hall Hnew)
    as ([k' df] & Hin & [[_ ->]|(Hmiss & row' & -> & Hrow')]).
  { by apply elem_of_nil in Hrow. }
  apply list_elem_of_singleton in Hrow as [= -> ->].
  exists df. done.
Qed.

Lemma check_missing_trading_days_total instruments w :
  ∃ res, (check_missing_trading_days instruments w).1 = Return res.
Proof.
  destruct (data_to_check (data (self w)) instruments) as [|item scope]
    eqn:Hscope.
  - rewrite check_missing_trading_days_empty by done. by eexists.
  - destruct (check_missing_trading_days_nonempty instruments w)
      as (events & _ & [(_ & _ & ->)|(_ & news & -> & _)]);
      [by rewrite Hscope | by eexists..].
Qed.

(** The rows of the result, whatever the calendar resource. *)
Lemma check_missing_trading_days_rows instruments w res :
  (check_missing_trading_days instruments w).1 = Return res →
  ∀ k row, (k, row) ∈ rows_of res →
    ∃ df, (k, df) ∈ data_to_check (data (self w)) instruments ∧
      missing_dates
        (resolved_calendar (calendar w)
           (data_to_check (data (self w)) instruments)) df ≠ ∅ ∧
      days_row_of
        (resolved_calendar (calendar w)
           (data_to_check (data (self w)) instruments)) df row.
Proof.
  intros Hres k row Hrow.
  destruct (data_to_check (data (self w)) instruments) as [|item scope]
    eqn:Hscope.
  { rewrite check_missing_trading_days_empty in Hres by done.
    injection Hres as <-. by apply elem_of_nil in Hrow. }
  destruct (check_missing_trading_days_nonempty instruments w)
    as (events & _ & [(_ & _ & Hnone)|(_ & news & Hsome & Hall)]).
  { by rewrite Hscope. }
  { rewrite Hnone in Hres. injection Hres as <-.
    by apply elem_of_nil in Hrow. }
  rewrite Hsome in Hres. injection Hres as <-.
  rewrite rows_of_some_rows in Hrow. rewrite Hscope in Hall.
  by apply (days_rows_sound _ _ news).
Qed.

(** C8. Every row of check_missing_trading_days carries at most the
    first five missing dates, ascending and formatted as YYYY-MM-DD, the
    number of missing dates (the calendar dates the instrument lacks)
    and the coverage ratio (|calendar| - |missing|) / |calendar| * 100
    with two decimals; the ratio lies between 0 and 100, and it is
    100.00% for an instrument that has every calendar date. *)
Theorem missing_trading_days_row (instruments : option instruments_arg)
    (w : world) :
  let scope := data_to_check (data (self w)) instruments in
  let trading_days := resolved_calendar (calendar w) scope in
  (∀ res, (check_missing_trading_days instruments w).1 = Return res →
     ∀ k row, (k, row) ∈ rows_of res →
       ∃ df, (k, df) ∈ scope ∧
         let missing := missing_dates trading_days df in
         missing ≠ ∅ ∧
         (∀ t, t ∈ sorted missing
               ↔ t ∈ trading_days ∧ t ∉ date_level (df_index df)) ∧
         Sorted Z.lt (sorted missing) ∧
         dr_missing_trading_days row
         = map strftime_Ymd (take 5 (sorted missing)) ∧
         (length (dr_missing_trading_days row) ≤ 5)%nat ∧
         ((∀ t, t ∈ trading_days → int64 t) →
          Forall (λ s, iso_date s = true) (dr_missing_trading_days row)) ∧
         dr_total_missing_days row = length (sorted missing) ∧
         ∃ q, dr_coverage_ratio row = format_pct q ∧
           (q == (inject_Z (Z.of_nat (length trading_days)
                            - Z.of_nat (length (sorted missing)))
                  / inject_Z (Z.of_nat (length trading_days)) * 100))%Q ∧
           (0 <= q)%Q ∧ (q <= 100)%Q ∧
           0 ≤ round_hundredths q ≤ 10000) ∧
  (∀ days df, days ≠ [] →
     (∀ t, t ∈ days → t ∈ date_level (df_index df)) →
     missing_dates days df = ∅ ∧
     ∃ q, coverage_ratio (length days) (size (missing_dates days df))
          = Return q ∧
          (q == 100)%Q ∧ format_pct q = "100.00%") ∧
  (∃ res, (check_missing_trading_days instruments w).1 = Return res) ∧
  (check_missing_trading_days None
     (new_world [("W", frame_W); ("V", frame_V)]
        (CalendarFile (january 10)))).1
  = Return (Some [("W", {| dr_missing_trading_days :=
                             ["2020-01-09"; "2020-01-10"];
                           dr_total_missing_days := 2;
                           dr_coverage_ratio := "80.00%" |})]).
Proof.
  intros scope trading_days. split; [|split; [|split]].
  - intros res Hres k row Hrow.
    destruct (check_missing_trading_days_rows _ _ _ Hres k row Hrow)
      as (df & Hin & Hmiss & Hdates & Htotal & q & Hq & Hfmt).
    fold scope in Hin, Hmiss, Hdates, Htotal, Hq.
    fold trading_days in Hmiss, Hdates, Htotal, Hq.
    exists df. split; [done|]. cbv zeta. split; [done|].
    split; [|split; [|split; [|split; [|split; [|split]]]]].
    + intros t. rewrite elem_of_sorted. unfold missing_dates.
      rewrite elem_of_difference, !elem_of_list_to_set. done.
    + apply sorted_ascending.
    + done.
    + rewrite Hdates, length_map, length_take. lia.
    + intros Hint. rewrite Hdates. apply Forall_map, Forall_forall.
      intros t Ht. apply strftime_Ymd_iso, Hint.
      apply (subseteq_take 5 _ t), elem_of_sorted in Ht.
      unfold missing_dates in Ht. set_solver.
    + by rewrite length_sorted.
    + rewrite length_sorted.
      destruct (coverage_ratio_bounds (length trading_days)
                  (size (missing_dates trading_days df)))
        as (q' & Hq' & Heq & H0 & H100).
      { intros Hz. apply Hmiss. apply length_zero_iff_nil in Hz.
        unfold missing_dates. rewrite Hz. set_solver. }
      { apply size_missing_dates_le. }
      assert (q' = q) as -> by congruence.
      exists q. repeat split; try done; by apply round_hundredths_bounds.
  - apply superset_full_coverage.
  - apply check_missing_trading_days_total.
  - vm_compute. reflexivity.
Qed.

Lemma missing_trading_days_row_witness :
  ∃ df, ("W", df) ∈ [("W", frame_W); ("V", frame_V)] ∧
        missing_dates (january 10) df ≠ ∅ ∧
        missing_dates (january 10) frame_V = ∅.
Proof.
  pose proof (missing_trading_days_row None
                (new_world [("W", frame_W); ("V", frame_V)]
                   (CalendarFile (january 10)))) as (Hrows & Hsup & _).
  destruct (Hrows _ eq_refl "W"
              {| dr_missing_trading_days := ["2020-01-09"; "2020-01-10"];
                 dr_total_missing_days := 2;
                 dr_coverage_ratio := "80.00%" |})
    as (df & Hin & Hmiss & _); [left|].
  exists df. split; [exact Hin|]. split; [exact Hmiss|].
  apply (Hsup (january 10) frame_V); [done|].
  intros t Ht. vm_compute in Ht. vm_compute.
  repeat (apply elem_of_cons in Ht as [->|Ht];
          [apply list_elem_of_In; simpl; tauto|]).
  by apply elem_of_nil in Ht.
Defined.

(** C7 (amended). With tables in scope and a calendar resource that
    cannot be loaded, check_missing_trading_days logs a warning, does not
    raise, and works with the sorted union of the dates of the tables in
    scope; it returns no report when that union is empty.  With no table
    in scope it returns no report before looking for the calendar.  It
    never raises. *)
Theorem missing_trading_days_fallback (instruments : option instruments_arg)
    (w : world) :
  let scope := data_to_check (data (self w)) instruments in
  (scope = [] →
   check_missing_trading_days instruments w
   = (Return None, with_log w [NoDataToCheck])) ∧
  (scope ≠ [] → calendar_loaded (calendar w) = false →
   ∃ events res,
     check_missing_trading_days instruments w
     = (Return res, with_log w (calendar_event (calendar w) :: events)) ∧
     level (calendar_event (calendar w)) = WARNING ∧
     resolved_calendar (calendar w) scope = sorted (all_dates scope) ∧
     (all_dates scope = ∅ → res = None) ∧
     (all_dates scope ≠ ∅ →
      ∃ news, res = some_rows (concat news) ∧
        Forall2 (days_contributes (sorted (all_dates scope))) scope news)) ∧
  (∀ t, t ∈ sorted (all_dates scope)
        ↔ ∃ k df, (k, df) ∈ scope ∧ t ∈ date_level (df_index df)) ∧
  Sorted Z.lt (sorted (all_dates scope)) ∧
  (∃ res, (check_missing_trading_days instruments w).1 = Return res).
Proof.
  intros scope. split; [|split; [|split; [|split]]].
  - apply check_missing_trading_days_empty.
  - intros Hscope Hcal.
    destruct (check_missing_trading_days_nonempty instruments w Hscope)
      as (events & Hw & Hres).
    fold scope in Hres.
    assert (level (calendar_event (calendar w)) = WARNING
            ∧ resolved_calendar (calendar w) scope = sorted (all_dates scope))
      as [Hlevel Hresolved] by (by destruct (calendar w)).
    destruct (check_missing_trading_days instruments w) as [o w'] eqn:Hrun.
    simpl in Hw, Hres. subst w'.
    destruct Hres as [(_ & Hdates & ->)|([Hl|Hdates] & news & -> & Hall)].
    + exists events, None. repeat split; try done.
    + congruence.
    + exists events, (some_rows (concat news)). repeat split; try done.
      intros _. exists news. split; [done|]. by rewrite <- Hresolved.
  - intros t. rewrite elem_of_sorted. apply elem_of_all_dates.
  - apply sorted_ascending.
  - apply check_missing_trading_days_total.
Qed.

Lemma missing_trading_days_fallback_witness :
  ∃ events res,
    check_missing_trading_days None
      (new_world [("W", frame_W); ("V", frame_V)] CalendarNotFound)
    = (Return res,
       with_log (new_world [("W", frame_W); ("V", frame_V)] CalendarNotFound)
         (CalendarFileNotFound :: events)) ∧
    (check_missing_trading_days None (new_world [] CalendarNotFound)).1
    = Return None.
Proof.
  destruct (missing_trading_days_fallback None
              (new_world [("W", frame_W); ("V", frame_V)] CalendarNotFound))
    as (_ & Hfallback & _).
  destruct Hfallback as (events & res & Hrun & _); [done | reflexivity |].
  exists events, res. split; [exact Hrun|].
  destruct (missing_trading_days_fallback None
              (new_world [] CalendarNotFound)) as (Hempty & _).
  rewrite Hempty; reflexivity.
Defined.

(** C7 as stated fails twice: with a calendar that loads, a table from
    which no date can be taken is reported as missing every day; and
    with no table in scope nothing is logged as a warning although the
    calendar cannot be loaded. *)
Lemma missing_trading_days_counterexample :
  (all_dates [("A", frame_empty)] = ∅ ∧
   (check_missing_trading_days None
      (new_world [("A", frame_empty)] (CalendarFile (january 2)))).1
   = Return (Some [("A", {| dr_missing_trading_days :=
                              ["2020-01-01"; "2020-01-02"];
                            dr_total_missing_days := 2;
                            dr_coverage_ratio := "0.00%" |})])) ∧
  (logged (check_missing_trading_days None
             (new_world [] CalendarNotFound)).2 = [NoDataToCheck] ∧
   level NoDataToCheck = INFO).
Proof.
  split; split; reflexivity.
Qed.

(** * Further properties of the checks *)

(** ** Loops that raise *)

(** When some item makes the body raise, the loop raises, with an
    exception the body can raise. *)
Lemma for_each_raises {A S : Type} (body : S → A → outcome S)
    (P : exn → Prop) l acc :
  (∀ acc x e, x ∈ l → body acc x = Raise e → P e) →
  (∃ x, x ∈ l ∧ ∀ acc, ∃ e, body acc x = Raise e) →
  ∃ e, for_each body l acc = Raise e ∧ P e.
Proof.
  intros Hexn (x & Hx & Hraise). revert acc.
  induction l as [|y l IH]; intros acc; [by apply elem_of_nil in Hx|].
  simpl. destruct (body acc y) as [acc'|e] eqn:Hb.
  - apply IH.
    + intros a z e Hz. apply Hexn. by right.
    + apply elem_of_cons in Hx as [->|Hx]; [|done].
      destruct (Hraise acc) as [e He]. congruence.
  - exists e. split; [done|]. eapply Hexn; [left | done].
Qed.

(** ** check_missing_factor: what a report can hold *)

(** The body on an instrument that is not excluded: it appends only
    when the factor column is there, and raises when it is not. *)
Lemma factor_body_not_excluded rd k df :
  excluded k = false →
  factor_body rd (k, df) =
  match getitem (df_columns df) "factor" with
  | Return factor =>
      if all_null factor then
        if bool_decide (k ∈ fd_instruments rd) then
          Return {| fd_instruments := fd_instruments rd;
                    fd_missing_factor_col := fd_missing_factor_col rd;
                    fd_missing_factor_data :=
                      fd_missing_factor_data rd ++ [true] |}
        else
          Return {| fd_instruments := fd_instruments rd ++ [k];
                    fd_missing_factor_col :=
                      fd_missing_factor_col rd ++ [false];
                    fd_missing_factor_data :=
                      fd_missing_factor_data rd ++ [true] |}
      else Return rd
  | Raise _ => Raise (KeyError "factor")
  end.
Proof.
  intros Hex. unfold factor_body. rewrite Hex.
  destruct (decide ("factor" ∈ columns df)) as [Hin|Hout].
  - rewrite (bool_decide_eq_false_2 ("factor" ∉ columns df)) by tauto.
    apply getitem_columns in Hin as [factor ->]. simpl.
    by destruct (all_null factor).
  - by rewrite (getitem_absent (df_columns df) "factor" Hout).
Qed.

Lemma factor_body_flags rd item rd' :
  factor_body rd item = Return rd' →
  Forall (λ b, b = false) (fd_missing_factor_col rd) →
  Forall (λ b, b = true) (fd_missing_factor_data rd) →
  Forall (λ b, b = false) (fd_missing_factor_col rd') ∧
  Forall (λ b, b = true) (fd_missing_factor_data rd').
Proof.
  destruct item as [k df]. destruct (excluded k) eqn:Hex.
  { rewrite factor_body_excluded by done. by intros [= <-]. }
  rewrite factor_body_not_excluded by done.
  destruct (getitem _ _) as [factor|]; [|done].
  intros Hret Hc Hd.
  destruct (all_null factor); [|by injection Hret as <-].
  case_bool_decide; injection Hret as <-; simpl;
    rewrite ?Forall_app; repeat split; try done; by repeat constructor.
Qed.

Lemma factor_body_keys (scope : Dataset) rd k df rd' :
  (k, df) ∈ scope →
  factor_body rd (k, df) = Return rd' →
  (∀ k', k' ∈ fd_instruments rd →
     ∃ df' factor, (k', df') ∈ scope ∧ excluded k' = false ∧
       getitem (df_columns df') "factor" = Return factor ∧
       all_null factor = true) →
  ∀ k', k' ∈ fd_instruments rd' →
    ∃ df' factor, (k', df') ∈ scope ∧ excluded k' = false ∧
      getitem (df_columns df') "factor" = Return factor ∧
      all_null factor = true.
Proof.
  intros Hin. destruct (excluded k) eqn:Hex.
  { rewrite factor_body_excluded by done. by intros [= <-]. }
  rewrite factor_body_not_excluded by done.
  destruct (getitem _ _) as [factor|] eqn:Hf; [|done].
  intros Hret Hinv.
  destruct (all_null factor) eqn:Hnull; [|by injection Hret as <-].
  case_bool_decide; injection Hret as <-; simpl; [done|].
  intros k' [Hk'|Hk']%elem_of_app; [by apply Hinv|].
  apply list_elem_of_singleton in Hk' as ->. eauto 10.
Qed.

(** X1. A report of check_missing_factor never says that the factor
    column is missing: each of its rows has missing_factor_col = false
    and missing_factor_data = true, and belongs to an instrument in scope
    that is not excluded and whose factor column is present and null on
    every row. *)
Theorem check_missing_factor_rows (instruments : option instruments_arg)
    (w : world) (r : report factor_row) :
  (check_missing_factor instruments w).1 = Return (Some r) →
  ∀ k row, (k, row) ∈ r →
    fr_missing_factor_col row = false ∧
    fr_missing_factor_data row = true ∧
    excluded k = false ∧
    ∃ df factor,
      (k, df) ∈ data_to_check (data (self w)) instruments ∧
      getitem (df_columns df) "factor" = Return factor ∧
      all_null factor = true.
Proof.
  intros Hr k row Hrow.
  rewrite check_missing_factor_outcome in Hr.
  destruct (for_each _ _ _) as [rd|e] eqn:Hloop; [|done].
  pose (P := λ rd : factor_dict,
    (Forall (λ b, b = false) (fd_missing_factor_col rd) ∧
     Forall (λ b, b = true) (fd_missing_factor_data rd)) ∧
    ∀ k', k' ∈ fd_instruments rd →
      ∃ df' factor,
        (k', df') ∈ data_to_check (data (self w)) instruments ∧
        excluded k' = false ∧
        getitem (df_columns df') "factor" = Return factor ∧
        all_null factor = true).
  assert (P rd) as [[Hcol Hdata] Hkeys].
  { eapply (for_each_inv _ P); [| |exact Hloop].
    - split; [by split|]. intros ? H. by apply elem_of_nil in H.
    - intros acc [k0 df0] acc' Hin [[Hc Hd] Hk] Hbody. split.
      + by eapply factor_body_flags.
      + by eapply factor_body_keys. }
  unfold factor_frame in Hr.
  destruct (check_lengths _); [|done]. simpl in Hr.
  destruct (zip _ _) as [|p r'] eqn:Hzip; [done|]. simpl in Hr.
  injection Hr as <-. rewrite <- Hzip in Hrow.
  pose proof (elem_of_zip_l _ _ _ _ Hrow) as Hk.
  apply elem_of_zip_r in Hrow. unfold ap_zip in Hrow.
  apply elem_of_lookup_zip_with in Hrow as (i & f & d & -> & Hf & Hd).
  apply list_elem_of_lookup_2, list_elem_of_In, in_map_iff in Hf
    as (c & <- & Hc%list_elem_of_In).
  apply list_elem_of_lookup_2 in Hd.
  rewrite Forall_forall in Hcol, Hdata.
  destruct (Hkeys k Hk) as (df' & factor & ? & ? & ? & ?).
  simpl. repeat split; eauto.
Qed.

(** ** check_missing_data: the whole outcome *)

Lemma md_flagged_filter num df :
  md_flagged num df
  = Nat.ltb 0 (length (map fst (filter (λ c : string * nat,
                                   num < Z.of_nat c.2) (isnull_sum df)))).
Proof.
  unfold md_flagged. rewrite length_map.
  induction (isnull_sum df) as [|c l IH]; [done|].
  rewrite filter_cons. simpl. destruct (decide (num < Z.of_nat c.2)) as [H|H].
  - by apply Z.ltb_lt in H as ->.
  - apply Z.ltb_nlt in H as ->. done.
Qed.

Lemma getitem_isnull_sum df col :
  col ∈ columns df → column_nulls df col = Return (nulls df col).
Proof.
  intros Hcol. unfold nulls.
  destruct (column_nulls df col) as [n|e] eqn:Hn; [done|].
  exfalso. unfold column_nulls, isnull_sum, columns in *.
  induction (df_columns df) as [|[k v] kvs IH]; [by apply elem_of_nil in Hcol|].
  simpl in *. destruct (decide (k = col)); [done|].
  apply elem_of_cons in Hcol as [?|?]; [congruence | by apply IH].
Qed.

Lemma getitem_columns_nulls df col n :
  column_nulls df col = Return n → col ∈ columns df.
Proof.
  unfold column_nulls, isnull_sum, columns.
  induction (df_columns df) as [|[k v] kvs IH]; [done|].
  simpl. destruct (decide (k = col)) as [->|]; [by left|].
  intros H. right. by apply IH.
Qed.

Lemma column_nulls_raise df col e :
  column_nulls df col = Raise e → e = KeyError col ∧ col ∉ columns df.
Proof.
  intros He. split; [by apply getitem_raise in He|].
  intros Hcol. apply getitem_isnull_sum in Hcol. congruence.
Qed.

(** The body on a frame that is not flagged, and on a flagged frame
    that has the five columns. *)
Lemma missing_data_body_exact num rd k df :
  missing_data_body num rd (k, df) =
  if md_flagged num df then
    o ← column_nulls df "open"; h ← column_nulls df "high";
    l ← column_nulls df "low"; c ← column_nulls df "close";
    v ← column_nulls df "volume";
    Return {| md_instruments := md_instruments rd ++ [k];
              md_open := md_open rd ++ [o]; md_high := md_high rd ++ [h];
              md_low := md_low rd ++ [l]; md_close := md_close rd ++ [c];
              md_volume := md_volume rd ++ [v] |}
  else Return rd.
Proof. unfold missing_data_body. by rewrite md_flagged_filter. Qed.

Lemma concat_exact {A R} (f : A → list R) l news :
  Forall2 (λ x new, new = f x) l news → concat news = concat (map f l).
Proof. induction 1 as [|x new l news -> _ IH]; simpl; by rewrite ?IH. Qed.

Lemma md_report_rows_concat num scope :
  md_report_rows num scope
  = concat (map (λ kv, if md_flagged num kv.2 then [(kv.1, md_row kv.2)]
                       else []) scope).
Proof.
  unfold md_report_rows. induction scope as [|[k df] scope IH]; [done|].
  rewrite filter_cons. simpl. destruct (md_flagged num df) eqn:Hf; simpl.
  - by rewrite IH.
  - by rewrite IH.
Qed.

(** X2. When every flagged table in scope has the five required columns,
    check_missing_data does not raise and its report has exactly one row
    per table with a column of more than missing_data_num nulls, in the
    order of the dataset, holding the null counts of the five columns
    (no report when there is no such table). *)
Theorem check_missing_data_exact (instruments : option instruments_arg)
    (w : world) :
  let scope := data_to_check (data (self w)) instruments in
  let num := missing_data_num (self w) in
  (∀ k df, (k, df) ∈ scope → md_flagged num df = true →
     ∀ col, col ∈ required_columns → col ∈ columns df) →
  (check_missing_data instruments w).1
  = Return (some_rows (md_report_rows num scope)).
Proof.
  intros scope num Hcols. rewrite check_missing_data_outcome.
  fold scope num.
  assert (∀ acc k df, (k, df) ∈ scope →
    missing_data_body num acc (k, df)
    = Return (if md_flagged num df then
                {| md_instruments := md_instruments acc ++ [k];
                   md_open := md_open acc ++ [nulls df "open"];
                   md_high := md_high acc ++ [nulls df "high"];
                   md_low := md_low acc ++ [nulls df "low"];
                   md_close := md_close acc ++ [nulls df "close"];
                   md_volume := md_volume acc ++ [nulls df "volume"] |}
              else acc)) as Hbody.
  { intros acc k df Hin. rewrite missing_data_body_exact.
    destruct (md_flagged num df) eqn:Hflag; [|done].
    rewrite !getitem_isnull_sum; [done|..];
      apply (Hcols k df Hin Hflag); unfold required_columns;
      rewrite !elem_of_cons; tauto. }
  destruct (for_each_total (missing_data_body num) md_wf scope md_init)
    as (rd & Hloop & Hwf).
  { by repeat split. }
  { intros acc [k df] Hin Hacc. rewrite Hbody by done. eexists.
    split; [done|]. destruct (md_flagged num df); [|done].
    by apply md_wf_snoc. }
  rewrite Hloop, missing_data_frame_wf by done.
  destruct (for_each_rows (missing_data_body num) md_rows md_wf
              (λ kv new, new = if md_flagged num kv.2
                               then [(kv.1, md_row kv.2)] else [])
              scope md_init rd) as (_ & news & Hrows & Hall);
    [|by repeat split|done|].
  { intros acc [k df] acc' Hin Hacc. rewrite Hbody by done.
    intros [= <-]. simpl. destruct (md_flagged num df).
    - split; [by apply md_wf_snoc|]. eexists.
      split; [by apply md_rows_snoc|done].
    - split; [done|]. exists []. by rewrite app_nil_r. }
  apply concat_exact in Hall. rewrite <- md_report_rows_concat in Hall.
  simpl in Hrows. rewrite Hrows, Hall. unfold some_rows.
  by destruct (md_report_rows num scope).
Qed.

(** X3. When a flagged table in scope (one with a column of more than
    missing_data_num nulls) lacks one of the five required columns,
    check_missing_data raises KeyError for a required column. *)
Theorem check_missing_data_raises (instruments : option instruments_arg)
    (w : world) :
  (∃ k df col,
     (k, df) ∈ data_to_check (data (self w)) instruments ∧
     md_flagged (missing_data_num (self w)) df = true ∧
     col ∈ required_columns ∧ col ∉ columns df) →
  ∃ col, col ∈ required_columns ∧
    (check_missing_data instruments w).1 = Raise (KeyError col).
Proof.
  intros (k & df & col & Hin & Hflag & Hcol & Habsent).
  rewrite check_missing_data_outcome.
  destruct (for_each_raises
              (missing_data_body (missing_data_num (self w)))
              (λ e, ∃ col, col ∈ required_columns ∧ e = KeyError col)
              (data_to_check (data (self w)) instruments) md_init)
    as (e & -> & col' & Hcol' & ->).
  - intros acc [k' df'] e _. rewrite missing_data_body_exact.
    destruct (md_flagged _ df'); [|done].
    unfold mbind, outcome_bind, required_columns.
    destruct (column_nulls df' "open") eqn:Ho;
      [|intros [= <-]; apply column_nulls_raise in Ho as [-> _];
        eexists; split; [|done]; rewrite !elem_of_cons; tauto].
    destruct (column_nulls df' "high") eqn:Hh;
      [|intros [= <-]; apply column_nulls_raise in Hh as [-> _];
        eexists; split; [|done]; rewrite !elem_of_cons; tauto].
    destruct (column_nulls df' "low") eqn:Hl;
      [|intros [= <-]; apply column_nulls_raise in Hl as [-> _];
        eexists; split; [|done]; rewrite !elem_of_cons; tauto].
    destruct (column_nulls df' "close") eqn:Hc;
      [|intros [= <-]; apply column_nulls_raise in Hc as [-> _];
        eexists; split; [|done]; rewrite !elem_of_cons; tauto].
    destruct (column_nulls df' "volume") eqn:Hv;
      [|intros [= <-]; apply column_nulls_raise in Hv as [-> _];
        eexists; split; [|done]; rewrite !elem_of_cons; tauto].
    done.
  - exists (k, df). split; [done|]. intros acc.
    rewrite missing_data_body_exact, Hflag.
    unfold mbind, outcome_bind.
    unfold required_columns in Hcol.
    destruct (column_nulls df "open") eqn:Ho; [|by eexists].
    destruct (column_nulls df "high") eqn:Hh; [|by eexists].
    destruct (column_nulls df "low") eqn:Hl; [|by eexists].
    destruct (column_nulls df "close") eqn:Hc; [|by eexists].
    destruct (column_nulls df "volume") eqn:Hv; [|by eexists].
    exfalso. apply Habsent.
    repeat (apply elem_of_cons in Hcol as [->|Hcol];
            [eapply getitem_columns_nulls; eassumption|]).
    by apply elem_of_nil in Hcol.
  - eauto.
Qed.

(** ** check_required_columns: the outcome without the length clash *)

Lemma forallb_present_filter_absent (cols l : list string) :
  forallb (λ column, bool_decide (column ∈ cols)) l
  = match filter (λ column, column ∉ cols) l with [] => true | _ => false end.
Proof.
  induction l as [|c l IH]; [done|].
  rewrite filter_cons. simpl. destruct (decide (c ∈ cols)) as [Hc|Hc].
  - rewrite bool_decide_eq_true_2 by done. rewrite decide_False by tauto.
    done.
  - rewrite bool_decide_eq_false_2 by done. by rewrite decide_True.
Qed.

Lemma columns_body_exact rd k df :
  columns_body rd (k, df) =
  Return (match missing_required df with
          | [] => rd
          | missing =>
              {| cd_instruments := cd_instruments rd ++ [k];
                 cd_missing_col := cd_missing_col rd ++ missing |}
          end).
Proof.
  unfold columns_body. rewrite forallb_present_filter_absent.
  fold (missing_required df). by destruct (missing_required df).
Qed.

(** X4. When every table in scope lacks at most one required column,
    check_required_columns does not raise and its report has exactly one
    row, naming the missing column, for each table that lacks one, in the
    order of the dataset (no report when no table lacks a column). *)
Theorem check_required_columns_exact (instruments : option instruments_arg)
    (w : world) :
  let scope := data_to_check (data (self w)) instruments in
  (∀ k df, (k, df) ∈ scope → (length (missing_required df) ≤ 1)%nat) →
  (check_required_columns instruments w).1
  = Return (some_rows (columns_report_rows scope)).
Proof.
  intros scope Hone.
  unfold check_required_columns, mbind, M_bind, outcome_bind, get_self, lift.
  simpl. fold scope.
  assert (∀ l rd,
    (∀ k df, (k, df) ∈ l → (length (missing_required df) ≤ 1)%nat) →
    length (cd_instruments rd) = length (cd_missing_col rd) →
    ∃ rd', for_each columns_body l rd = Return rd' ∧
      length (cd_instruments rd') = length (cd_missing_col rd') ∧
      zip (cd_instruments rd') (cd_missing_col rd')
      = zip (cd_instruments rd) (cd_missing_col rd) ++ columns_report_rows l)
    as Hloop.
  { induction l as [|[k df] l IH]; intros rd Hl Hlen.
    - exists rd. simpl. by rewrite app_nil_r.
    - cbn [for_each]. rewrite columns_body_exact.
      assert (length (missing_required df) ≤ 1)%nat as Hdf
        by (apply (Hl k); left).
      destruct (missing_required df) as [|c [|? ?]] eqn:Hmiss;
        [| |simpl in Hdf; lia].
      + destruct (IH rd) as (rd' & -> & Hlen' & Hzip); [|done|].
        { intros k' df' Hin. apply (Hl k'). by right. }
        exists rd'. split; [done|]. split; [done|].
        unfold columns_report_rows. simpl. by rewrite Hmiss.
      + destruct (IH {| cd_instruments := cd_instruments rd ++ [k];
                        cd_missing_col := cd_missing_col rd ++ [c] |})
          as (rd' & -> & Hlen' & Hzip).
        { intros k' df' Hin. apply (Hl k'). by right. }
        { simpl. rewrite !length_app. simpl. lia. }
        exists rd'. split; [done|]. split; [done|].
        rewrite Hzip. simpl. rewrite zip_snoc by done.
        unfold columns_report_rows. simpl. rewrite Hmiss. simpl.
        by rewrite <- app_assoc. }
  destruct (Hloop scope {| cd_instruments := []; cd_missing_col := [] |})
    as (rd & -> & Hlen & Hzip); [done..|].
  unfold columns_frame.
  rewrite check_lengths_same by (by repeat constructor).
  simpl in *. rewrite Hzip. unfold some_rows.
  by destruct (columns_report_rows scope).
Qed.

(** ** check_missing_factor: the outcome when the factor column is there *)

Lemma factor_frame_wf rd : fd_wf rd → factor_frame rd = Return (fd_rows rd).
Proof.
  intros (Hc & Hd). unfold factor_frame.
  rewrite check_lengths_same; [done|]. repeat constructor; done.
Qed.

Lemma fd_rows_snoc rd k c d :
  fd_wf rd →
  fd_rows {| fd_instruments := fd_instruments rd ++ [k];
             fd_missing_factor_col := fd_missing_factor_col rd ++ [c];
             fd_missing_factor_data := fd_missing_factor_data rd ++ [d] |}
  = fd_rows rd ++ [(k, Build_factor_row c d)].
Proof.
  intros (Hc & Hd). unfold fd_rows; simpl. rewrite map_app; simpl.
  rewrite (ap_zip_snoc _ (fd_missing_factor_data rd))
    by (rewrite length_map; congruence).
  rewrite zip_snoc; [done|].
  rewrite length_ap_zip; rewrite ?length_map; congruence.
Qed.

Lemma factor_loop_exact l rd :
  NoDup (map fst l) →
  (∀ k df, (k, df) ∈ l → excluded k = false → "factor" ∈ columns df) →
  (∀ k, k ∈ fd_instruments rd → k ∉ map fst l) →
  fd_wf rd →
  ∃ rd', for_each factor_body l rd = Return rd' ∧ fd_wf rd' ∧
    fd_rows rd' = fd_rows rd ++ factor_report_rows l.
Proof.
  revert rd. induction l as [|[k df] l IH]; intros rd Hnd Hfac Hfresh Hwf.
  { exists rd. simpl. by rewrite app_nil_r. }
  simpl in Hnd. apply NoDup_cons in Hnd as [Hk Hnd].
  assert (∀ k' df', (k', df') ∈ l → excluded k' = false →
            "factor" ∈ columns df') as Hfac'.
  { intros k' df' Hin. apply Hfac. by right. }
  assert (∀ k', k' ∈ fd_instruments rd → k' ∉ map fst l) as Hfresh'.
  { intros k' Hk' Hin. apply (Hfresh k' Hk'). simpl. by right. }
  assert (∀ rd1 new,
    factor_body rd (k, df) = Return rd1 → fd_wf rd1 →
    fd_rows rd1 = fd_rows rd ++ new →
    factor_report_rows ((k, df) :: l) = new ++ factor_report_rows l →
    (∀ k', k' ∈ fd_instruments rd1 → k' ∉ map fst l) →
    ∃ rd', for_each factor_body ((k, df) :: l) rd = Return rd' ∧ fd_wf rd' ∧
      fd_rows rd' = fd_rows rd ++ factor_report_rows ((k, df) :: l)) as Hstep.
  { intros rd1 new Hbody Hwf1 Hrows1 Hnew Hfresh1.
    destruct (IH rd1) as (rd' & Hloop & Hwf' & Hrows); try done.
    exists rd'. cbn [for_each]. rewrite Hbody. split; [done|].
    split; [done|]. by rewrite Hrows, Hrows1, Hnew, <- app_assoc. }
  assert (factor_report_rows ((k, df) :: l)
          = (if negb (excluded k) && factor_all_null df
             then [(k, {| fr_missing_factor_col := false;
                          fr_missing_factor_data := true |})]
             else []) ++ factor_report_rows l) as Hcons.
  { unfold factor_report_rows. rewrite filter_cons. simpl.
    by destruct (negb (excluded k) && factor_all_null df). }
  destruct (excluded k) eqn:Hex.
  - apply (Hstep rd []); try done.
    + by apply factor_body_excluded.
    + by rewrite app_nil_r.
  - assert ("factor" ∈ columns df) as [factor Hf]%getitem_columns
      by (apply (Hfac k df); [left | done]).
    unfold factor_all_null in Hcons. rewrite Hf in Hcons. simpl in Hcons.
    destruct (all_null factor) eqn:Hnull.
    + eapply Hstep; [| | |exact Hcons|].
      * rewrite factor_body_not_excluded, Hf, Hnull by done.
        rewrite bool_decide_eq_false_2; [done|].
        intros Hin. apply (Hfresh k Hin). simpl. left.
      * destruct Hwf. unfold fd_wf. simpl. rewrite !length_app. simpl. lia.
      * by apply fd_rows_snoc.
      * simpl. intros k' [Hk'|Hk']%elem_of_app; [by apply Hfresh'|].
        by apply list_elem_of_singleton in Hk' as ->.
    + apply (Hstep rd []); try done.
      * by rewrite factor_body_not_excluded, Hf, Hnull.
      * by rewrite app_nil_r.
Qed.

(** X6. With unique keys, and a factor column in every table in scope
    that is not excluded, check_missing_factor does not raise; its report
    has exactly one row, with missing_factor_col = false and
    missing_factor_data = true, for each table that is not excluded and
    whose factor is null on every row (a table without rows included),
    in the order of the dataset. *)
Theorem check_missing_factor_exact (instruments : option instruments_arg)
    (w : world) :
  let scope := data_to_check (data (self w)) instruments in
  NoDup (map fst scope) →
  (∀ k df, (k, df) ∈ scope → excluded k = false → "factor" ∈ columns df) →
  (check_missing_factor instruments w).1
  = Return (some_rows (factor_report_rows scope)).
Proof.
  intros scope Hnd Hfac. rewrite check_missing_factor_outcome. fold scope.
  destruct (factor_loop_exact scope
              {| fd_instruments := []; fd_missing_factor_col := [];
                 fd_missing_factor_data := [] |})
    as (rd & -> & Hwf & Hrows); try done.
  { intros k Hk. by apply elem_of_nil in Hk. }
  rewrite factor_frame_wf by done. simpl in Hrows. rewrite Hrows.
  unfold some_rows. by destruct (factor_report_rows scope).
Qed.

(** ** check_large_step_changes on frames without a two-level index *)

Lemma step_col_body_no_dates s k df rd col :
  ¬ multi_indexed df →
  if flagged s df col
  then ∃ e, step_col_body s k df rd col = Raise e ∧ no_date_error e
  else step_col_body s k df rd col = Return rd.
Proof.
  intros Hix. unfold flagged, step_col_body.
  destruct (decide (col ∈ columns df)) as [Hcol|Hcol].
  - rewrite bool_decide_eq_true_2 by done.
    apply getitem_columns in Hcol as [series ->]. simpl.
    fold (max_abs_change series).
    destruct (fgt (max_abs_change series) _); [|done].
    destruct (large_steps df _ _) as [|[lbl c] rest] eqn:Hls; simpl.
    { eexists. split; [done|]. right. by eexists. }
    assert (lbl ∈ index_to_list (df_index df)) as Hlbl.
    { assert ((lbl, c) ∈ large_steps df (series_abs (pct_change series))
                           (threshold_of s col)) as H0
        by (rewrite Hls; left).
      unfold large_steps in H0.
      apply list_elem_of_filter in H0 as [_ H0]. by apply elem_of_zip_l in H0. }
    destruct lbl as [i|t|inst t]; simpl.
    + eexists. split; [done|]. left. by eexists.
    + eexists. split; [done|]. left. by eexists.
    + exfalso. apply Hix.
      destruct (df_index df) as [n|ts|entries] eqn:Hdf; simpl in Hlbl.
      * apply list_elem_of_In, in_map_iff in Hlbl as (? & [=] & _).
      * apply list_elem_of_In, in_map_iff in Hlbl as (? & [=] & _).
      * by exists entries.
  - rewrite bool_decide_eq_false_2 by done.
    destruct (getitem _ _) eqn:Hg; [|done].
    exfalso. apply Hcol. apply getitem_columns. eauto.
Qed.

Lemma existsb_false_forall {A} (f : A → bool) l :
  existsb f l = false ↔ ∀ x, x ∈ l → f x = false.
Proof.
  induction l as [|y l IH]; simpl.
  - split; [by intros _ ? ?%elem_of_nil | done].
  - rewrite orb_false_iff, IH. split.
    + intros [Hy Hl] x [->|Hx]%elem_of_cons; auto.
    + intros H. split; [apply H; left | intros x Hx; apply H; by right].
Qed.

Lemma existsb_true_exists {A} (f : A → bool) l :
  existsb f l = true ↔ ∃ x, x ∈ l ∧ f x = true.
Proof.
  rewrite existsb_exists. split; intros (x & Hx & Hf); exists x;
    by rewrite ?list_elem_of_In in *.
Qed.

Lemma step_body_no_dates s rd k df :
  ¬ multi_indexed df →
  if existsb (flagged s df) ohlcv
  then ∃ e, step_body s rd (k, df) = Raise e ∧ no_date_error e
  else step_body s rd (k, df) = Return rd.
Proof.
  intros Hix. unfold step_body.
  destruct (existsb (flagged s df) ohlcv) eqn:Hany.
  - apply existsb_true_exists in Hany as (col & Hcol & Hflag).
    apply (for_each_raises (step_col_body s k df) no_date_error).
    + intros acc c e _ He.
      pose proof (step_col_body_no_dates s k df acc c Hix) as H.
      destruct (flagged s df c); [|congruence].
      destruct H as (e' & He' & ?). congruence.
    + exists col. split; [done|]. intros acc.
      pose proof (step_col_body_no_dates s k df acc col Hix) as H.
      rewrite Hflag in H. destruct H as (e & ? & _). eauto.
  - apply for_each_skip. intros col Hcol.
    pose proof (step_col_body_no_dates s k df rd col Hix) as H.
    rewrite existsb_false_forall in Hany. by rewrite (Hany col Hcol) in H.
Qed.

(** X7. On tables whose rows are not keyed by (instrument, datetime)
    pairs, such as the range-indexed tables pd.read_csv gives,
    check_large_step_changes never returns a report: it returns None
    when no column is flagged and raises TypeError (or IndexError) as
    soon as one is. *)
Theorem check_large_step_changes_no_dates
    (instruments : option instruments_arg) (w : world) :
  let scope := data_to_check (data (self w)) instruments in
  (∀ k df, (k, df) ∈ scope → ¬ multi_indexed df) →
  if any_flagged (self w) scope
  then ∃ e, (check_large_step_changes instruments w).1 = Raise e
            ∧ no_date_error e
  else (check_large_step_changes instruments w).1 = Return None.
Proof.
  intros scope Hix. rewrite check_large_step_changes_outcome. fold scope.
  destruct (any_flagged (self w) scope) eqn:Hany.
  - apply existsb_true_exists in Hany as ([k df] & Hin & Hflag).
    destruct (for_each_raises (step_body (self w)) no_date_error scope sd_init)
      as (e & -> & He); [| |by eauto].
    + intros acc [k' df'] e Hin' He.
      pose proof (step_body_no_dates (self w) acc k' df' (Hix k' df' Hin'))
        as H.
      destruct (existsb (flagged (self w) df') ohlcv); [|congruence].
      destruct H as (e' & He' & ?). congruence.
    + exists (k, df). split; [done|]. intros acc.
      pose proof (step_body_no_dates (self w) acc k df (Hix k df Hin)) as H.
      change (existsb (flagged (self w) df) ohlcv = true) in Hflag.
      rewrite Hflag in H. destruct H as (e & ? & _). eauto.
  - rewrite for_each_skip; [done|].
    intros [k df] Hin.
    pose proof (step_body_no_dates (self w) sd_init k df (Hix k df Hin)) as H.
    unfold any_flagged in Hany. rewrite existsb_false_forall in Hany.
    specialize (Hany (k, df) Hin).
    change (existsb (flagged (self w) df) ohlcv = false) in Hany.
    by rewrite Hany in H.
Qed.

(** ** pct_change and missing values *)

Lemma lookup_removelast {A} (l : list A) j :
  (S j < length l)%nat → removelast l !! j = l !! j.
Proof.
  revert j. induction l as [|x l IH]; intros j Hj; [simpl in Hj; lia|].
  destruct l as [|y l]; [simpl in Hj; lia|].
  change (removelast (x :: y :: l)) with (x :: removelast (y :: l)).
  destruct j as [|j]; [done|]. simpl. apply IH. simpl in *. lia.
Qed.

Lemma lookup_map {A B} (f : A → B) l i : map f l !! i = f <$> l !! i.
Proof. revert i. induction l as [|x l IH]; intros [|i]; simpl; auto. Qed.

Lemma shift_cons x s : shift (x :: s) = NaN :: removelast (x :: s).
Proof. done. Qed.

Lemma lookup_shift_S s j y :
  shift s !! S j = Some y → s !! j = Some y ∧ (S j < length s)%nat.
Proof.
  intros Hy.
  assert (S j < length s)%nat as Hlt.
  { apply lookup_lt_Some in Hy. by rewrite length_shift in Hy. }
  split; [|done]. destruct s as [|x s]; [done|].
  rewrite shift_cons in Hy. change (removelast (x :: s) !! j = Some y) in Hy.
  by rewrite lookup_removelast in Hy.
Qed.

Lemma lookup_shift_0 s y : shift s !! 0%nat = Some y → y = NaN.
Proof. destruct s; [done|]. by intros [= <-]. Qed.

(** The change at a row is computed from that row and the one before. *)
Lemma lookup_abs_pct_change s j p x :
  s !! j = Some p → s !! S j = Some x →
  series_abs (pct_change s) !! S j
  = Some (fabs (fsub (fdiv x p) (Fin 1))).
Proof.
  intros Hp Hx. unfold series_abs, pct_change.
  assert (shift s !! S j = Some p) as Hs.
  { destruct s as [|y s]; [done|]. rewrite shift_cons.
    change (removelast (y :: s) !! j = Some p).
    rewrite lookup_removelast; [done|]. by apply lookup_lt_Some in Hx. }
  rewrite lookup_map.
  assert (zip_with (λ x p, fsub (fdiv x p) (Fin 1)) s (shift s) !! S j
          = Some (fsub (fdiv x p) (Fin 1))) as ->
    by (apply lookup_zip_with_Some; eauto).
  done.
Qed.

(** Conversely a change that is not NaN comes from two consecutive rows
    that both hold a value. *)
Lemma abs_pct_change_not_null s i c :
  series_abs (pct_change s) !! i = Some c → isnull c = false →
  ∃ j p x, i = S j ∧ s !! j = Some p ∧ s !! S j = Some x
           ∧ isnull p = false ∧ isnull x = false.
Proof.
  unfold series_abs, pct_change. rewrite lookup_map.
  intros Hc Hnn.
  destruct (zip_with _ s (shift s) !! i) as [c'|] eqn:Hz; [|done].
  injection Hc as <-.
  apply lookup_zip_with_Some in Hz as (x & p & -> & Hx & Hp).
  assert (isnull x = false ∧ isnull p = false) as [Hxn Hpn]
    by (destruct x as [|[]|], p as [|[]|]; done).
  destruct i as [|j].
  - apply lookup_shift_0 in Hp. by subst.
  - apply lookup_shift_S in Hp as [Hp _]. exists j, p, x. done.
Qed.

(** X8. pct_change is taken with fill_method=None, so a missing value is
    not carried forward: a change that is a number needs a value in its
    row and in the row before, and a column in which no two consecutive
    rows both hold a value is never reported, whatever the thresholds. *)
Theorem large_step_needs_consecutive_values
    (s : DataHealthChecker) (df : DataFrame) (col : string)
    (series : list float) :
  getitem (df_columns df) col = Return series →
  (∀ j p x, series !! j = Some p → series !! S j = Some x →
            isnull p = true ∨ isnull x = true) →
  max_abs_change series = NaN ∧ flagged s df col = false.
Proof.
  intros Hg Hgap.
  assert (max_abs_change series = NaN) as Hmax.
  { unfold max_abs_change, series_max.
    destruct (fold_nanmax NaN (series_abs (pct_change series)))
      as ([Heq|Hin] & _ & _); [done|].
    apply list_elem_of_lookup in Hin as [i Hi].
    destruct (isnull (fold_left nanmax2 (series_abs (pct_change series)) NaN))
      eqn:Hn.
    - by destruct (fold_left nanmax2 _ NaN) as [|[]|].
    - destruct (abs_pct_change_not_null _ _ _ Hi Hn)
        as (j & p & x & -> & Hp & Hx & Hpn & Hxn).
      destruct (Hgap j p x Hp Hx); congruence. }
  split; [done|]. unfold flagged. by rewrite Hg, Hmax.
Qed.

(** X9. A value that follows a zero gives an infinite change, which is
    above every finite threshold: the column is reported however large
    the threshold is set. *)
Theorem large_step_after_zero
    (s : DataHealthChecker) (df : DataFrame) (col : string)
    (series : list float) (j : nat) (p x t : Q) :
  getitem (df_columns df) col = Return series →
  threshold_of s col = Fin t →
  series !! j = Some (Fin p) → series !! S j = Some (Fin x) →
  p == 0 → ¬ x == 0 →
  flagged s df col = true.
Proof.
  intros Hg Ht Hp Hx Hp0 Hx0. unfold flagged. rewrite Hg, Ht.
  unfold max_abs_change. apply series_max_above.
  exists (fabs (fsub (fdiv (Fin x) (Fin p)) (Fin 1))). split.
  - eapply list_elem_of_lookup_2. by apply lookup_abs_pct_change.
  - unfold fdiv, Qis_zero.
    rewrite (proj2 (Qeq_bool_iff p 0) Hp0).
    destruct (Qeq_bool x 0) eqn:Hx0'; [by apply Qeq_bool_iff in Hx0'|].
    done.
Qed.

(** ** check_missing_trading_days: which tables are reported *)

Lemma days_rows_lacking trading_days scope news :
  Forall2 (days_contributes trading_days) scope news →
  Forall2 (days_row_for trading_days) (lacking trading_days scope)
          (concat news).
Proof.
  unfold lacking.
  induction 1 as [|[k df] new scope news Hc _ IH]; [constructor|].
  rewrite filter_cons. simpl in *.
  destruct Hc as [[Hm ->]|(Hm & row & -> & Hrow)].
  - rewrite decide_False by (by intros ?). done.
  - rewrite decide_True by done. simpl. by constructor.
Qed.

Lemma lacking_no_calendar scope : lacking [] scope = [].
Proof.
  unfold lacking. induction scope as [|kv scope IH]; [done|].
  rewrite filter_cons, decide_False; [done|].
  intros H. apply H. unfold missing_dates. set_solver.
Qed.

(** X10. check_missing_trading_days always returns, and its rows are,
    one for one and in the order of the dataset, the tables in scope
    that lack a date of the calendar it works with (the calendar file
    when it loads, the sorted union of the dates in scope otherwise):
    no such table is left out and none is reported twice. *)
Theorem check_missing_trading_days_complete
    (instruments : option instruments_arg) (w : world) :
  let scope := data_to_check (data (self w)) instruments in
  let trading_days := resolved_calendar (calendar w) scope in
  ∃ res,
    (check_missing_trading_days instruments w).1 = Return res ∧
    Forall2 (days_row_for trading_days) (lacking trading_days scope)
            (rows_of res).
Proof.
  intros scope trading_days.
  destruct scope as [|item scope'] eqn:Hscope.
  - rewrite check_missing_trading_days_empty by done.
    exists None. split; [done|]. constructor.
  - destruct (check_missing_trading_days_nonempty instruments w)
      as (events & _ & [(Hload & Hdates & ->)|(_ & news & -> & Hall)]).
    { fold scope. by rewrite Hscope. }
    + exists None. split; [done|].
      assert (trading_days = []) as ->.
      { unfold trading_days, resolved_calendar.
        destruct (calendar w); [done|..]; fold scope in Hdates;
          rewrite Hscope in Hdates; rewrite Hdates; done. }
      rewrite lacking_no_calendar. constructor.
    + eexists. split; [done|]. rewrite rows_of_some_rows.
      fold scope in Hall. rewrite Hscope in Hall.
      by apply days_rows_lacking.
Qed.

(** X11. Without a calendar file the calendar is the union of the dates
    in scope, so a table is reported only for a date that another table
    in scope holds: a gap shared by every table is not seen, and with a
    single table in scope the check reports nothing. *)
Theorem fallback_reports_relative_gaps
    (instruments : option instruments_arg) (w : world) :
  let scope := data_to_check (data (self w)) instruments in
  calendar_loaded (calendar w) = false →
  (∀ res k row,
     (check_missing_trading_days instruments w).1 = Return res →
     (k, row) ∈ rows_of res →
     ∃ df k' df' t, (k, df) ∈ scope ∧ (k', df') ∈ scope ∧
       t ∈ date_level (df_index df') ∧ t ∉ date_level (df_index df)) ∧
  ((∀ k df k' df' t, (k, df) ∈ scope → (k', df') ∈ scope →
      t ∈ date_level (df_index df') → t ∈ date_level (df_index df)) →
   (check_missing_trading_days instruments w).1 = Return None).
Proof.
  intros scope Hload.
  assert (∀ res k row,
     (check_missing_trading_days instruments w).1 = Return res →
     (k, row) ∈ rows_of res →
     ∃ df k' df' t, (k, df) ∈ scope ∧ (k', df') ∈ scope ∧
       t ∈ date_level (df_index df') ∧ t ∉ date_level (df_index df)) as Hrel.
  { intros res k row Hres Hrow.
    destruct (check_missing_trading_days_rows instruments w res Hres k row Hrow)
      as (df & Hin & Hmiss & _).
    fold scope in Hin, Hmiss.
    assert (resolved_calendar (calendar w) scope = sorted (all_dates scope))
      as Hcal by (by destruct (calendar w)).
    rewrite Hcal in Hmiss.
    apply set_choose_L in Hmiss as [t Ht].
    unfold missing_dates in Ht.
    apply elem_of_difference in Ht as [Ht Hnot].
    rewrite elem_of_list_to_set in Ht, Hnot.
    apply elem_of_sorted, elem_of_all_dates in Ht as (k' & df' & Hin' & Ht).
    by exists df, k', df', t. }
  split; [done|]. intros Hsame.
  destruct (check_missing_trading_days_total instruments w) as [res Hres].
  rewrite Hres. f_equal. destruct res as [[|[k row] r]|]; [| |done].
  - destruct scope as [|item scope'] eqn:Hscope.
    + rewrite check_missing_trading_days_empty in Hres by done. done.
    + destruct (check_missing_trading_days_nonempty instruments w)
        as (events & _ & [(_ & _ & H)|(_ & news & H & _)]).
      { fold scope. by rewrite Hscope. }
      * congruence.
      * rewrite Hres in H. injection H as H. unfold some_rows in H.
        by destruct (concat news).
  - destruct (Hrel _ k row Hres) as (df & k' & df' & t & Hin & Hin' & Ht & Hn).
    { left. }
    exfalso. apply Hn. by eapply Hsame.
Qed.

(** ** Range-indexed tables against a calendar file *)

Lemma round_hundredths_0 q : (q == 0)%Q → round_hundredths q = 0.
Proof.
  unfold round_hundredths. destruct q as [num den].
  unfold Qeq. simpl. intros Hq.
  assert (num = 0) as -> by lia. done.
Qed.

Lemma format_pct_0 q : (q == 0)%Q → format_pct q = "0.00%".
Proof.
  intros Hq. unfold format_pct. by rewrite (round_hundredths_0 q Hq).
Qed.

Lemma coverage_ratio_none (n : nat) :
  n ≠ 0%nat → ∃ q, coverage_ratio n n = Return q ∧ (q == 0)%Q.
Proof.
  intros Hn. unfold coverage_ratio.
  destruct (decide (n = 0%nat)); [done|].
  eexists. split; [done|].
  rewrite Z.sub_diag. unfold Qeq, Qmult, Qdiv, Qinv. simpl. lia.
Qed.

(** X12. The dates of a table with a range index (as read from a CSV
    file) are its row numbers taken as nanoseconds since the epoch.
    Against a calendar file whose days all lie after them, such a table
    is reported as missing every trading day, with 0.00% coverage. *)
Theorem range_index_misses_calendar
    (instruments : option instruments_arg) (w : world)
    (days : list Timestamp) (k : string) (df : DataFrame) (n : nat) :
  calendar w = CalendarFile days →
  days ≠ [] → NoDup days →
  (k, df) ∈ data_to_check (data (self w)) instruments →
  df_index df = RangeIndex n →
  (∀ t, t ∈ days → Z.of_nat n ≤ t) →
  ∃ r row,
    (check_missing_trading_days instruments w).1 = Return (Some r) ∧
    (k, row) ∈ r ∧
    dr_total_missing_days row = length days ∧
    dr_coverage_ratio row = "0.00%".
Proof.
  intros Hcal Hne Hnd Hin Hix Hafter.
  destruct (data_to_check (data (self w)) instruments) as [|item scope']
    eqn:Hscope; [by apply elem_of_nil in Hin|].
  destruct (check_missing_trading_days_nonempty instruments w)
    as (events & _ & [(Hload & _)|(_ & news & Hres & Hall)]).
  { by rewrite Hscope. }
  { by rewrite Hcal in Hload. }
  rewrite Hscope, Hcal in Hall. simpl in Hall.
  assert (missing_dates days df = list_to_set days) as Hmiss.
  { unfold missing_dates. rewrite Hix. simpl.
    apply set_eq. intros t.
    rewrite elem_of_difference, !elem_of_list_to_set.
    split; [by intros [? _]|]. intros Ht. split; [done|].
    intros Hrow. apply list_elem_of_In, in_map_iff in Hrow as (i & <- & Hi).
    apply in_seq in Hi. specialize (Hafter _ Ht). lia. }
  assert (missing_dates days df ≠ ∅) as Hsome.
  { rewrite Hmiss. destruct days as [|t days']; [done|]. set_solver. }
  destruct (Forall2_elem_l _ _ _ _ Hall Hin)
    as (new & Hnew & [[Hm _]|(_ & row & -> & Hrow)]); [done|].
  simpl in Hrow. destruct Hrow as (_ & Htotal & q & Hq & Hratio).
  rewrite Hmiss, size_list_to_set in Htotal, Hq by done.
  assert ((k, row) ∈ concat news) as Hrows.
  { apply elem_of_concat. exists [(k, row)]. split; [done|]. left. }
  exists (concat news), row. rewrite Hres. unfold some_rows.
  destruct (concat news) as [|p r] eqn:Hc; [by apply elem_of_nil in Hrows|].
  split; [done|]. split; [done|]. split; [done|].
  destruct (coverage_ratio_none (length days)) as (q' & Hq' & H0).
  { by destruct days. }
  rewrite Hratio. apply format_pct_0. congruence.
Qed.

(** ** An empty selection *)

(** X13. When the instruments filter selects no table (or the dataset
    is empty), each of the five checks returns None: no check raises,
    whatever the tables left out would have caused. *)
Theorem empty_selection_reports_nothing (c : check)
    (instruments : option instruments_arg) (w : world) :
  data_to_check (data (self w)) instruments = [] →
  (run_check c instruments w).1 = Return None.
Proof.
  intros Hscope. destruct c; simpl.
  - by rewrite check_missing_data_outcome, Hscope.
  - by rewrite check_large_step_changes_outcome, Hscope.
  - unfold check_required_columns, mbind, M_bind, outcome_bind, get_self,
      lift. simpl. by rewrite Hscope.
  - by rewrite check_missing_factor_outcome, Hscope.
  - by rewrite check_missing_trading_days_empty.
Qed.

(** ** Substring tests *)

Lemma prefix_app needle hay :
  String.prefix needle hay = true ↔ ∃ post, hay = needle +:+ post.
Proof.
  revert hay. induction needle as [|a needle IH]; intros hay.
  - split; [by exists hay | by destruct hay].
  - destruct hay as [|b hay]; simpl; [split; [done | by intros [? ?]]|].
    destruct (ascii_dec a b) as [->|Hab].
    + rewrite IH. split; intros [post H]; exists post.
      * by rewrite H.
      * by injection H.
    + split; [done|]. intros [post H]. by injection H.
Qed.

Lemma str_contains_app needle hay :
  str_contains needle hay = true
  ↔ ∃ pre post, hay = pre +:+ needle +:+ post.
Proof.
  induction hay as [|b hay IH].
  - cbn [str_contains]. rewrite orb_false_r, prefix_app. split.
    + intros [post H]. by exists "", post.
    + intros (pre & post & H). exists post.
      destruct pre; [done|]. by simpl in H.
  - cbn [str_contains]. rewrite orb_true_iff, prefix_app, IH. split.
    + intros [[post H]|(pre & post & ->)].
      * by exists "", post.
      * by exists (String b pre), post.
    + intros (pre & post & H). destruct pre as [|a pre].
      * left. by exists post.
      * right. exists pre, post. by injection H.
Qed.

(** X14. When instruments is one string, [k in instruments] is a
    substring test: the tables checked are those whose key occurs in the
    string as a contiguous part (so a key that merely contains the string
    is not selected, and a shorter key inside it is). *)
Theorem string_filter_selects_substrings (d : Dataset) (s k : string)
    (df : DataFrame) :
  (k, df) ∈ data_to_check d (Some (KeyString s))
  ↔ (k, df) ∈ d ∧ ∃ pre post, s = pre +:+ k +:+ post.
Proof.
  unfold data_to_check, Dataset. rewrite list_elem_of_filter. simpl.
  rewrite str_contains_app. tauto.
Qed.

(** X15. check_missing_factor leaves a table out exactly when its key
    contains one of the codes 000300, 000903, 000905 anywhere, whatever
    stands before or after the code. *)
Theorem excluded_iff_contains_code (filename : string) :
  excluded filename = true
  ↔ ∃ pre code post, code ∈ excluded_factor_keys
                     ∧ filename = pre +:+ code +:+ post.
Proof.
  unfold excluded. rewrite existsb_true_exists. split.
  - intros (code & Hcode & (pre & post & ->)%str_contains_app). eauto.
  - intros (pre & code & post & Hcode & ->). exists code. split; [done|].
    apply str_contains_app. eauto.
Qed.

(** ** check_data *)

Lemma with_output_nil s : with_output s [] = s.
Proof. destruct s. unfold with_output. simpl. by rewrite app_nil_r. Qed.

Lemma with_output_app s l1 l2 :
  with_output (with_output s l1) l2 = with_output s (l1 ++ l2).
Proof. unfold with_output. simpl. by rewrite app_assoc. Qed.

Lemma events_with_output c instruments s lines :
  events c instruments (with_output s lines) = events c instruments s.
Proof. done. Qed.

(** A check called in the session: its outcome is the one it has on the
    world of the session, and only the output changes. *)
Lemma call_run_check c instruments s :
  call (run_check c instruments) s
  = ((run_check c instruments (world_in s)).1,
     with_output s (map Logged (events c instruments s))).
Proof.
  unfold call, events. fold (world_in s).
  destruct (read_only_run_check c instruments (world_in s)) as (Hs & Hc & _).
  destruct (run_check c instruments (world_in s)) as [o w]. simpl in *.
  by rewrite Hs, Hc.
Qed.

Lemma bind_call_run_check {B} c instruments (f : _ → T B) s :
  (call (run_check c instruments) ≫= f) s
  = match (run_check c instruments (world_in s)).1 with
    | Return a => f a (with_output s (map Logged (events c instruments s)))
    | Raise e =>
        (Raise e, with_output s (map Logged (events c instruments s)))
    end.
Proof.
  unfold mbind, T_bind. rewrite call_run_check.
  by destruct (run_check c instruments (world_in s)).1.
Qed.

Lemma bind_write {B} l (f : unit → T B) s :
  (write l ≫= f) s = f tt (with_output s [l]).
Proof. done. Qed.

Lemma section_run c result s :
  section c result s = (Return tt, with_output s (section_lines c result)).
Proof.
  destruct result as [r|]; simpl.
  - unfold mbind, T_bind, write, with_output. simpl.
    by rewrite <- app_assoc.
  - by rewrite with_output_nil.
Qed.

Lemma bind_section {B} c result (f : unit → T B) s :
  (section c result ≫= f) s = f tt (with_output s (section_lines c result)).
Proof. unfold mbind, T_bind. by rewrite section_run. Qed.

Lemma not_found_warning_run {B} d instruments (f : unit → T B) s :
  (match instruments with
   | Some given =>
       let missing_instruments :=
         filter (λ inst, inst ∉ map fst d) (py_iter given) in
       if bool_decide (missing_instruments ≠ [])
       then write (InstrumentsNotFound missing_instruments)
       else mret tt
   | None => mret tt
   end ≫= f) s
  = f tt (with_output s (not_found_warning d instruments)).
Proof.
  unfold not_found_warning. destruct instruments as [given|]; simpl.
  - destruct (filter _ (py_iter given)) as [|x l] eqn:Hf; simpl.
    + unfold mbind, T_bind, mret, T_ret. by rewrite with_output_nil.
    + done.
  - unfold mbind, T_bind, mret, T_ret. by rewrite with_output_nil.
Qed.

(** check_data, read off the outcomes the five checks have on the world
    of the session. *)
Lemma check_data_run instruments s :
  let w := world_in s in
  let warn := not_found_warning (data (checker s)) instruments in
  let scope := data_to_check (data (checker s)) instruments in
  check_data instruments s =
  match (run_check CheckMissingData instruments w).1 with
  | Raise e =>
      (Raise e,
       with_output s (warn ++ logs instruments s (take 1 check_order)))
  | Return r1 =>
  match (run_check CheckLargeStepChanges instruments w).1 with
  | Raise e =>
      (Raise e,
       with_output s (warn ++ logs instruments s (take 2 check_order)))
  | Return r2 =>
  match (run_check CheckRequiredColumns instruments w).1 with
  | Raise e =>
      (Raise e,
       with_output s (warn ++ logs instruments s (take 3 check_order)))
  | Return r3 =>
  match (run_check CheckMissingFactor instruments w).1 with
  | Raise e =>
      (Raise e,
       with_output s (warn ++ logs instruments s (take 4 check_order)))
  | Return r4 =>
  match (run_check CheckMissingTradingDays instruments w).1 with
  | Raise e =>
      (Raise e, with_output s (warn ++ logs instruments s check_order))
  | Return r5 =>
      (Return tt,
       with_output s (warn ++ logs instruments s check_order
                      ++ summary (length scope) (results r1 r2 r3 r4 r5)))
  end end end end end.
Proof.
  intros w warn scope. unfold check_data.
  change (call get_self ≫= ?f) with (λ s', f (checker s') (with_output s' [])).
  cbv beta. rewrite with_output_nil, not_found_warning_run.
  fold warn scope.
  change (check_missing_data instruments)
    with (run_check CheckMissingData instruments).
  change (check_large_step_changes instruments)
    with (run_check CheckLargeStepChanges instruments).
  change (check_required_columns instruments)
    with (run_check CheckRequiredColumns instruments).
  change (check_missing_factor instruments)
    with (run_check CheckMissingFactor instruments).
  change (check_missing_trading_days instruments)
    with (run_check CheckMissingTradingDays instruments).
  rewrite bind_call_run_check.
  change (world_in (with_output s warn)) with w.
  rewrite events_with_output, with_output_app.
  destruct (run_check CheckMissingData instruments w).1 as [r1|e];
    [|by unfold logs; simpl; rewrite app_nil_r].
  rewrite bind_call_run_check.
  change (world_in (with_output s _)) with w.
  rewrite events_with_output, with_output_app.
  destruct (run_check CheckLargeStepChanges instruments w).1 as [r2|e];
    [|by unfold logs; simpl; rewrite app_nil_r, map_app, <- !app_assoc].
  rewrite bind_call_run_check.
  change (world_in (with_output s _)) with w.
  rewrite events_with_output, with_output_app.
  destruct (run_check CheckRequiredColumns instruments w).1 as [r3|e];
    [|by unfold logs; simpl; rewrite app_nil_r, !map_app, <- !app_assoc].
  rewrite bind_call_run_check.
  change (world_in (with_output s _)) with w.
  rewrite events_with_output, with_output_app.
  destruct (run_check CheckMissingFactor instruments w).1 as [r4|e];
    [|by unfold logs; simpl; rewrite app_nil_r, !map_app, <- !app_assoc].
  rewrite bind_call_run_check.
  change (world_in (with_output s _)) with w.
  rewrite events_with_output, with_output_app.
  destruct (run_check CheckMissingTradingDays instruments w).1 as [r5|e];
    [|by unfold logs; simpl; rewrite app_nil_r, !map_app, <- !app_assoc].
  assert ((((((warn ++ map Logged (events CheckMissingData instruments s))
             ++ map Logged (events CheckLargeStepChanges instruments s))
             ++ map Logged (events CheckRequiredColumns instruments s))
             ++ map Logged (events CheckMissingFactor instruments s))
             ++ map Logged (events CheckMissingTradingDays instruments s))
          = warn ++ logs instruments s check_order) as ->.
  { unfold logs. simpl. by rewrite app_nil_r, !map_app, <- !app_assoc. }
  rewrite (app_assoc warn).
  generalize (warn ++ logs instruments s check_order). intros pre.
  destruct (_ || _) eqn:Hcond.
  - rewrite !bind_write, !bind_section, section_run, !with_output_app.
    do 3 f_equal.
    unfold summary, check_order, results.
    cbn [map concat]. rewrite app_nil_r.
    destruct r1, r2, r3, r4, r5; try done.
  - unfold mret, T_ret.
    destruct r1, r2, r3, r4, r5; try done.
    unfold summary. simpl. by rewrite app_nil_r.
Qed.

Lemma before_summary_warning d instruments :
  Forall before_summary (not_found_warning d instruments).
Proof.
  unfold not_found_warning. destruct instruments as [given|]; [|done].
  destruct (filter _ _); repeat constructor.
Qed.

Lemma before_summary_logs instruments s cs :
  Forall before_summary (logs instruments s cs).
Proof.
  unfold logs. induction (concat _) as [|e l IH]; by constructor.
Qed.

(** X16. check_data raises exactly when one of the five checks raises
    on the same checker: it raises the exception of the first such check
    in the order missing data, large steps, required columns, factor,
    trading days; and then it writes no line of the summary, so what the
    earlier checks had found is not printed. *)
Theorem check_data_raises (instruments : option instruments_arg)
    (s : session) (e : exn) :
  ((check_data instruments s).1 = Raise e
   ↔ ∃ c, (run_check c instruments (world_in s)).1 = Raise e ∧
       ∀ c', (position c' < position c)%nat →
         ∃ r, (run_check c' instruments (world_in s)).1 = Return r) ∧
  ((check_data instruments s).1 = Raise e →
   ∃ lines, (check_data instruments s).2 = with_output s lines
            ∧ Forall before_summary lines).
Proof.
  pose proof (before_summary_warning (data (checker s)) instruments) as Hw.
  pose proof (before_summary_logs instruments s) as Hl.
  rewrite check_data_run.
  destruct (run_check CheckMissingData instruments (world_in s)).1
    as [r1|e1] eqn:H1.
  2: { split.
       - split.
         + intros [= <-]. exists CheckMissingData. split; [done|].
           intros c'. simpl. lia.
         + intros (c & Hc & Hbefore). destruct c;
             try (destruct (Hbefore CheckMissingData) as [r Hr];
                  [simpl; lia | simpl in *; congruence]);
             simpl in *; congruence.
       - intros _. eexists. split; [done|]. apply Forall_app; auto. }
  destruct (run_check CheckLargeStepChanges instruments (world_in s)).1
    as [r2|e2] eqn:H2.
  2: { split.
       - split.
         + intros [= <-]. exists CheckLargeStepChanges. split; [done|].
           intros [] Hlt; simpl in Hlt; try lia; eauto.
         + intros (c & Hc & Hbefore). destruct c;
             try (destruct (Hbefore CheckLargeStepChanges) as [r Hr];
                  [simpl; lia | simpl in *; congruence]);
             simpl in *; congruence.
       - intros _. eexists. split; [done|]. apply Forall_app; auto. }
  destruct (run_check CheckRequiredColumns instruments (world_in s)).1
    as [r3|e3] eqn:H3.
  2: { split.
       - split.
         + intros [= <-]. exists CheckRequiredColumns. split; [done|].
           intros [] Hlt; simpl in Hlt; try lia; eauto.
         + intros (c & Hc & Hbefore). destruct c;
             try (destruct (Hbefore CheckRequiredColumns) as [r Hr];
                  [simpl; lia | simpl in *; congruence]);
             simpl in *; congruence.
       - intros _. eexists. split; [done|]. apply Forall_app; auto. }
  destruct (run_check CheckMissingFactor instruments (world_in s)).1
    as [r4|e4] eqn:H4.
  2: { split.
       - split.
         + intros [= <-]. exists CheckMissingFactor. split; [done|].
           intros [] Hlt; simpl in Hlt; try lia; eauto.
         + intros (c & Hc & Hbefore). destruct c;
             try (destruct (Hbefore CheckMissingFactor) as [r Hr];
                  [simpl; lia | simpl in *; congruence]);
             simpl in *; congruence.
       - intros _. eexists. split; [done|]. apply Forall_app; auto. }
  destruct (run_check CheckMissingTradingDays instruments (world_in s)).1
    as [r5|e5] eqn:H5.
  2: { split.
       - split.
         + intros [= <-]. exists CheckMissingTradingDays. split; [done|].
           intros [] Hlt; simpl in Hlt; try lia; eauto.
         + intros (c & Hc & Hbefore). destruct c; simpl in *; congruence.
       - intros _. eexists. split; [done|]. apply Forall_app; auto. }
  split; [|done]. split; [done|].
  intros (c & Hc & _). destruct c; simpl in *; congruence.
Qed.

(** X17. When the five checks return, check_data returns and writes, in
    this order: the warning about instruments that are no table, the
    lines the checks log, and the summary.  The summary is written only
    if some check returned a report; its header counts the tables in
    scope, and it prints the reports of the checks that returned one, in
    the order the checks ran.  Each report is the one the check returns
    when run alone. *)
Theorem check_data_summary (instruments : option instruments_arg)
    (s : session) (res : ∀ c, option (report (row_of c))) :
  (∀ c, (run_check c instruments (world_in s)).1 = Return (res c)) →
  check_data instruments s
  = (Return tt,
     with_output s
       (not_found_warning (data (checker s)) instruments
        ++ logs instruments s check_order
        ++ summary
             (length (data_to_check (data (checker s)) instruments)) res)).
Proof.
  intros Hres. rewrite check_data_run, !Hres. done.
Qed.

Lemma check_data_output instruments s :
  ∃ rest,
    output (check_data instruments s).2
    = output s ++ not_found_warning (data (checker s)) instruments ++ rest.
Proof.
  rewrite check_data_run.
  repeat match goal with
    | |- context [match ?o with Return _ => _ | Raise _ => _ end] =>
        destruct o
    end; simpl; eauto.
Qed.

(** X18. A single name given as one string is iterated character by
    character: unless a table has a key of one character, the first
    thing check_data writes is the warning that every character of the
    string was not found, even when the string is the key of a table
    (which is then checked). *)
Theorem check_data_string_argument (s : session) (str : string) :
  str ≠ "" →
  (∀ k, k ∈ map fst (data (checker s)) → String.length k ≠ 1%nat) →
  ∃ rest,
    output (check_data (Some (KeyString str)) s).2
    = output s
      ++ InstrumentsNotFound
           (map (λ a, String a EmptyString) (list_ascii_of_string str))
         :: rest.
Proof.
  intros Hstr Hkeys.
  destruct (check_data_output (Some (KeyString str)) s) as [rest ->].
  exists rest. f_equal. unfold not_found_warning, py_iter.
  assert (filter (λ inst, inst ∉ map fst (data (checker s)))
            (map (λ a, String a EmptyString) (list_ascii_of_string str))
          = map (λ a, String a EmptyString) (list_ascii_of_string str))
    as ->.
  { induction (list_ascii_of_string str) as [|a l IH]; [done|].
    simpl. rewrite filter_cons, decide_True, IH; [done|].
    intros Hin. by apply Hkeys in Hin. }
  destruct str as [|a str]; [done|]. done.
Qed.

(** ** Building the checker *)

Lemma dict_set_keys {V} (d : list (string * V)) k v :
  map fst (dict_set d k v)
  = if bool_decide (k ∈ map fst d) then map fst d else map fst d ++ [k].
Proof.
  induction d as [|[k' v'] d IH]; [done|]. simpl.
  destruct (decide (k' = k)) as [->|Hne]; simpl.
  - rewrite bool_decide_eq_true_2; [done | left].
  - rewrite IH. destruct (decide (k ∈ map fst d)) as [Hin|Hin].
    + rewrite !bool_decide_eq_true_2; [done | by right | done].
    + rewrite !bool_decide_eq_false_2; [done | | done].
      intros [?|?]%elem_of_cons; congruence.
Qed.

Lemma NoDup_dict_set {V} (d : list (string * V)) k v :
  NoDup (map fst d) → NoDup (map fst (dict_set d k v)).
Proof.
  intros Hnd. rewrite dict_set_keys. case_bool_decide; [done|].
  apply NoDup_app. split; [done|]. split.
  - intros x Hx Heq%list_elem_of_singleton. by subst.
  - apply NoDup_singleton.
Qed.

Lemma getitem_dict_set {V} (d : list (string * V)) k v k' :
  getitem (dict_set d k v) k'
  = if decide (k = k') then Return v else getitem d k'.
Proof.
  induction d as [|[k0 v0] d IH]; simpl.
  - by destruct (decide (k = k')).
  - destruct (decide (k0 = k)) as [->|Hne]; simpl.
    + by destruct (decide (k = k')).
    + destruct (decide (k0 = k')) as [->|Hne'].
      * by rewrite decide_False by congruence.
      * by rewrite IH.
Qed.

Lemma elem_of_dict_set {V} (d : list (string * V)) k v k' v' :
  (k', v') ∈ dict_set d k v → (k' = k ∧ v' = v) ∨ (k', v') ∈ d.
Proof.
  induction d as [|[k0 v0] d IH]; simpl.
  - intros [=]%list_elem_of_singleton. by left.
  - destruct (decide (k0 = k)) as [->|Hne].
    + intros [[=]|?]%elem_of_cons; [by left|]. right. by right.
    + intros [[=]|Hin]%elem_of_cons; [right; subst; left|].
      destruct (IH Hin); [by left|]. right. by right.
Qed.

(** The loop of the CSV branch: one table per file, under its name. *)
Lemma csv_loop env csv_path files acc d :
  try_each (csv_body env csv_path) files acc = Done d →
  NoDup files → (∀ f, f ∈ files → f ∉ map fst acc) →
  map fst d = map fst acc ++ files ∧
  (∀ f, f ∈ files →
     ∃ df, read_csv env (path_join csv_path f) = Ok df
           ∧ getitem d f = Return df) ∧
  (∀ f, f ∉ files → getitem d f = getitem acc f).
Proof.
  revert acc. induction files as [|f files IH]; intros acc Hloop Hnd Hfresh.
  - injection Hloop as <-. rewrite app_nil_r. split; [done|].
    split; [by intros f ?%elem_of_nil | done].
  - apply NoDup_cons in Hnd as [Hf Hnd]. cbn [try_each] in Hloop.
    unfold csv_body at 1 in Hloop.
    destruct (read_csv env (path_join csv_path f)) as [df|e] eqn:Hread;
      [|done].
    simpl in Hloop.
    assert (map fst (dict_set acc f df) = map fst acc ++ [f]) as Hkeys.
    { rewrite dict_set_keys, bool_decide_eq_false_2; [done|].
      apply Hfresh. left. }
    destruct (IH _ Hloop Hnd) as (Hd & Hin & Hout).
    { intros g Hg. rewrite Hkeys. intros [?|Heq]%elem_of_app.
      - by apply (Hfresh g); [right|].
      - apply list_elem_of_singleton in Heq. by subst. }
    split; [by rewrite Hd, Hkeys, <- app_assoc|]. split.
    + intros g [->|Hg]%elem_of_cons; [|by apply Hin].
      exists df. split; [done|].
      rewrite (Hout f Hf), getitem_dict_set. by rewrite decide_True.
    + intros g Hg. rewrite Hout by (intros ?; apply Hg; by right).
      rewrite getitem_dict_set, decide_False; [done|].
      intros ->. apply Hg. left.
Qed.

Lemma csv_loop_failed env csv_path files acc e :
  try_each (csv_body env csv_path) files acc = Failed e →
  ∃ msg, e = Failure msg.
Proof.
  revert acc. induction files as [|f files IH]; intros acc; [done|].
  cbn [try_each]. unfold csv_body at 1.
  destruct (read_csv env (path_join csv_path f)) as [df|msg]; simpl.
  - apply IH.
  - intros [= <-]. by exists msg.
Qed.

Lemma csv_loop_keys env csv_path files acc d :
  try_each (csv_body env csv_path) files acc = Done d →
  ∀ k, k ∈ map fst d → k ∈ map fst acc ∨ k ∈ files.
Proof.
  revert acc. induction files as [|f files IH]; intros acc Hloop k Hk.
  - injection Hloop as <-. by left.
  - cbn [try_each] in Hloop. unfold csv_body at 1 in Hloop.
    destruct (read_csv env (path_join csv_path f)) as [df|e]; [|done].
    simpl in Hloop. destruct (IH _ Hloop k Hk) as [Hacc|Hfiles].
    + rewrite dict_set_keys in Hacc. case_bool_decide; [by left|].
      apply elem_of_app in Hacc as [?|Heq]; [by left|].
      apply list_elem_of_singleton in Heq as ->. right. left.
    + right. by right.
Qed.

(** The loop of load_qlib_data. *)
Lemma load_loop env uri fq instruments acc loaded :
  try_each (load_body env uri fq) instruments acc = Done loaded →
  (∀ k, k ∈ map fst loaded.1 ↔ k ∈ map fst acc.1 ∨ k ∈ instruments) ∧
  (NoDup (map fst acc.1) → NoDup (map fst loaded.1)) ∧
  (∀ k df', (k, df') ∈ loaded.1 →
     (k, df') ∈ acc.1 ∨
     ∃ df, k ∈ instruments ∧ features env uri fq k required_fields = Ok df
           ∧ df' = rename df) ∧
  match last instruments with
  | Some k => ∃ df, features env uri fq k required_fields = Ok df
                    ∧ loaded.2 = Some (rename df)
  | None => loaded = acc
  end.
Proof.
  revert acc. induction instruments as [|i instruments IH]; intros acc Hloop.
  - injection Hloop as <-. split; [|split; [|split]]; try done.
    + intros k. split; [by left|]. intros [?|?%elem_of_nil]; done.
    + intros k df' ?. by left.
  - cbn [try_each] in Hloop. unfold load_body at 1 in Hloop.
    destruct (features env uri fq i required_fields) as [df|e] eqn:Hf;
      [|done].
    simpl in Hloop. destruct (IH _ Hloop) as (Hkeys & Hnd & Hfrom & Hlast).
    simpl in *. split; [|split; [|split]].
    + intros k. rewrite Hkeys, dict_set_keys, elem_of_cons.
      case_bool_decide; rewrite ?elem_of_app, ?list_elem_of_singleton;
        naive_solver.
    + intros H. apply Hnd. by apply NoDup_dict_set.
    + intros k df' Hin. destruct (Hfrom k df' Hin) as [Hacc|(df0 & ? & ? & ?)].
      * apply elem_of_dict_set in Hacc as [[-> ->]|?]; [|by left].
        right. exists df. split; [left | done].
      * right. exists df0. split; [by right | done].
    + destruct instruments as [|j instruments].
      * simpl in *. subst loaded. simpl. by exists df.
      * change (last (i :: j :: instruments)) with (last (j :: instruments)).
        destruct (last (j :: instruments)) eqn:Hl; [exact Hlast|].
        by apply last_None in Hl.
Qed.

Lemma load_loop_failed env uri fq instruments acc e :
  try_each (load_body env uri fq) instruments acc = Failed e →
  ∃ msg, e = Failure msg.
Proof.
  revert acc. induction instruments as [|i instruments IH]; intros acc;
    [done|].
  cbn [try_each]. unfold load_body at 1.
  destruct (features env uri fq i required_fields) as [df|msg]; simpl.
  - apply IH.
  - intros [= <-]. by exists msg.
Qed.

Lemma truthy_Some s : s ≠ "" → truthy (Some s) = true.
Proof.
  intros Hs. simpl. by apply negb_true_iff, String.eqb_neq.
Qed.

(** load_qlib_data fails with the exception of a call outside, or on its
    unbound local. *)
Lemma load_qlib_data_failed env uri s e :
  load_qlib_data env uri s = Failed e →
  (∃ msg, e = Failure msg) ∨
  (e = UnboundLocalError "df" ∧ list_instruments env uri (freq s) = Ok []).
Proof.
  unfold load_qlib_data.
  destruct (list_instruments env uri (freq s)) as [l|msg] eqn:Hl; simpl;
    [|intros [= <-]; left; by exists msg].
  destruct (try_each _ l _) as [loaded|e'] eqn:Hloop; simpl.
  - destruct (load_loop _ _ _ _ _ _ Hloop) as (_ & _ & _ & Hlast).
    destruct loaded.2 as [df|] eqn:H2; [done|].
    intros [= <-]. right. split; [done|].
    destruct (last l) as [k|] eqn:Hk.
    + destruct Hlast as (df & _ & ?). congruence.
    + by apply last_None in Hk as ->.
  - intros [= <-]. left. by eapply load_loop_failed.
Qed.

Lemma load_qlib_data_done env uri s s' printed :
  load_qlib_data env uri s = Done (s', printed) →
  ∃ instruments loaded,
    list_instruments env uri (freq s) = Ok instruments ∧
    try_each (load_body env uri (freq s)) instruments (data s, None)
    = Done loaded ∧
    s' = with_data s loaded.1 ∧ loaded.2 = Some printed.
Proof.
  unfold load_qlib_data.
  destruct (list_instruments env uri (freq s)) as [l|msg]; [|done]. simpl.
  destruct (try_each _ l _) as [loaded|e'] eqn:Hloop; [|done]. simpl.
  destruct loaded.2 as [df|] eqn:H2; [|done].
  intros [= <- <-]. by exists l, loaded.
Qed.

(** X19. A checker built from a directory of CSV files has one table
    per entry of the directory whose name ends in ".csv", in the order
    of the listing and under the file name with its extension; the
    table under a name is what pd.read_csv gave for that file, and
    nothing is printed. *)
Theorem init_csv_tables (env : environment) (csv_path : string)
    (qlib_dir : option string) (fq : string) (price volume : float)
    (num : Z) (s : DataHealthChecker) (printed : list DataFrame)
    (names : list string) :
  init env (Some csv_path) qlib_dir fq price volume num = Done (s, printed) →
  csv_path ≠ "" →
  listdir env csv_path = Ok names → NoDup names →
  map fst (data s) = filter (λ f, endswith f ".csv" = true) names ∧
  (∀ f, f ∈ names → endswith f ".csv" = true →
     ∃ df, read_csv env (path_join csv_path f) = Ok df
           ∧ getitem (data s) f = Return df) ∧
  printed = [].
Proof.
  intros Hinit Hpath Hnames Hnd. unfold init in Hinit.
  rewrite (truthy_Some csv_path Hpath) in Hinit. simpl in Hinit.
  destruct (truthy qlib_dir); [done|]. simpl in Hinit.
  destruct (isdir env csv_path); [|done]. simpl in Hinit.
  rewrite Hnames in Hinit. simpl in Hinit.
  destruct (try_each _ _ _) as [d|e] eqn:Hloop; [|done].
  injection Hinit as <- <-. simpl.
  destruct (csv_loop _ _ _ _ _ Hloop) as (Hkeys & Hin & _).
  { by apply NoDup_filter. }
  { intros f _ []%elem_of_nil. }
  split; [done|]. split; [|done].
  intros f Hf Hcsv. apply Hin. by apply list_elem_of_filter.
Qed.

(** X20. The keys of a checker built from CSV files keep the ".csv"
    extension, so a list of instruments named without it selects no
    table. *)
Theorem init_csv_keys_keep_extension (env : environment) (csv_path : string)
    (qlib_dir : option string) (fq : string) (price volume : float)
    (num : Z) (s : DataHealthChecker) (printed : list DataFrame) :
  init env (Some csv_path) qlib_dir fq price volume num = Done (s, printed) →
  csv_path ≠ "" →
  (∀ k, k ∈ map fst (data s) → endswith k ".csv" = true) ∧
  (∀ keys, (∀ k, k ∈ keys → endswith k ".csv" = false) →
     data_to_check (data s) (Some (KeyList keys)) = []).
Proof.
  intros Hinit Hpath. unfold init in Hinit.
  rewrite (truthy_Some csv_path Hpath) in Hinit. simpl in Hinit.
  destruct (truthy qlib_dir); [done|]. simpl in Hinit.
  destruct (isdir env csv_path); [|done]. simpl in Hinit.
  destruct (listdir env csv_path) as [names|msg]; [|done]. simpl in Hinit.
  destruct (try_each _ _ _) as [d|e] eqn:Hloop; [|done].
  injection Hinit as <- <-. simpl.
  assert (∀ k, k ∈ map fst d → endswith k ".csv" = true) as Hext.
  { intros k Hk.
    destruct (csv_loop_keys _ _ _ _ _ Hloop k Hk) as [[]%elem_of_nil|Hf].
    by apply list_elem_of_filter in Hf as [? _]. }
  split; [done|]. intros keys Hkeys.
  unfold data_to_check, Dataset.
  apply elem_of_nil_inv. intros [k df] [Hsel Hin]%list_elem_of_filter.
  simpl in Hsel. apply bool_decide_eq_true in Hsel.
  assert (k ∈ map fst d) as Hk.
  { apply list_elem_of_In, in_map_iff. exists (k, df).
    split; [done | by apply list_elem_of_In]. }
  apply Hext in Hk. apply Hkeys in Hsel. congruence.
Qed.

(** X21. The constructor fails on one of its assertions in three cases
    and no other: neither source is given (None or an empty string),
    both are given, or csv_path is given and is no directory. *)
Theorem init_assertion_error (env : environment)
    (csv_path qlib_dir : option string) (fq : string)
    (price volume : float) (num : Z) (msg : string) :
  init env csv_path qlib_dir fq price volume num
  = Failed (AssertionError msg)
  ↔ (truthy csv_path = false ∧ truthy qlib_dir = false ∧
     msg = "One of csv_path or qlib_dir should be provided.") ∨
    (truthy csv_path = true ∧ truthy qlib_dir = true ∧
     msg = "Only one of csv_path or qlib_dir should be provided.") ∨
    (truthy csv_path = true ∧ truthy qlib_dir = false ∧
     isdir env (default "" csv_path) = false ∧
     msg = default "" csv_path +:+ " should be a directory.").
Proof.
  unfold init.
  destruct (truthy csv_path) eqn:Hcsv, (truthy qlib_dir) eqn:Hqlib; simpl.
  - split; [intros [= <-]; right; left; done|].
    by intros [(? & _)|[(_ & _ & ->)|(_ & ? & _)]].
  - destruct (isdir env (default "" csv_path)) eqn:Hdir; simpl.
    + split; [|by intros [(? & _)|[(_ & ? & _)|(_ & _ & ? & _)]]].
      destruct (listdir env (default "" csv_path)) as [names|e]; [|done].
      simpl. destruct (try_each _ _ _) as [d|e] eqn:Hloop; [done|].
      intros [= ->]. by apply csv_loop_failed in Hloop as [? ?].
    + split; [intros [= <-]; right; right; done|].
      by intros [(? & _)|[(_ & ? & _)|(_ & _ & _ & ->)]].
  - split; [|by intros [(_ & ? & _)|[(? & _)|(? & _)]]].
    destruct (qlib_init env (default "" qlib_dir)) as [[]|e]; [|done].
    simpl. destruct (load_qlib_data _ _ _) as [loaded|e] eqn:Hload; [done|].
    intros [= ->].
    by apply load_qlib_data_failed in Hload as [[? ?]|[? _]].
  - split; [intros [= <-]; left; done|].
    by intros [(_ & _ & ->)|[(? & _)|(? & _)]].
Qed.

(** X22. The constructor fails with UnboundLocalError exactly when it
    reads from a provider that lists no instrument: load_qlib_data then
    prints its local [df] without having assigned it. *)
Theorem init_unbound_local (env : environment)
    (csv_path qlib_dir : option string) (fq : string)
    (price volume : float) (num : Z) (name : string) :
  init env csv_path qlib_dir fq price volume num
  = Failed (UnboundLocalError name)
  ↔ truthy csv_path = false ∧ truthy qlib_dir = true ∧
    qlib_init env (default "" qlib_dir) = Ok tt ∧
    list_instruments env (default "" qlib_dir) fq = Ok [] ∧
    name = "df".
Proof.
  unfold init.
  destruct (truthy csv_path) eqn:Hcsv, (truthy qlib_dir) eqn:Hqlib; simpl.
  - split; [done | by intros (? & _)].
  - split; [|by intros (? & _)].
    destruct (isdir env (default "" csv_path)); [|done]. simpl.
    destruct (listdir env (default "" csv_path)) as [names|e]; [|done].
    simpl. destruct (try_each _ _ _) as [d|e] eqn:Hloop; [done|].
    intros [= ->]. by apply csv_loop_failed in Hloop as [? ?].
  - destruct (qlib_init env (default "" qlib_dir)) as [[]|e]; simpl;
      [|split; [done | by intros (_ & _ & ? & _)]].
    split.
    + destruct (load_qlib_data _ _ _) as [loaded|e] eqn:Hload; [done|].
      intros [= ->].
      apply load_qlib_data_failed in Hload as [[? ?]|[[= ->] Hl]]; [done|].
      done.
    + intros (_ & _ & _ & Hl & ->). unfold load_qlib_data. simpl.
      by rewrite Hl.
  - split; [done | by intros (_ & ? & _)].
Qed.

(** X23. A checker built from a provider has one table per listed
    instrument, each the frame D.features gave for it with the fields
    renamed, under unique keys; what the constructor prints is the table
    of the last instrument listed. *)
Theorem init_qlib_tables (env : environment) (csv_path : option string)
    (uri : string) (fq : string) (price volume : float) (num : Z)
    (s : DataHealthChecker) (printed : list DataFrame) :
  init env csv_path (Some uri) fq price volume num = Done (s, printed) →
  truthy csv_path = false →
  ∃ instruments,
    list_instruments env uri fq = Ok instruments ∧
    NoDup (map fst (data s)) ∧
    (∀ k, k ∈ map fst (data s) ↔ k ∈ instruments) ∧
    (∀ k df', (k, df') ∈ data s →
       ∃ df, features env uri fq k required_fields = Ok df
             ∧ df' = rename df) ∧
    (∃ k df, last instruments = Some k ∧
       features env uri fq k required_fields = Ok df ∧
       printed = [rename df]).
Proof.
  intros Hinit Hcsv. unfold init in Hinit. rewrite Hcsv in Hinit.
  destruct (truthy (Some uri)); [|done]. simpl in Hinit.
  destruct (qlib_init env uri) as [[]|e]; [|done]. simpl in Hinit.
  destruct (load_qlib_data _ _ _) as [[s' df']|e] eqn:Hload; [|done].
  simpl in Hinit. injection Hinit as <- <-.
  apply load_qlib_data_done in Hload
    as (instruments & loaded & Hlist & Hloop & -> & Hprinted).
  simpl in *.
  destruct (load_loop _ _ _ _ _ _ Hloop) as (Hkeys & Hnd & Hfrom & Hlast).
  simpl in *. exists instruments. split; [done|]. split.
  { apply Hnd. constructor. }
  split.
  { intros k. rewrite Hkeys. split; [|by right].
    by intros [?%elem_of_nil|?]. }
  split.
  { intros k df0 Hin.
    destruct (Hfrom k df0 Hin) as [?%elem_of_nil|(df & _ & ? & ?)]; [done|].
    by exists df. }
  destruct (last instruments) as [k|]; [|by subst loaded].
  destruct Hlast as (df & Hf & Hdf). exists k, df.
  split; [done|]. split; [done|]. congruence.
Qed.

Lemma columns_rename df : columns (rename df) = map rename_label (columns df).
Proof. unfold columns, rename. simpl. by rewrite !map_map. Qed.

Lemma data_to_check_subseteq d instruments kv :
  kv ∈ data_to_check d instruments → kv ∈ d.
Proof.
  destruct instruments as [given|]; [|done]. simpl.
  unfold Dataset. by intros [_ ?]%list_elem_of_filter.
Qed.

Lemma NoDup_fst_filter {A B} (P : A * B → Prop) `{∀ x, Decision (P x)}
    (l : list (A * B)) :
  NoDup (map fst l) → NoDup (map fst (filter P l)).
Proof.
  induction l as [|x l IH]; [done|]. simpl. intros [Hx Hl]%NoDup_cons.
  rewrite filter_cons. destruct (decide (P x)); [|by apply IH].
  simpl. apply NoDup_cons. split; [|by apply IH].
  intros Hin. apply Hx.
  apply list_elem_of_In, in_map_iff in Hin as (y & Hy & Hin).
  apply list_elem_of_In, list_elem_of_filter in Hin as [_ Hin].
  apply list_elem_of_In, in_map_iff. exists y.
  split; [done | by apply list_elem_of_In].
Qed.

Lemma NoDup_data_to_check d instruments :
  NoDup (map fst d) → NoDup (map fst (data_to_check d instruments)).
Proof.
  destruct instruments as [given|]; [|done]. simpl.
  unfold Dataset. apply NoDup_fst_filter.
Qed.

(** Tables that have the five required columns and the factor column,
    under unique keys, pass the three checks that read columns by
    name. *)
Lemma column_checks_pass instruments w :
  NoDup (map fst (data (self w))) →
  (∀ k df, (k, df) ∈ data (self w) →
     ∀ col, col ∈ "factor" :: required_columns → col ∈ columns df) →
  (check_required_columns instruments w).1 = Return None ∧
  (∃ r, (check_missing_data instruments w).1 = Return r) ∧
  (∃ r, (check_missing_factor instruments w).1 = Return r).
Proof.
  intros Hnd Hcols.
  assert (∀ k df, (k, df) ∈ data_to_check (data (self w)) instruments →
            ∀ col, col ∈ "factor" :: required_columns → col ∈ columns df)
    as Hscope.
  { intros k df Hin. apply (Hcols k). by eapply data_to_check_subseteq. }
  split; [|split].
  - unfold check_required_columns, mbind, M_bind, outcome_bind, get_self,
      lift. simpl.
    rewrite for_each_skip; [done|].
    intros [k df] Hin. rewrite columns_body_exact.
    assert (missing_required df = []) as ->; [|done].
    unfold missing_required. apply elem_of_nil_inv.
    intros c [Habsent Hc]%list_elem_of_filter. apply Habsent.
    apply (Hscope k df Hin). by right.
  - rewrite check_missing_data_outcome.
    destruct (for_each_total
                (missing_data_body (missing_data_num (self w))) md_wf
                (data_to_check (data (self w)) instruments) md_init)
      as (rd & -> & Hwf).
    { by repeat split. }
    { intros acc [k df] Hin Hacc. rewrite missing_data_body_exact.
      destruct (md_flagged _ df); [|by exists acc].
      rewrite !getitem_isnull_sum;
        try (apply (Hscope k df Hin); unfold required_columns;
             rewrite !elem_of_cons; tauto).
      eexists. split; [done|]. by apply md_wf_snoc. }
    rewrite missing_data_frame_wf by done.
    destruct (md_rows rd); by eexists.
  - rewrite check_missing_factor_outcome.
    destruct (factor_loop_exact (data_to_check (data (self w)) instruments)
                {| fd_instruments := []; fd_missing_factor_col := [];
                   fd_missing_factor_data := [] |})
      as (rd & -> & Hwf & _); try done.
    { by apply NoDup_data_to_check. }
    { intros k df Hin _. apply (Hscope k df Hin). left. }
    { intros k Hk. by apply elem_of_nil in Hk. }
    rewrite factor_frame_wf by done.
    destruct (fd_rows rd); by eexists.
Qed.

(** X24. When D.features returns the six fields it is asked for, the
    tables of a checker built from a provider have the five required
    columns and the factor column after the renaming: on such a checker
    check_required_columns reports nothing, and check_missing_data and
    check_missing_factor do not raise, whatever instruments are
    selected. *)
Theorem qlib_tables_pass_column_checks (env : environment)
    (csv_path : option string) (uri : string) (fq : string)
    (price volume : float) (num : Z) (s : DataHealthChecker)
    (printed : list DataFrame) (instruments : option instruments_arg)
    (w : world) :
  init env csv_path (Some uri) fq price volume num = Done (s, printed) →
  truthy csv_path = false →
  (∀ k df, features env uri fq k required_fields = Ok df →
           columns df = required_fields) →
  self w = s →
  (check_required_columns instruments w).1 = Return None ∧
  (∃ r, (check_missing_data instruments w).1 = Return r) ∧
  (∃ r, (check_missing_factor instruments w).1 = Return r).
Proof.
  intros Hinit Hcsv Hfields Hself. unfold init in Hinit.
  rewrite Hcsv in Hinit.
  destruct (truthy (Some uri)); [|done]. simpl in Hinit.
  destruct (qlib_init env uri) as [[]|e]; [|done]. simpl in Hinit.
  destruct (load_qlib_data _ _ _) as [[s' df']|e] eqn:Hload; [|done].
  simpl in Hinit. injection Hinit as <- <-.
  apply load_qlib_data_done in Hload
    as (names & loaded & Hlist & Hloop & -> & Hprinted).
  simpl in *.
  destruct (load_loop _ _ _ _ _ _ Hloop) as (_ & Hnd & Hfrom & _).
  simpl in *. apply column_checks_pass; rewrite Hself; simpl.
  - apply Hnd. constructor.
  - intros k df0 Hin col Hcol.
    destruct (Hfrom k df0 Hin) as [?%elem_of_nil|(df & _ & Hf & ->)];
      [done|].
    rewrite columns_rename, (Hfields k df Hf).
    unfold required_columns in Hcol.
    repeat (apply elem_of_cons in Hcol as [->|Hcol]; [elem_of_concrete|]).
    by apply elem_of_nil in Hcol.
Qed.

(** ** The properties at work *)

Lemma check_missing_factor_rows_witness :
  excluded "N" = false ∧
  ∃ df factor,
    ("N", df) ∈ data_to_check
                  (data (self (new_world [("N", frame_null_factor)]
                                 CalendarNotFound))) None ∧
    getitem (df_columns df) "factor" = Return factor ∧
    all_null factor = true.
Proof.
  apply (check_missing_factor_rows None
           (new_world [("N", frame_null_factor)] CalendarNotFound)
           [("N", {| fr_missing_factor_col := false;
                     fr_missing_factor_data := true |})]
           eq_refl "N"
           {| fr_missing_factor_col := false;
              fr_missing_factor_data := true |}).
  left.
Defined.

Lemma check_missing_data_exact_witness :
  (check_missing_data None
     (new_world [("X", frame_X); ("F", frame_full)] CalendarNotFound)).1
  = Return (Some [("X", {| mr_open := 0; mr_high := 0; mr_low := 0;
                           mr_close := 0; mr_volume := 2 |})]).
Proof.
  apply (check_missing_data_exact None
           (new_world [("X", frame_X); ("F", frame_full)] CalendarNotFound)).
  intros k df Hin _ col Hcol. simpl in Hin. unfold required_columns in Hcol.
  apply elem_of_cons in Hin as [[= -> ->]|Hin]; [|in_singleton Hin];
    repeat (apply elem_of_cons in Hcol as [->|Hcol]; [elem_of_concrete|]);
    by apply elem_of_nil in Hcol.
Defined.

Lemma check_missing_data_raises_witness :
  ∃ col, col ∈ required_columns ∧
    (check_missing_data None
       (new_world [("N", frame_null_factor)] CalendarNotFound)).1
    = Raise (KeyError col).
Proof.
  apply (check_missing_data_raises None
           (new_world [("N", frame_null_factor)] CalendarNotFound)).
  exists "N", frame_null_factor, "open".
  split; [left|]. split; [reflexivity|]. split; [left | elem_of_concrete].
Defined.

Lemma check_required_columns_exact_witness :
  (check_required_columns None
     (new_world [("B", frame_B); ("F", frame_full)] CalendarNotFound)).1
  = Return (Some [("B", "volume")]).
Proof.
  apply (check_required_columns_exact None
           (new_world [("B", frame_B); ("F", frame_full)] CalendarNotFound)).
  intros k df Hin. simpl in Hin.
  apply elem_of_cons in Hin as [[= -> ->]|Hin]; [|in_singleton Hin];
    vm_compute; lia.
Defined.

Lemma check_required_columns_raises_witness :
  (check_required_columns None
     (new_world [("A", frame_A); ("F", frame_full)] CalendarNotFound)).1
  = Raise (ValueError "All arrays must be of the same length").
Proof.
  apply (check_required_columns_raises None
           (new_world [("A", frame_A); ("F", frame_full)] CalendarNotFound)).
  exists "A", frame_A. split; [left | vm_compute; lia].
Defined.

Lemma check_missing_factor_exact_witness :
  (check_missing_factor None
     (new_world data_index_and_N CalendarNotFound)).1
  = Return (Some [("N", {| fr_missing_factor_col := false;
                           fr_missing_factor_data := true |})]).
Proof.
  apply (check_missing_factor_exact None
           (new_world data_index_and_N CalendarNotFound)).
  - elem_of_concrete.
  - intros k df Hin Hex. simpl in Hin. unfold data_index_and_N in Hin.
    apply elem_of_cons in Hin as [[= -> ->]|Hin]; [done|].
    in_singleton Hin. elem_of_concrete.
Defined.

Lemma check_missing_factor_raises_witness :
  (check_missing_factor None
     (new_world [("F", frame_full); ("Z", frame_Z)] CalendarNotFound)).1
  = Raise (KeyError "factor").
Proof.
  apply (check_missing_factor_raises None
           (new_world [("F", frame_full); ("Z", frame_Z)] CalendarNotFound)).
  exists "Z", frame_Z. split; [right; left|].
  split; [reflexivity | elem_of_concrete].
Defined.

Lemma check_large_step_changes_no_dates_witness :
  ∃ e, (check_large_step_changes None
          (new_world [("Y.csv", frame_csv)] CalendarNotFound)).1 = Raise e
       ∧ no_date_error e.
Proof.
  apply (check_large_step_changes_no_dates None
           (new_world [("Y.csv", frame_csv)] CalendarNotFound)).
  intros k df Hin. simpl in Hin. in_singleton Hin.
  intros [entries Hentries]. simpl in Hentries. discriminate.
Defined.

Lemma large_step_needs_consecutive_values_witness :
  max_abs_change [Fin 1; NaN; Fin 100] = NaN ∧
  flagged (new_checker []) frame_gap "close" = false.
Proof.
  apply (large_step_needs_consecutive_values (new_checker []) frame_gap
           "close" [Fin 1; NaN; Fin 100]); [reflexivity|].
  intros [|[|j]] p x; simpl; intros Hp Hx;
    [injection Hx as <-; by right | injection Hp as <-; by left
    | discriminate].
Defined.

Lemma large_step_after_zero_witness :
  flagged (new_checker []) frame_zero "close" = true.
Proof.
  apply (large_step_after_zero (new_checker []) frame_zero "close"
           [Fin 0; Fin 5] 0 0 5 0.5);
    [reflexivity | reflexivity | reflexivity | reflexivity | reflexivity |].
  intros H. vm_compute in H. discriminate.
Defined.

Lemma fallback_reports_relative_gaps_witness :
  (check_missing_trading_days None
     (new_world [("W", frame_W)] CalendarNotFound)).1 = Return None.
Proof.
  apply (fallback_reports_relative_gaps None
           (new_world [("W", frame_W)] CalendarNotFound) eq_refl).
  intros k df k' df' t Hin Hin' Ht. simpl in Hin, Hin'.
  in_singleton Hin. in_singleton Hin'. exact Ht.
Defined.

Lemma range_index_misses_calendar_witness :
  ∃ r row,
    (check_missing_trading_days None
       (new_world [("Y.csv", frame_csv)] (CalendarFile (january 2)))).1
    = Return (Some r) ∧
    ("Y.csv", row) ∈ r ∧
    dr_total_missing_days row = 2%nat ∧
    dr_coverage_ratio row = "0.00%".
Proof.
  apply (range_index_misses_calendar None
           (new_world [("Y.csv", frame_csv)] (CalendarFile (january 2)))
           (january 2) "Y.csv" frame_csv 3).
  - reflexivity.
  - discriminate.
  - elem_of_concrete.
  - left.
  - reflexivity.
  - intros t Ht. unfold january in Ht. simpl in Ht.
    repeat (apply elem_of_cons in Ht as [->|Ht]; [by vm_compute|]).
    by apply elem_of_nil in Ht.
Defined.

Lemma empty_selection_reports_nothing_witness :
  (run_check CheckRequiredColumns (Some (KeyList ["B"]))
     (new_world [("A", frame_A)] CalendarNotFound)).1 = Return None.
Proof.
  apply (empty_selection_reports_nothing CheckRequiredColumns
           (Some (KeyList ["B"]))
           (new_world [("A", frame_A)] CalendarNotFound)).
  reflexivity.
Defined.

Lemma check_data_summary_witness :
  check_data None (new_session [("X", frame_X)] CalendarNotFound)
  = (Return tt,
     with_output (new_session [("X", frame_X)] CalendarNotFound)
       [Logged NoLargeStepChanges; Logged ColumnsComplete;
        Logged FactorPresent; Logged CalendarFileNotFound;
        Logged CompleteCoverage;
        SummaryHeader 1; SummaryRule; ProblemFound CheckMissingData;
        Printed CheckMissingData
          [("X", {| mr_open := 0; mr_high := 0; mr_low := 0;
                    mr_close := 0; mr_volume := 2 |})]]).
Proof.
  apply (check_data_summary None
           (new_session [("X", frame_X)] CalendarNotFound)
           (results
              (Some [("X", {| mr_open := 0; mr_high := 0; mr_low := 0;
                              mr_close := 0; mr_volume := 2 |})])
              None None None None)).
  intros []; reflexivity.
Defined.

Lemma check_data_string_argument_witness :
  ∃ rest,
    output (check_data (Some (KeyString "AB"))
              (new_session [("AB", frame_full)] CalendarNotFound)).2
    = InstrumentsNotFound ["A"; "B"] :: rest.
Proof.
  apply (check_data_string_argument
           (new_session [("AB", frame_full)] CalendarNotFound) "AB").
  - discriminate.
  - intros k Hk. simpl in Hk. apply list_elem_of_singleton in Hk as ->.
    simpl. lia.
Defined.

Lemma init_csv_tables_witness :
  map fst (data example_csv_checker) = ["SH600000.csv"; "SZ000001.csv"] ∧
  (∀ f, f ∈ ["SH600000.csv"; "notes.txt"; "SZ000001.csv"] →
     endswith f ".csv" = true →
     ∃ df, read_csv example_env (path_join "data" f) = Ok df
           ∧ getitem (data example_csv_checker) f = Return df) ∧
  @nil DataFrame = [].
Proof.
  apply (init_csv_tables example_env "data" None "day" (Fin 0.5) (Fin 3) 0
           example_csv_checker []
           ["SH600000.csv"; "notes.txt"; "SZ000001.csv"]).
  - reflexivity.
  - discriminate.
  - reflexivity.
  - elem_of_concrete.
Defined.

Lemma init_csv_keys_keep_extension_witness :
  data_to_check (data example_csv_checker)
    (Some (KeyList ["SH600000"; "SZ000001"])) = [].
Proof.
  apply (init_csv_keys_keep_extension example_env "data" None "day"
           (Fin 0.5) (Fin 3) 0 example_csv_checker []).
  - reflexivity.
  - discriminate.
  - intros k Hk.
    repeat (apply elem_of_cons in Hk as [->|Hk]; [reflexivity|]).
    by apply elem_of_nil in Hk.
Defined.

Lemma init_qlib_tables_witness :
  ∃ instruments,
    list_instruments example_env "cn_data" "day" = Ok instruments ∧
    NoDup (map fst (data example_qlib_checker)) ∧
    (∀ k, k ∈ map fst (data example_qlib_checker) ↔ k ∈ instruments) ∧
    (∀ k df', (k, df') ∈ data example_qlib_checker →
       ∃ df, features example_env "cn_data" "day" k required_fields = Ok df
             ∧ df' = rename df) ∧
    (∃ k df, last instruments = Some k ∧
       features example_env "cn_data" "day" k required_fields = Ok df ∧
       [rename (provider_frame "SZ000001" required_fields)] = [rename df]).
Proof.
  apply (init_qlib_tables example_env None "cn_data" "day" (Fin 0.5) (Fin 3)
           0 example_qlib_checker
           [rename (provider_frame "SZ000001" required_fields)]);
    reflexivity.
Defined.

Lemma qlib_tables_pass_column_checks_witness :
  let w := {| self := example_qlib_checker; calendar := CalendarNotFound;
              logged := [] |} in
  (check_required_columns None w).1 = Return None ∧
  (∃ r, (check_missing_data None w).1 = Return r) ∧
  (∃ r, (check_missing_factor None w).1 = Return r).
Proof.
  apply (qlib_tables_pass_column_checks example_env None "cn_data" "day"
           (Fin 0.5) (Fin 3) 0 example_qlib_checker
           [rename (provider_frame "SZ000001" required_fields)] None
           {| self := example_qlib_checker; calendar := CalendarNotFound;
              logged := [] |}).
  - reflexivity.
  - reflexivity.
  - intros k df [= <-]. reflexivity.
  - reflexivity.
Defined.

(** ** Worked examples *)

(** "N" has an all-null factor and no open column: check_missing_data
    raises first, and check_data never gets to the required columns. *)
Example check_data_stops_at_first_raise :
  check_data None (new_session [("N", frame_null_factor)] CalendarNotFound)
  = (Raise (KeyError "open"),
     new_session [("N", frame_null_factor)] CalendarNotFound).
Proof. reflexivity. Qed.

(** A ticker given as one string selects the keys inside it, not the
    keys around it. *)
Example string_filter_example :
  map fst (data_to_check
             [("600", frame_full); ("SH600000.csv", frame_csv)]
             (Some (KeyString "SH600000")))
  = ["600"].
Proof. reflexivity. Qed.

Example excluded_example :
  excluded "SH000300.csv" = true ∧ excluded "SH600000" = false.
Proof. split; reflexivity. Qed.

Example init_no_source :
  init example_env None (Some "") "day" (Fin 0.5) (Fin 3) 0
  = Failed (AssertionError "One of csv_path or qlib_dir should be provided.").
Proof. reflexivity. Qed.

Example init_two_sources :
  init example_env (Some "data") (Some "cn_data") "day" (Fin 0.5) (Fin 3) 0
  = Failed
      (AssertionError "Only one of csv_path or qlib_dir should be provided.").
Proof. reflexivity. Qed.

Example init_not_a_directory :
  init example_env (Some "notes.txt") None "day" (Fin 0.5) (Fin 3) 0
  = Failed (AssertionError "notes.txt should be a directory.").
Proof. reflexivity. Qed.

Example init_no_instruments :
  init example_env None (Some "empty") "day" (Fin 0.5) (Fin 3) 0
  = Failed (UnboundLocalError "df").
Proof. reflexivity. Qed.

Example init_from_provider :
  init example_env None (Some "cn_data") "day" (Fin 0.5) (Fin 3) 0
  = Done (example_qlib_checker,
          [rename (provider_frame "SZ000001" required_fields)]).
Proof. reflexivity. Qed.
